(** * go-mediawiki: the entity/value codec and the checkpoint manager

    A shallow embedding of the Go package [mediawiki]: the line-number
    framing helper, the checkpoint manager, and the JSON codec of Wikidata
    entities (amounts, timestamps, data values, snaks, statements).

    Conventions of the embedding.
    - Go's [int] is the 64-bit one; machine integers are [Z] with the
      wrap-around of each conversion written out.
    - A Go function returning [(T, error)] returns [result T].
    - A Go [string] is a string of bytes; what the JSON encoder makes of
      it is [utf8.coerce].  A value of an enumeration type is an [enum]:
      a declared constant or another integer.
    - Part I holds the definitions, Part II the lemmas and theorems; the
      last part of the file proves further properties of the code. *)

From Stdlib Require Import ZArith Lia List String Ascii Floats QArith Qcanon.
From Stdlib.Strings Require Import Byte.
From stdpp Require Import base gmap strings list sorting.

#[local] Set Warnings "-register-all".

Local Open Scope Z_scope.
#[local] Arguments String.append !s1 s2 : simpl nomatch.

(** * Part I: definitions *)

(** ** Errors and results *)

(** Go's [error] values.  [New] is [errors.New]/[errors.Errorf] after
    formatting; [WithMessage] is [errors.WithMessagef]; [NumError] is
    [*strconv.NumError]; [PathError] is [*fs.PathError]; the four before it
    are the errors of [encoding/json] itself (kept as structured values: their texts are the library's);
    [WithDocument] is an [errors.Errorf] whose message ends with the raw
    text of a JSON document, which the embedding does not carry. *)
Inductive error : Type :=
| New (msg : string)
| WithMessage (msg : string) (cause : error)
| NumError (func num why : string)
| UnmarshalTypeError (value goType : string)
| UnknownField (key : string)
| UnsupportedValue (what : string)
| SyntaxError (msg : string)
| PathError (op path why : string)
| WithDocument (msg : string).

Inductive result (A : Type) : Type :=
| Ok (a : A)
| Err (e : error).
Arguments Ok {A} & a.
Arguments Err {A} e.

#[global] Instance result_ret : MRet result := fun A a => Ok a.
#[global] Instance result_bind : MBind result := fun A B k r =>
  match r with
  | Ok a => k a
  | Err e => Err e
  end.

Definition is_ok {A : Type} (r : result A) : bool :=
  match r with Ok _ => true | Err _ => false end.

(** ** Machine integers *)

Module Int.
(** Two's-complement reading of the low [bits] bits of [z]. *)
Definition wrap (bits : Z) (z : Z) : Z :=
  (z + 2 ^ (bits - 1)) mod 2 ^ bits - 2 ^ (bits - 1).

Definition int32 (z : Z) : Z := wrap 32 z.
Definition int64 (z : Z) : Z := wrap 64 z.
Definition uint32 (z : Z) : Z := z mod 2 ^ 32.

Definition max_int : Z := 2 ^ 63 - 1.
Definition min_int : Z := - 2 ^ 63.

Definition in_int (z : Z) : Prop := min_int <= z <= max_int.

(** [x++] on an [int]. *)
Definition incr (z : Z) : Z := int64 (z + 1).

(** [byte(v)]: the low eight bits. *)
Definition to_byte (z : Z) : byte :=
  match Byte.of_N (Z.to_N (z mod 256)) with
  | Some b => b
  | None => x00
  end.

Definition of_byte (b : byte) : Z := Z.of_N (Byte.to_N b).
End Int.

(** ** The line-number framing helper *)

Module Framing.
Import Int.

(** [binary.LittleEndian.PutUint32]. *)
Definition PutUint32 (v : Z) : list byte :=
  [to_byte v; to_byte (Z.shiftr v 8); to_byte (Z.shiftr v 16);
   to_byte (Z.shiftr v 24)].

(** [binary.LittleEndian.Uint32] on a four-byte slice. *)
Definition Uint32 (b0 b1 b2 b3 : byte) : Z :=
  Z.lor (of_byte b0)
    (Z.lor (Z.shiftl (of_byte b1) 8)
       (Z.lor (Z.shiftl (of_byte b2) 16) (Z.shiftl (of_byte b3) 24))).

(** [binary.Write(buf, binary.LittleEndian, int32(lineNumber))] followed
    by [buf.Write(data)]: an [int32] is written as the four bytes of its
    unsigned 32-bit pattern. *)
Definition AddLineNumber (lineNumber : Z) (data : list byte) : list byte :=
  PutUint32 (uint32 (int32 lineNumber)) ++ data.

Definition ParseLineNumber (data : list byte) : result (Z * list byte) :=
  match data with
  | b0 :: b1 :: b2 :: b3 :: rest =>
      (* int(binary.LittleEndian.Uint32(data[:4])), data[4:] *)
      Ok (Uint32 b0 b1 b2 b3, rest)
  | _ => Err (New "data too short to contain line number")
  end.
End Framing.

(** ** Decimal digits: the parts of [strconv] and [fmt] the package uses *)

Module strconv.
(** The double-quote character. *)
Definition dq : string := String "034"%char EmptyString.

Definition is_digit (c : ascii) : bool :=
  let n := N_of_ascii c in ((48 <=? n)%N && (n <=? 57)%N)%bool.

Definition digit_val (c : ascii) : Z := Z.of_N (N_of_ascii c) - 48.

Definition digit_char (d : Z) : ascii := ascii_of_N (Z.to_N (48 + d)).

Fixpoint all_digits (s : string) : bool :=
  match s with
  | EmptyString => true
  | String c s' => (is_digit c && all_digits s')%bool
  end.

(** Value of a run of decimal digits, most significant first. *)
Fixpoint digits_value (acc : Z) (s : string) : Z :=
  match s with
  | EmptyString => acc
  | String c s' => digits_value (10 * acc + digit_val c) s'
  end.

(** The decimal digits of [n >= 0], prepended to [acc]; [fuel] bounds the
    number of digits. *)
Fixpoint utoa_go (fuel : nat) (n : Z) (acc : string) : string :=
  match fuel with
  | O => acc
  | S fuel' =>
      let acc' := String (digit_char (n mod 10)) acc in
      if n <? 10 then acc' else utoa_go fuel' (n / 10) acc'
  end.

Definition utoa (n : Z) : string :=
  utoa_go (S (Z.to_nat (Z.log2 n))) n EmptyString.

(** [strconv.Itoa]. *)
Definition Itoa (z : Z) : string :=
  if z <? 0 then "-" +:+ utoa (- z) else utoa z.

Definition ErrRange : string := "value out of range".
Definition ErrSyntax : string := "invalid syntax".

(** [strconv.ParseInt(s, 10, 0)]: an optional sign, then decimal digits;
    the value must fit Go's 64-bit [int]. *)
Definition ParseInt (s : string) : result Z :=
  let syntax := Err (NumError "ParseInt" s ErrSyntax) in
  let range := Err (NumError "ParseInt" s ErrRange) in
  let '(neg, ds) :=
    match s with
    | String c ds' =>
        if Ascii.eqb c "+" then (false, ds')
        else if Ascii.eqb c "-" then (true, ds')
        else (false, s)
    | EmptyString => (false, s)
    end in
  match ds with
  | EmptyString => syntax
  | _ =>
      if all_digits ds then
        let v := digits_value 0 ds in
        let z := if neg then - v else v in
        if (Int.min_int <=? z) && (z <=? Int.max_int) then Ok z else range
      else syntax
  end.
End strconv.

(** [err.Error()]. *)
Fixpoint Error (e : error) : string :=
  match e with
  | New msg => msg
  | WithMessage msg cause => msg +:+ ": " +:+ Error cause
  | NumError func num why =>
      "strconv." +:+ func +:+ ": parsing " +:+ strconv.dq +:+ num +:+ strconv.dq
        +:+ ": " +:+ why
  | UnmarshalTypeError value goType =>
      "json: cannot unmarshal " +:+ value +:+ " into Go value of type " +:+ goType
  | UnknownField key =>
      "json: unknown field " +:+ strconv.dq +:+ key +:+ strconv.dq
  | UnsupportedValue what => "json: unsupported value: " +:+ what
  | SyntaxError msg => msg
  | PathError op path why => op +:+ " " +:+ path +:+ ": " +:+ why
  | WithDocument msg => msg
  end.

Module fmt.
Import strconv.

Fixpoint zeros (n : nat) : string :=
  match n with
  | O => EmptyString
  | S n' => String "0" (zeros n')
  end.

(** The verbs [%0Nd] ([plus = false]) and [%+0Nd] ([plus = true]): sign,
    then zeros, then the digits, [width] characters at least. *)
Definition d0 (plus : bool) (width : nat) (z : Z) : string :=
  let sign := if z <? 0 then "-" else if plus then "+" else "" in
  let digits := utoa (Z.abs z) in
  sign +:+ zeros (width - String.length sign - String.length digits) +:+ digits.
End fmt.

(** ** Civil time: the part of package [time] the codec uses

    A [Time] is modelled by its UTC reading; locations and the monotonic
    clock are left out.  Go's [Time] counts seconds in 64 bits and is exact
    for the years of [representable]; its wrap-around beyond them is not
    modelled. *)

Module time.
Record Time : Type := mkTime {
  Year : Z; Month : Z; Day : Z;
  Hour : Z; Minute : Z; Second : Z; Nanosecond : Z
}.

(** [time.Time{}]: January 1, year 1, 00:00:00 UTC. *)
Definition zero : Time := mkTime 1 1 1 0 0 0 0.

Definition representable (year : Z) : Prop :=
  -292277022399 <= year <= 292277022399.

Definition isLeap (year : Z) : bool :=
  (year mod 4 =? 0) && (negb (year mod 100 =? 0) || (year mod 400 =? 0)).

Definition daysIn (year month : Z) : Z :=
  if month =? 2 then (if isLeap year then 29 else 28)
  else if (month =? 4) || (month =? 6) || (month =? 9) || (month =? 11)
       then 30 else 31.

(** Days from 1970-01-01 to the given proleptic Gregorian date. *)
Definition daysFromCivil (y m d : Z) : Z :=
  let y := if m <=? 2 then y - 1 else y in
  let era := y / 400 in
  let yoe := y - era * 400 in
  let doy := (153 * (if 2 <? m then m - 3 else m + 9) + 2) / 5 + d - 1 in
  let doe := yoe * 365 + yoe / 4 - yoe / 100 + doy in
  era * 146097 + doe - 719468.

Definition civilFromDays (z : Z) : Z * Z * Z :=
  let z := z + 719468 in
  let era := z / 146097 in
  let doe := z - era * 146097 in
  let yoe := (doe - doe / 1460 + doe / 36524 - doe / 146096) / 365 in
  let y := yoe + era * 400 in
  let doy := doe - (365 * yoe + yoe / 4 - yoe / 100) in
  let mp := (5 * doy + 2) / 153 in
  let d := doy - (153 * mp + 2) / 5 + 1 in
  let m := if mp <? 10 then mp + 3 else mp - 9 in
  (if m <=? 2 then y + 1 else y, m, d).

(** Go's [norm]: carry [lo] into [hi] so that [0 <= lo < base]. *)
Definition norm (hi lo base : Z) : Z * Z := (hi + lo / base, lo mod base).

(** [time.Date(year, month, day, hour, min, sec, nsec, time.UTC)]: values
    outside their usual ranges are normalized (October 32 is November 1). *)
Definition Date (year month day hour min sec nsec : Z) : Time :=
  let '(year, m) := norm year (month - 1) 12 in
  let month := m + 1 in
  let '(sec, nsec) := norm sec nsec 1000000000 in
  let '(min, sec) := norm min sec 60 in
  let '(hour, min) := norm hour min 60 in
  let '(day, hour) := norm day hour 24 in
  if (1 <=? day) && (day <=? daysIn year month) then
    mkTime year month day hour min sec nsec
  else
    let '(y, m, d) := civilFromDays (daysFromCivil year month 1 + day - 1) in
    mkTime y m d hour min sec nsec.
End time.

(** ** Time precision and calendar model *)

(** [TimePrecision] is a Go [int]; the decoder stores any integer. *)
Definition TimePrecision : Type := Z.

Module Precision.
Definition BillionYears : TimePrecision := 0.
Definition HoundredMillionYears : TimePrecision := 1.
Definition TenMillionYears : TimePrecision := 2.
Definition MillionYears : TimePrecision := 3.
Definition HoundredMillenniums : TimePrecision := 4.
Definition TenMillenniums : TimePrecision := 5.
Definition Millennium : TimePrecision := 6.
Definition Century : TimePrecision := 7.
Definition Decade : TimePrecision := 8.
Definition Year : TimePrecision := 9.
Definition Month : TimePrecision := 10.
Definition Day : TimePrecision := 11.
Definition Hour : TimePrecision := 12.
Definition Minute : TimePrecision := 13.
Definition Second : TimePrecision := 14.
End Precision.

(** ** [parseTime] and [formatTime] *)

(** The six submatches of
    [^([+-]\d{4,})-(\d{2})-(\d{2})T(\d{2}):(\d{2}):(\d{2})Z$]. *)
Record timeMatch : Type := mkMatch {
  m_year : string; m_month : string; m_day : string;
  m_hour : string; m_minute : string; m_second : string
}.

(** The longest prefix of digits and the rest. *)
Fixpoint span_digits (s : string) : string * string :=
  match s with
  | EmptyString => (EmptyString, EmptyString)
  | String c s' =>
      if strconv.is_digit c then
        let '(ds, rest) := span_digits s' in (String c ds, rest)
      else (EmptyString, s)
  end.

Definition two (a b : ascii) : string := String a (String b EmptyString).

(** [timeRegex.FindStringSubmatch]: [\d{4,}] is followed by [-], so it takes
    the whole run of digits after the sign. *)
Definition timeRegex (t : string) : option timeMatch :=
  match t with
  | String sign rest =>
      let '(ds, rest) := span_digits rest in
      match rest with
      | String c1 (String m1 (String m2 (String c2 (String d1 (String d2
        (String c3 (String h1 (String h2 (String c4 (String n1 (String n2
        (String c5 (String s1 (String s2 (String c6 EmptyString)))))))))))))))
        =>
          if (Ascii.eqb sign "+" || Ascii.eqb sign "-")
             && (4 <=? String.length ds)%nat
             && Ascii.eqb c1 "-" && Ascii.eqb c2 "-" && Ascii.eqb c3 "T"
             && Ascii.eqb c4 ":" && Ascii.eqb c5 ":" && Ascii.eqb c6 "Z"
             && strconv.all_digits (two m1 m2)
             && strconv.all_digits (two d1 d2)
             && strconv.all_digits (two h1 h2)
             && strconv.all_digits (two n1 n2)
             && strconv.all_digits (two s1 s2)
          then Some (mkMatch (String sign ds) (two m1 m2) (two d1 d2)
                       (two h1 h2) (two n1 n2) (two s1 s2))
          else None
      | _ => None
      end
  | EmptyString => None
  end.

(** [errors.WithMessagef(err, format, t)] around a [strconv.ParseInt]. *)
Definition parseField (what t field : string) : result Z :=
  match strconv.ParseInt field with
  | Ok z => Ok z
  | Err err =>
      Err (WithMessage
             ("unable to parse " +:+ what +:+ " " +:+ strconv.dq +:+ t
                +:+ strconv.dq) err)
  end.

Definition parseTime (t : string) : result time.Time :=
  match timeRegex t with
  | None =>
      Err (New ("unable to parse time " +:+ strconv.dq +:+ t +:+ strconv.dq))
  | Some m =>
      year ← parseField "year" t (m_year m);
      year ← (if year <? 0 then
                (* Wikidata uses historical numbering, Go astronomical. *)
                Ok (Int.incr year)
              else if year =? 0 then Err (New "year cannot be 0")
              else Ok year);
      month ← parseField "month" t (m_month m);
      let month := if month =? 0 then 1 else month in
      day ← parseField "day" t (m_day m);
      let day := if day =? 0 then 1 else day in
      hour ← parseField "hour" t (m_hour m);
      minute ← parseField "minute" t (m_minute m);
      second ← parseField "second" t (m_second m);
      Ok (time.Date year month day hour minute second 0)
  end.

Definition formatTime (t : time.Time) (p : TimePrecision) : string :=
  let year := time.Year t in
  (* historical numbering: subtract 1 below year 1 *)
  let year := if year <? 1 then year - 1 else year in
  let month := if p <? Precision.Month then 0 else time.Month t in
  let day := if p <? Precision.Day then 0 else time.Day t in
  fmt.d0 true 5 year +:+ "-" +:+ fmt.d0 false 2 month +:+ "-"
    +:+ fmt.d0 false 2 day +:+ "T" +:+ fmt.d0 false 2 (time.Hour t) +:+ ":"
    +:+ fmt.d0 false 2 (time.Minute t) +:+ ":" +:+ fmt.d0 false 2 (time.Second t)
    +:+ "Z".

(** ** UTF-8: what [encoding/json] does to the bytes of a Go string

    A Go string is any sequence of bytes.  The encoder of [encoding/json]
    reads it with [utf8.DecodeRuneInString], one sequence after the other,
    and writes U+FFFD for each byte that begins no valid sequence; so the
    string a document holds for the Go string [s] is [coerce s].  The
    escapes the encoder writes belong to the text layer and denote the
    same characters. *)

Module utf8.
Definition between (lo hi : N) (c : ascii) : bool :=
  let n := N_of_ascii c in ((lo <=? n)%N && (n <=? hi)%N)%bool.

(** A continuation byte: 80 to BF. *)
Definition cont : ascii -> bool := between 128 191.

(** U+FFFD, the replacement character: the bytes EF BF BD. *)
Definition RuneError (rest : string) : string :=
  String "239" (String "191" (String "189" rest)).

(** By the first byte of a sequence of two to four bytes: its length and
    the range of its second byte (the tables [first] and [acceptRanges] of
    package [utf8]).  The bytes 80 to C1 and F5 to FF begin no sequence. *)
Definition first (c : ascii) : option (nat * N * N) :=
  let n := N_of_ascii c in
  if (n <? 194)%N then None
  else if (n <=? 223)%N then Some (2%nat, 128, 191)%N
  else if (n =? 224)%N then Some (3%nat, 160, 191)%N
  else if (n =? 237)%N then Some (3%nat, 128, 159)%N
  else if (n <=? 239)%N then Some (3%nat, 128, 191)%N
  else if (n =? 240)%N then Some (4%nat, 144, 191)%N
  else if (n <=? 243)%N then Some (4%nat, 128, 191)%N
  else if (n =? 244)%N then Some (4%nat, 128, 143)%N
  else None.

Fixpoint coerce (s : string) : string :=
  match s with
  | EmptyString => EmptyString
  | String c s1 =>
      if (N_of_ascii c <? 128)%N then String c (coerce s1)
      else
        match first c, s1 with
        | Some (2%nat, lo, hi), String c1 s2 =>
            if between lo hi c1 then String c (String c1 (coerce s2))
            else RuneError (coerce s1)
        | Some (3%nat, lo, hi), String c1 (String c2 s3) =>
            if between lo hi c1 && cont c2
            then String c (String c1 (String c2 (coerce s3)))
            else RuneError (coerce s1)
        | Some (4%nat, lo, hi), String c1 (String c2 (String c3 s4)) =>
            if between lo hi c1 && cont c2 && cont c3
            then String c (String c1 (String c2 (String c3 (coerce s4))))
            else RuneError (coerce s1)
        | _, _ => RuneError (coerce s1)
        end
  end.

(** [utf8.ValidString]: nothing is replaced. *)
Definition ValidString (s : string) : Prop := coerce s = s.
End utf8.

(** ** JSON documents: the part of [encoding/json] the package relies on

    A document is modelled after lexing: the codec of this package is
    written against [encoding/json], whose text layer (escapes, white space,
    number syntax) is not part of the embedding.  [Num z] is an integer
    literal, [Flt f] any other number literal, read as the [float64] [f].
    [Str s] holds the characters of a string literal; the encoders below
    write [Str (utf8.coerce s)] for a Go string [s], also for the keys of a
    map.

    Decoding follows the library: members are assigned in order, a key
    names a field when it equals the field's name exactly or after case
    folding, [null] leaves a non-pointer field as it is, and a strict
    decoder ([DisallowUnknownFields]) refuses a key naming no field.  Of
    several errors in one document the embedding reports the first in
    document order. *)

Module json.
Inductive value : Type :=
| Null
| Bool (b : bool)
| Num (z : Z)
| Flt (f : float)
| Str (s : string)
| Arr (l : list value)
| Obj (members : list (string * value)).

Definition kind (v : value) : string :=
  match v with
  | Null => "null"
  | Bool _ => "bool"
  | Num _ | Flt _ => "number"
  | Str _ => "string"
  | Arr _ => "array"
  | Obj _ => "object"
  end.

Definition upper (c : ascii) : ascii :=
  let n := N_of_ascii c in
  if ((97 <=? n)%N && (n <=? 122)%N)%bool then ascii_of_N (n - 32) else c.

(** The library's [foldName]: every character is replaced by the smallest
    one of its case-folding class.  The classes of the ASCII letters hold
    the two cases of the letter and, for [s] and [k], also U+017F (the
    bytes C5 BF) and U+212A (the bytes E2 84 AA).  The field names of this
    package are ASCII, so a key is folded onto one of them exactly when
    these rules fold it so; the other characters are left as they are. *)
Fixpoint foldName (s : string) : string :=
  match s with
  | EmptyString => EmptyString
  | String c s1 =>
      match s1 with
      | String c1 s2 =>
          if Ascii.eqb c "197" && Ascii.eqb c1 "191"
          then String "S" (foldName s2)
          else
            match s2 with
            | String c2 s3 =>
                if Ascii.eqb c "226" && Ascii.eqb c1 "132"
                   && Ascii.eqb c2 "170"
                then String "K" (foldName s3)
                else String (upper c) (foldName s1)
            | EmptyString => String (upper c) (foldName s1)
            end
      | EmptyString => String (upper c) (foldName s1)
      end
  end.

(** The field a key names: an exact match first, then a folded one. *)
Definition field (fields : list string) (key : string) : option string :=
  match find (String.eqb key) fields with
  | Some f => Some f
  | None => find (fun f => String.eqb (foldName key) (foldName f)) fields
  end.

Fixpoint foldM {A B : Type} (f : B -> A -> result B) (l : list A) (b : B)
  : result B :=
  match l with
  | [] => Ok b
  | a :: l' => b' ← f b a; foldM f l' b'
  end.

Fixpoint mapM {A B : Type} (f : A -> result B) (l : list A)
  : result (list B) :=
  match l with
  | [] => Ok []
  | a :: l' => b ← f a; bs ← mapM f l'; Ok (b :: bs)
  end.

(** Decoding an object into a struct whose current value is [cur]:
    [set f x s] stores member value [x] into field [f] of [s]. *)
Definition object {T : Type} (strict : bool) (goType : string)
    (fields : list string) (set : string -> value -> T -> result T)
    (v : value) (cur : T) : result T :=
  match v with
  | Null => Ok cur
  | Obj members =>
      foldM (fun s '(key, x) =>
               match field fields key with
               | Some f => set f x s
               | None => if strict then Err (UnknownField key) else Ok s
               end) members cur
  | _ => Err (UnmarshalTypeError (kind v) goType)
  end.

Definition string_ (v : value) (cur : string) : result string :=
  match v with
  | Null => Ok cur
  | Str s => Ok s
  | _ => Err (UnmarshalTypeError (kind v) "string")
  end.

(** [int] and [int64] targets. *)
Definition int (v : value) (cur : Z) : result Z :=
  match v with
  | Null => Ok cur
  | Num z =>
      if (Int.min_int <=? z) && (z <=? Int.max_int) then Ok z
      else Err (UnmarshalTypeError "number" "int")
  | _ => Err (UnmarshalTypeError (kind v) "int")
  end.

Definition float_of_Z (z : Z) : float :=
  SF2Prim (binary_normalize prec emax z 0 false).

Definition finite (f : float) : bool :=
  negb (PrimFloat.is_nan f || PrimFloat.is_infinity f).

Definition float64 (v : value) (cur : float) : result float :=
  match v with
  | Null => Ok cur
  | Flt f => Ok f
  | Num z =>
      let f := float_of_Z z in
      if finite f then Ok f else Err (UnmarshalTypeError "number" "float64")
  | _ => Err (UnmarshalTypeError (kind v) "float64")
  end.

(** A slice target: the elements are decoded from zero values. *)
Definition slice {T : Type} (goType : string)
    (elem : value -> result T) (v : value) : result (list T) :=
  match v with
  | Null => Ok []
  | Arr l => mapM elem l
  | _ => Err (UnmarshalTypeError (kind v) goType)
  end.

(** A [map[string]T] target: members are stored into the current map. *)
Definition map_ {T : Type} (goType : string)
    (elem : value -> result T) (v : value) (cur : gmap string T)
  : result (gmap string T) :=
  match v with
  | Null => Ok ∅
  | Obj members =>
      foldM (fun m '(key, x) => e ← elem x; Ok (<[key := e]> m)) members cur
  | _ => Err (UnmarshalTypeError (kind v) goType)
  end.

(** Encoding a [float64]: NaN and infinities are refused.  The literal
    written for a whole number has no fraction; it is kept as [Flt f]
    here, since only [float64] targets read what this package writes for a
    [float64], and they read both literals as [f]. *)
Definition of_float (f : float) : result value :=
  if finite f then Ok (Flt f) else Err (UnsupportedValue "float64").

(** [json.Marshal] of a Go [string]. *)
Definition of_string (s : string) : value := Str (utf8.coerce s).

(** Members of an encoded map, in the order of their keys. *)
Definition sorted {T : Type} (l : list (string * T)) : list (string * T) :=
  merge_sort (fun a b => String.le (fst a) (fst b)) l.

(** The keys are sorted as the map has them, and written like strings. *)
Definition of_map {T : Type} (elem : T -> result value) (m : gmap string T)
  : result value :=
  ms ← mapM (fun '(k, x) => v ← elem x; Ok (utf8.coerce k, v))
        (sorted (map_to_list m));
  Ok (Obj ms).

Definition of_slice {T : Type} (elem : T -> result value) (l : list T)
  : result value :=
  vs ← mapM elem l; Ok (Arr vs).

(** Concatenation of the members present ([omitempty] drops some). *)
Definition members (l : list (list (string * value))) : value :=
  Obj (concat l).
End json.

(** ** Enumerations

    An enumeration of the package is a Go [int] type with constants
    declared by [iota].  A value of such a type is one of the constants or
    any other integer: with [n] constants, [Const c] is the constant [c],
    [Below p] is the integer [- p] and [Above k] the integer [n + k].  The
    type [t] of each module below lists the constants; a constant is used
    as a value of the enumeration through the coercion [const].  An
    encoder has no case for an integer that is no constant and writes the
    empty string for it. *)

Inductive enum (T : Type) : Type :=
| Const (c : T)
| Below (p : positive)
| Above (k : N).
Arguments Const {T} c.
Arguments Below {T} p.
Arguments Above {T} k.

(** The value is one of the declared constants. *)
Definition declared {T : Type} (x : enum T) : Prop :=
  match x with
  | Const _ => True
  | _ => False
  end.

(** [json.Unmarshal(b, &s)] for a [string] target, then the [switch],
    which stores a constant. *)
Definition unmarshalToken {T : Type} (what : string)
    (table : list (string * T)) (b : json.value) : result (enum T) :=
  s ← json.string_ b "";
  match find (fun e => String.eqb s (fst e)) table with
  | Some e => Ok (Const (snd e))
  | None => Err (New ("unknown " +:+ what +:+ ": " +:+ s))
  end.

Module EntityType.
Inductive t : Type := Item | Property.

Definition const : t -> enum t := Const.

Definition MarshalJSON (x : enum t) : json.value :=
  json.Str match x with
           | Const Item => "item"
           | Const Property => "property"
           | _ => ""
           end.

Definition UnmarshalJSON : json.value -> result (enum t) :=
  unmarshalToken "entity type" [("item", Item); ("property", Property)].
End EntityType.
Coercion EntityType.const : EntityType.t >-> enum.

Module WikiBaseEntityType.
Inductive t : Type :=
  ItemType | PropertyType | LexemeType | FormType | SenseType.

Definition const : t -> enum t := Const.

Definition MarshalJSON (x : enum t) : json.value :=
  json.Str match x with
           | Const ItemType => "item"
           | Const PropertyType => "property"
           | Const LexemeType => "lexeme"
           | Const FormType => "form"
           | Const SenseType => "sense"
           | _ => ""
           end.

Definition UnmarshalJSON : json.value -> result (enum t) :=
  unmarshalToken "wikibase entity type"
    [("item", ItemType); ("property", PropertyType); ("lexeme", LexemeType);
     ("form", FormType); ("sense", SenseType)].
End WikiBaseEntityType.
Coercion WikiBaseEntityType.const : WikiBaseEntityType.t >-> enum.

Module StatementType.
Inductive t : Type := StatementT.

Definition const : t -> enum t := Const.

Definition MarshalJSON (x : enum t) : json.value :=
  json.Str match x with Const StatementT => "statement" | _ => "" end.

Definition UnmarshalJSON : json.value -> result (enum t) :=
  unmarshalToken "statement type" [("statement", StatementT)].
End StatementType.
Coercion StatementType.const : StatementType.t >-> enum.

Module StatementRank.
Inductive t : Type := Preferred | Normal | Deprecated.

Definition const : t -> enum t := Const.

Definition MarshalJSON (x : enum t) : json.value :=
  json.Str match x with
           | Const Preferred => "preferred"
           | Const Normal => "normal"
           | Const Deprecated => "deprecated"
           | _ => ""
           end.

Definition UnmarshalJSON : json.value -> result (enum t) :=
  unmarshalToken "statement rank"
    [("preferred", Preferred); ("normal", Normal);
     ("deprecated", Deprecated)].
End StatementRank.
Coercion StatementRank.const : StatementRank.t >-> enum.

Module SnakType.
Inductive t : Type := Value | SomeValue | NoValue.

Definition const : t -> enum t := Const.

Definition MarshalJSON (x : enum t) : json.value :=
  json.Str match x with
           | Const Value => "value"
           | Const SomeValue => "somevalue"
           | Const NoValue => "novalue"
           | _ => ""
           end.

Definition UnmarshalJSON : json.value -> result (enum t) :=
  unmarshalToken "snak type"
    [("value", Value); ("somevalue", SomeValue); ("novalue", NoValue)].
End SnakType.
Coercion SnakType.const : SnakType.t >-> enum.

Module DataType.
Inductive t : Type :=
| WikiBaseItem | ExternalID | String | Quantity | Time | GlobeCoordinate
| CommonsMedia | MonolingualText | URL | GeoShape | WikiBaseLexeme
| WikiBaseSense | WikiBaseProperty | Math | MusicalNotation | WikiBaseForm
| TabularData.

Definition token (x : t) : string :=
  match x with
  | WikiBaseItem => "wikibase-item"
  | ExternalID => "external-id"
  | String => "string"
  | Quantity => "quantity"
  | Time => "time"
  | GlobeCoordinate => "globe-coordinate"
  | CommonsMedia => "commonsMedia"
  | MonolingualText => "monolingualtext"
  | URL => "url"
  | GeoShape => "geo-shape"
  | WikiBaseLexeme => "wikibase-lexeme"
  | WikiBaseSense => "wikibase-sense"
  | WikiBaseProperty => "wikibase-property"
  | Math => "math"
  | MusicalNotation => "musical-notation"
  | WikiBaseForm => "wikibase-form"
  | TabularData => "tabular-data"
  end.

Definition const : t -> enum t := Const.

Definition MarshalJSON (x : enum t) : json.value :=
  json.Str match x with Const c => token c | _ => "" end.

Definition UnmarshalJSON : json.value -> result (enum t) :=
  unmarshalToken "data type"
    [("wikibase-item", WikiBaseItem); ("external-id", ExternalID);
     ("string", String); ("quantity", Quantity); ("time", Time);
     ("globe-coordinate", GlobeCoordinate); ("commonsMedia", CommonsMedia);
     ("monolingualtext", MonolingualText); ("url", URL);
     ("geo-shape", GeoShape); ("wikibase-lexeme", WikiBaseLexeme);
     ("wikibase-sense", WikiBaseSense);
     ("wikibase-property", WikiBaseProperty); ("math", Math);
     ("musical-notation", MusicalNotation); ("wikibase-form", WikiBaseForm);
     ("tabular-data", TabularData)].
End DataType.
Coercion DataType.const : DataType.t >-> enum.

Module CalendarModel.
Inductive t : Type := Gregorian | Julian.

Definition const : t -> enum t := Const.

Definition MarshalJSON (x : enum t) : json.value :=
  json.Str match x with
           | Const Gregorian => "https://www.wikidata.org/wiki/Q1985727"
           | Const Julian => "https://www.wikidata.org/wiki/Q1985786"
           | _ => ""
           end.

Definition UnmarshalJSON : json.value -> result (enum t) :=
  unmarshalToken "calendar model"
    [("https://www.wikidata.org/wiki/Q1985727", Gregorian);
     ("http://www.wikidata.org/entity/Q1985727", Gregorian);
     ("https://www.wikidata.org/wiki/Q1985786", Julian);
     ("http://www.wikidata.org/entity/Q1985786", Julian)].
End CalendarModel.
Coercion CalendarModel.const : CalendarModel.t >-> enum.

(** ** Amount: an arbitrary-precision rational ([big.Rat])

    A [big.Rat] is always in lowest terms with a positive denominator: the
    canonical rationals [Qc]. *)

Module Amount.
Import strconv.

Definition num (a : Qc) : Z := Qnum (this a).
Definition den (a : Qc) : Z := Zpos (Qden (this a)).

(** [Rat.Sign]. *)
Definition Sign (a : Qc) : Z := Z.sgn (num a).

(** How often [p] divides [m], and what is left of [m]. *)
Fixpoint strip (fuel : nat) (p m count : Z) : Z * Z :=
  match fuel with
  | O => (m, count)
  | S fuel' =>
      if m mod p =? 0 then strip fuel' p (m / p) (count + 1) else (m, count)
  end.

(** The multiplicative order of 10 modulo [m], counted from [q]. *)
Fixpoint order (fuel : nat) (m r q : Z) : Z :=
  match fuel with
  | O => q
  | S fuel' => if r =? 1 then q else order fuel' m (r * 10 mod m) (q + 1)
  end.

(** Modelled from the library's documentation: [x.RatPrecision] of
    gitlab.com/tozd/go/x, which is not part of this repository.  It
    returns the number of non-repeating digits to the right of the decimal
    point and the number of repeating digits which cyclicly follow. *)
Definition RatPrecision (a : Qc) : Z * Z :=
  let fuel := S (Z.to_nat (Z.log2 (den a))) in
  let '(m, q2) := strip fuel 2 (den a) 0 in
  let '(m, q5) := strip fuel 5 m 0 in
  let l := Z.max q2 q5 in
  if m =? 1 then (l, 0) else (l, order (Z.to_nat m) m (10 mod m) 1).

(** [Rat.FloatString(prec)]: [prec] digits after the decimal point, the
    last one rounded half away from zero. *)
Definition FloatString (x : Qc) (prec : Z) : string :=
  if den x =? 1 then
    Itoa (num x)
      +:+ (if 0 <? prec then "." +:+ fmt.zeros (Z.to_nat prec) else "")
  else
    let q := Z.abs (num x) / den x in
    let r := Z.abs (num x) mod den x in
    let p := if 0 <? prec then 10 ^ prec else 1 in
    let r := r * p in
    let r2 := r mod den x in
    let r := r / den x in
    let '(q, r) :=
      if den x <=? r2 + r2 then
        let r := r + 1 in
        if p <=? r then (q + 1, r - p) else (q, r)
      else (q, r) in
    (if num x <? 0 then "-" else "") +:+ utoa q
      +:+ (if 0 <? prec then
             let rs := utoa r in
             "." +:+ fmt.zeros (Z.to_nat prec - String.length rs) +:+ rs
           else "").

(** [func (a *Amount) String() string]. *)
Definition String_ (a : Qc) : string :=
  let '(l, q) := RatPrecision a in FloatString a (l + q).

Definition MarshalJSON (a : Qc) : json.value :=
  json.Str ((if 0 <=? Sign a then "+" else "") +:+ String_ a).

(** [Rat.SetString] on decimal notation: an optional sign, digits, and
    optionally a point and more digits, at least one digit in all.  The
    other notations the library reads (fractions, exponents, base
    prefixes) are not written by [MarshalJSON] and are not modelled: they
    are refused here. *)
Definition SetString (s : string) : option Qc :=
  let '(neg, body) :=
    match s with
    | String c body' =>
        if Ascii.eqb c "+" then (false, body')
        else if Ascii.eqb c "-" then (true, body')
        else (false, s)
    | EmptyString => (false, s)
    end in
  let '(ip, rest) := span_digits body in
  let make (ds : string) (scale : nat) : option Qc :=
    match ds with
    | EmptyString => None
    | _ =>
        let v := digits_value 0 ds in
        Some (Q2Qc (Qmake (if neg then - v else v)
                      (Z.to_pos (10 ^ Z.of_nat scale))))
    end in
  match rest with
  | EmptyString => make ip O
  | String c fp =>
      if Ascii.eqb c "." && all_digits fp
      then make (ip +:+ fp) (String.length fp) else None
  end.

Definition UnmarshalJSON (b : json.value) : result Qc :=
  s ← json.string_ b "";
  match SetString s with
  | Some a => Ok a
  | None => Err (New ("cannot parse amount into number: " +:+ s))
  end.
End Amount.

(** ** The values of a [DataValue] *)

Module WikiBaseEntityIDValue.
Record t : Type := mk { Type_ : enum WikiBaseEntityType.t; ID : string }.

Definition MarshalJSON (v : t) : json.value :=
  json.Obj [("entity-type", WikiBaseEntityType.MarshalJSON (Type_ v));
            ("id", json.of_string (ID v))].
End WikiBaseEntityIDValue.

Module GlobeCoordinateValue.
Record t : Type := mk {
  Latitude : float; Longitude : float; Precision : float; Globe : string
}.

Definition MarshalJSON (v : t) : result json.value :=
  lat ← json.of_float (Latitude v);
  lon ← json.of_float (Longitude v);
  prec ← json.of_float (Precision v);
  Ok (json.Obj [("latitude", lat); ("longitude", lon); ("precision", prec);
                ("globe", json.of_string (Globe v))]).
End GlobeCoordinateValue.

Module MonolingualTextValue.
Record t : Type := mk { Language : string; Text : string }.

Definition zero : t := mk "" "".

Definition MarshalJSON (v : t) : json.value :=
  json.Obj [("language", json.of_string (Language v));
            ("text", json.of_string (Text v))].

Definition decode (strict : bool) : json.value -> t -> result t :=
  json.object strict "MonolingualTextValue" ["language"; "text"]
    (fun f x s =>
       if String.eqb f "language" then
         l ← json.string_ x (Language s); Ok (mk l (Text s))
       else
         e ← json.string_ x (Text s); Ok (mk (Language s) e)).
End MonolingualTextValue.

Module QuantityValue.
Record t : Type := mk {
  Amount_ : Qc; UpperBound : option Qc; LowerBound : option Qc;
  Unit : string
}.

Definition zero : t := mk (Q2Qc 0) None None "".

Definition omitempty (key : string) (a : option Qc)
  : list (string * json.value) :=
  match a with
  | Some a => [(key, Amount.MarshalJSON a)]
  | None => []
  end.

Definition MarshalJSON (v : t) : json.value :=
  json.members
    [[("amount", Amount.MarshalJSON (Amount_ v))];
     omitempty "upperBound" (UpperBound v);
     omitempty "lowerBound" (LowerBound v);
     [("unit", json.of_string (Unit v))]].

(** A [*Amount] field: [null] stores [nil]. *)
Definition pointer (x : json.value) : result (option Qc) :=
  match x with
  | json.Null => Ok None
  | _ => a ← Amount.UnmarshalJSON x; Ok (Some a)
  end.

Definition decode (strict : bool) : json.value -> t -> result t :=
  json.object strict "QuantityValue"
    ["amount"; "upperBound"; "lowerBound"; "unit"]
    (fun f x s =>
       if String.eqb f "amount" then
         a ← Amount.UnmarshalJSON x;
         Ok (mk a (UpperBound s) (LowerBound s) (Unit s))
       else if String.eqb f "upperBound" then
         a ← pointer x; Ok (mk (Amount_ s) a (LowerBound s) (Unit s))
       else if String.eqb f "lowerBound" then
         a ← pointer x; Ok (mk (Amount_ s) (UpperBound s) a (Unit s))
       else
         u ← json.string_ x (Unit s);
         Ok (mk (Amount_ s) (UpperBound s) (LowerBound s) u)).
End QuantityValue.

Module TimeValue.
Record t : Type := mk {
  Time : time.Time; Precision : TimePrecision;
  Calendar : enum CalendarModel.t
}.

Definition MarshalJSON (v : t) : json.value :=
  let formatedTime := formatTime (Time v) (Precision v) in
  json.Obj [("time", json.of_string formatedTime);
            ("precision", json.Num (Precision v));
            ("calendarmodel", CalendarModel.MarshalJSON (Calendar v))].

(** The wire form of a time value, with the fields the decoder of a
    [DataValue] accepts and ignores. *)
Record wire : Type := mkWire {
  w_Time : string; w_Precision : TimePrecision;
  w_Calendar : enum CalendarModel.t;
  w_Timezone : Z; w_Before : Z; w_After : Z
}.

Definition wire_zero : wire :=
  mkWire "" 0 CalendarModel.Gregorian 0 0 0.

Definition UnmarshalJSON (b : json.value) : result t :=
  d ← json.object false "t" ["time"; "precision"; "calendarmodel"]
        (fun f x s =>
           if String.eqb f "time" then
             tm ← json.string_ x (w_Time s);
             Ok (mkWire tm (w_Precision s) (w_Calendar s) 0 0 0)
           else if String.eqb f "precision" then
             p ← json.int x (w_Precision s);
             Ok (mkWire (w_Time s) p (w_Calendar s) 0 0 0)
           else
             c ← CalendarModel.UnmarshalJSON x;
             Ok (mkWire (w_Time s) (w_Precision s) c 0 0 0))
        b wire_zero;
  tm ← parseTime (w_Time d);
  Ok (mk tm (w_Precision d) (w_Calendar d)).
End TimeValue.

(** ** [DataValue] *)

Module DataValue.
(** The dynamic types [Value] can hold: the seven the package declares
    for it, and any other Go value, kept as the text [%+v] prints for it
    (a pointer to one of the seven is such a value). *)
Inductive any : Type :=
| ErrorValue (e : string)
| StringValue (s : string)
| WikiBaseEntityIDValue (v : WikiBaseEntityIDValue.t)
| GlobeCoordinateValue (v : GlobeCoordinateValue.t)
| MonolingualTextValue (v : MonolingualTextValue.t)
| QuantityValue (v : QuantityValue.t)
| TimeValue (v : TimeValue.t)
| OtherValue (text : string).

(** [Value interface{}]: [None] is the [nil] interface. *)
Record t : Type := mk { Value : option any }.

Definition tagged (type : string) (value : json.value) : json.value :=
  json.Obj [("type", json.Str type); ("value", value)].

Definition MarshalJSON (v : t) : result json.value :=
  match Value v with
  | Some (ErrorValue value) =>
      Ok (json.Obj [("error", json.of_string value)])
  | Some (StringValue value) => Ok (tagged "string" (json.of_string value))
  | Some (WikiBaseEntityIDValue value) =>
      Ok (tagged "wikibase-entityid"
            (WikiBaseEntityIDValue.MarshalJSON value))
  | Some (GlobeCoordinateValue value) =>
      b ← GlobeCoordinateValue.MarshalJSON value;
      Ok (tagged "globecoordinate" b)
  | Some (MonolingualTextValue value) =>
      Ok (tagged "monolingualtext" (MonolingualTextValue.MarshalJSON value))
  | Some (QuantityValue value) =>
      Ok (tagged "quantity" (QuantityValue.MarshalJSON value))
  | Some (TimeValue value) =>
      Ok (tagged "time" (TimeValue.MarshalJSON value))
  | Some (OtherValue text) => Err (New ("unknown data value type: " +:+ text))
  | None => Err (New "unknown data value type: <nil>")
  end.

(** [var t struct { Type string; Error string }]. *)
Definition header (b : json.value) : result (string * string) :=
  json.object false "struct" ["type"; "error"]
    (fun f x s =>
       if String.eqb f "type" then
         ty ← json.string_ x (fst s); Ok (ty, snd s)
       else
         e ← json.string_ x (snd s); Ok (fst s, e))
    b ("", "").

(** [var t struct { Type string; Value X }] read by
    [x.UnmarshalWithoutUnknownFields]; the result is [t.Value]. *)
Definition payload {X : Type} (inner : json.value -> X -> result X)
    (zero : X) (b : json.value) : result X :=
  s ← json.object true "struct" ["type"; "value"]
        (fun f x s =>
           if String.eqb f "type" then
             ty ← json.string_ x (fst s); Ok (ty, snd s)
           else
             v ← inner x (snd s); Ok (fst s, v))
        b ("", zero);
  Ok (snd s).

(** The anonymous struct of the entity-id case, with [numeric-id]. *)
Definition entityid
  : json.value -> enum WikiBaseEntityType.t * string * Z
    -> result (enum WikiBaseEntityType.t * string * Z) :=
  json.object true "struct" ["entity-type"; "id"; "numeric-id"]
    (fun f x '(ty, id, numeric) =>
       if String.eqb f "entity-type" then
         ty ← WikiBaseEntityType.UnmarshalJSON x; Ok (ty, id, numeric)
       else if String.eqb f "id" then
         id ← json.string_ x id; Ok (ty, id, numeric)
       else
         numeric ← json.int x numeric; Ok (ty, id, numeric)).

(** The anonymous struct of the coordinate case, with [altitude]. *)
Definition globe
  : json.value -> float * float * float * float * string
    -> result (float * float * float * float * string) :=
  json.object true "struct"
    ["latitude"; "longitude"; "altitude"; "precision"; "globe"]
    (fun f x '(lat, lon, alt, prec, g) =>
       if String.eqb f "latitude" then
         lat ← json.float64 x lat; Ok (lat, lon, alt, prec, g)
       else if String.eqb f "longitude" then
         lon ← json.float64 x lon; Ok (lat, lon, alt, prec, g)
       else if String.eqb f "altitude" then
         alt ← json.float64 x alt; Ok (lat, lon, alt, prec, g)
       else if String.eqb f "precision" then
         prec ← json.float64 x prec; Ok (lat, lon, alt, prec, g)
       else
         g ← json.string_ x g; Ok (lat, lon, alt, prec, g)).

(** The anonymous struct of the time case, with [timezone], [before]
    and [after]. *)
Definition timewire : json.value -> TimeValue.wire -> result TimeValue.wire :=
  json.object true "struct"
    ["time"; "precision"; "calendarmodel"; "timezone"; "before"; "after"]
    (fun f x s =>
       let '(TimeValue.mkWire tm p c tz bf af) := s in
       if String.eqb f "time" then
         tm ← json.string_ x tm; Ok (TimeValue.mkWire tm p c tz bf af)
       else if String.eqb f "precision" then
         p ← json.int x p; Ok (TimeValue.mkWire tm p c tz bf af)
       else if String.eqb f "calendarmodel" then
         c ← CalendarModel.UnmarshalJSON x;
         Ok (TimeValue.mkWire tm p c tz bf af)
       else if String.eqb f "timezone" then
         tz ← json.int x tz; Ok (TimeValue.mkWire tm p c tz bf af)
       else if String.eqb f "before" then
         bf ← json.int x bf; Ok (TimeValue.mkWire tm p c tz bf af)
       else
         af ← json.int x af; Ok (TimeValue.mkWire tm p c tz bf af)).

Definition UnmarshalJSON (b : json.value) : result t :=
  t ← header b;
  let '(type, error) := t in
  if negb (String.eqb error "") then Ok (mk (Some (ErrorValue error)))
  else if String.eqb type "string" then
    value ← payload json.string_ "" b;
    Ok (mk (Some (StringValue value)))
  else if String.eqb type "wikibase-entityid" then
    value ← payload entityid (Const WikiBaseEntityType.ItemType, "", 0) b;
    let '(ty, id, _) := value in
    Ok (mk (Some (WikiBaseEntityIDValue (WikiBaseEntityIDValue.mk ty id))))
  else if String.eqb type "globecoordinate" then
    value ← payload globe (0, 0, 0, 0, "")%float b;
    let '(lat, lon, _, prec, g) := value in
    Ok (mk (Some (GlobeCoordinateValue
                    (GlobeCoordinateValue.mk lat lon prec g))))
  else if String.eqb type "monolingualtext" then
    value ← payload (MonolingualTextValue.decode true)
              MonolingualTextValue.zero b;
    Ok (mk (Some (MonolingualTextValue value)))
  else if String.eqb type "quantity" then
    value ← payload (QuantityValue.decode true) QuantityValue.zero b;
    Ok (mk (Some (QuantityValue value)))
  else if String.eqb type "time" then
    value ← payload timewire TimeValue.wire_zero b;
    match parseTime (TimeValue.w_Time value) with
    | Err err => Ok (mk (Some (ErrorValue (Error err))))
    | Ok parsedTime =>
        Ok (mk (Some (TimeValue
                        (TimeValue.mk parsedTime
                           (TimeValue.w_Precision value)
                           (TimeValue.w_Calendar value)))))
    end
  else
    Err (WithDocument ("unknown data value type " +:+ strconv.dq +:+ type
                         +:+ strconv.dq +:+ ": ")).
End DataValue.

(** ** Entities

    The structs below have no JSON methods of their own: they are encoded
    and decoded field by field by [encoding/json].  A [nil] slice or map
    and an empty one are not distinguished. *)

Module omit.
(** Members under [omitempty]. *)
Definition str (key s : string) : list (string * json.value) :=
  if String.eqb s "" then [] else [(key, json.of_string s)].

Definition strs (key : string) (l : list string)
  : list (string * json.value) :=
  match l with
  | [] => []
  | _ => [(key, json.Arr (json.of_string <$> l))]
  end.

Definition slice {T : Type} (key : string) (elem : T -> result json.value)
    (l : list T) : result (list (string * json.value)) :=
  match l with
  | [] => Ok []
  | _ => v ← json.of_slice elem l; Ok [(key, v)]
  end.

Definition map_ {T : Type} (key : string) (elem : T -> result json.value)
    (m : gmap string T) : result (list (string * json.value)) :=
  match map_to_list m with
  | [] => Ok []
  | _ => v ← json.of_map elem m; Ok [(key, v)]
  end.
End omit.

Module LanguageValue.
Record t : Type := mk { Language : string; Value : string }.

Definition zero : t := mk "" "".

Definition encode (v : t) : result json.value :=
  Ok (json.Obj [("language", json.of_string (Language v));
                ("value", json.of_string (Value v))]).

Definition decode : json.value -> t -> result t :=
  json.object false "LanguageValue" ["language"; "value"]
    (fun f x s =>
       if String.eqb f "language" then
         l ← json.string_ x (Language s); Ok (mk l (Value s))
       else
         v ← json.string_ x (Value s); Ok (mk (Language s) v)).
End LanguageValue.

Module SiteLink.
Record t : Type := mk {
  Site : string; Title : string; Badges : list string; URL : string
}.

Definition zero : t := mk "" "" [] "".

Definition encode (v : t) : result json.value :=
  Ok (json.members
        [[("site", json.of_string (Site v));
          ("title", json.of_string (Title v))];
         omit.strs "badges" (Badges v);
         omit.str "url" (URL v)]).

Definition decode : json.value -> t -> result t :=
  json.object false "SiteLink" ["site"; "title"; "badges"; "url"]
    (fun f x s =>
       if String.eqb f "site" then
         a ← json.string_ x (Site s); Ok (mk a (Title s) (Badges s) (URL s))
       else if String.eqb f "title" then
         a ← json.string_ x (Title s); Ok (mk (Site s) a (Badges s) (URL s))
       else if String.eqb f "badges" then
         a ← json.slice "[]string" (fun v => json.string_ v "") x;
         Ok (mk (Site s) (Title s) a (URL s))
       else
         a ← json.string_ x (URL s); Ok (mk (Site s) (Title s) (Badges s) a)).
End SiteLink.

Module Snak.
Record t : Type := mk {
  Hash : string;
  SnakType_ : enum SnakType.t;
  Property : string;
  DataType_ : enum DataType.t;
  DataValue_ : option DataValue.t
}.

Definition zero : t :=
  mk "" SnakType.Value "" DataType.WikiBaseItem None.

Definition encode (v : t) : result json.value :=
  dv ← match DataValue_ v with
       | Some d => b ← DataValue.MarshalJSON d; Ok [("datavalue", b)]
       | None => Ok []
       end;
  Ok (json.members
        [omit.str "hash" (Hash v);
         [("snaktype", SnakType.MarshalJSON (SnakType_ v));
          ("property", json.of_string (Property v));
          ("datatype", DataType.MarshalJSON (DataType_ v))];
         dv]).

Definition decode : json.value -> t -> result t :=
  json.object false "Snak"
    ["hash"; "snaktype"; "property"; "datatype"; "datavalue"]
    (fun f x s =>
       let '(mk h st p dt dv) := s in
       if String.eqb f "hash" then
         h ← json.string_ x h; Ok (mk h st p dt dv)
       else if String.eqb f "snaktype" then
         st ← SnakType.UnmarshalJSON x; Ok (mk h st p dt dv)
       else if String.eqb f "property" then
         p ← json.string_ x p; Ok (mk h st p dt dv)
       else if String.eqb f "datatype" then
         dt ← DataType.UnmarshalJSON x; Ok (mk h st p dt dv)
       else
         match x with
         | json.Null => Ok (mk h st p dt None)
         | _ => d ← DataValue.UnmarshalJSON x; Ok (mk h st p dt (Some d))
         end).

Definition encode_list : list t -> result json.value :=
  json.of_slice encode.

Definition decode_list : json.value -> result (list t) :=
  json.slice "[]Snak" (fun v => decode v zero).
End Snak.

Module Reference.
Record t : Type := mk {
  Hash : string;
  Snaks : gmap string (list Snak.t);
  SnaksOrder : list string
}.

Definition zero : t := mk "" ∅ [].

Definition encode (v : t) : result json.value :=
  snaks ← omit.map_ "snaks" Snak.encode_list (Snaks v);
  Ok (json.members
        [omit.str "hash" (Hash v); snaks;
         omit.strs "snaks-order" (SnaksOrder v)]).

Definition decode : json.value -> t -> result t :=
  json.object false "Reference" ["hash"; "snaks"; "snaks-order"]
    (fun f x s =>
       if String.eqb f "hash" then
         h ← json.string_ x (Hash s); Ok (mk h (Snaks s) (SnaksOrder s))
       else if String.eqb f "snaks" then
         m ← json.map_ "map[string][]Snak" Snak.decode_list x (Snaks s);
         Ok (mk (Hash s) m (SnaksOrder s))
       else
         o ← json.slice "[]string" (fun v => json.string_ v "") x;
         Ok (mk (Hash s) (Snaks s) o)).
End Reference.

Module Statement.
Record t : Type := mk {
  ID : string;
  Type_ : enum StatementType.t;
  MainSnak : Snak.t;
  Rank : enum StatementRank.t;
  Qualifiers : gmap string (list Snak.t);
  QualifiersOrder : list string;
  References : list Reference.t
}.

Definition zero : t :=
  mk "" StatementType.StatementT Snak.zero StatementRank.Preferred ∅ [] [].

Definition encode (v : t) : result json.value :=
  mainsnak ← Snak.encode (MainSnak v);
  qualifiers ← omit.map_ "qualifiers" Snak.encode_list (Qualifiers v);
  references ← omit.slice "references" Reference.encode (References v);
  Ok (json.members
        [[("id", json.of_string (ID v));
          ("type", StatementType.MarshalJSON (Type_ v));
          ("mainsnak", mainsnak);
          ("rank", StatementRank.MarshalJSON (Rank v))];
         qualifiers;
         omit.strs "qualifiers-order" (QualifiersOrder v);
         references]).

Definition decode : json.value -> t -> result t :=
  json.object false "Statement"
    ["id"; "type"; "mainsnak"; "rank"; "qualifiers"; "qualifiers-order";
     "references"]
    (fun f x s =>
       let '(mk id ty ms rk qs qo rs) := s in
       if String.eqb f "id" then
         id ← json.string_ x id; Ok (mk id ty ms rk qs qo rs)
       else if String.eqb f "type" then
         ty ← StatementType.UnmarshalJSON x; Ok (mk id ty ms rk qs qo rs)
       else if String.eqb f "mainsnak" then
         ms ← Snak.decode x ms; Ok (mk id ty ms rk qs qo rs)
       else if String.eqb f "rank" then
         rk ← StatementRank.UnmarshalJSON x; Ok (mk id ty ms rk qs qo rs)
       else if String.eqb f "qualifiers" then
         qs ← json.map_ "map[string][]Snak" Snak.decode_list x qs;
         Ok (mk id ty ms rk qs qo rs)
       else if String.eqb f "qualifiers-order" then
         qo ← json.slice "[]string" (fun v => json.string_ v "") x;
         Ok (mk id ty ms rk qs qo rs)
       else
         rs ← json.slice "[]Reference"
                (fun v => Reference.decode v Reference.zero) x;
         Ok (mk id ty ms rk qs qo rs)).
End Statement.

Module Entity.
Record t : Type := mk {
  ID : string;
  Type_ : enum EntityType.t;
  DataType_ : option (enum DataType.t);
  Labels : gmap string LanguageValue.t;
  Descriptions : gmap string LanguageValue.t;
  Aliases : gmap string (list LanguageValue.t);
  Claims : gmap string (list Statement.t);
  SiteLinks : gmap string SiteLink.t;
  LastRevID : Z
}.

Definition zero : t := mk "" EntityType.Item None ∅ ∅ ∅ ∅ ∅ 0.

(** [json.Marshal(entity)]. *)
Definition encode (v : t) : result json.value :=
  labels ← omit.map_ "labels" LanguageValue.encode (Labels v);
  descriptions ←
    omit.map_ "descriptions" LanguageValue.encode (Descriptions v);
  aliases ←
    omit.map_ "aliases" (json.of_slice LanguageValue.encode) (Aliases v);
  claims ← omit.map_ "claims" (json.of_slice Statement.encode) (Claims v);
  sitelinks ← omit.map_ "sitelinks" SiteLink.encode (SiteLinks v);
  Ok (json.members
        [[("id", json.of_string (ID v));
          ("type", EntityType.MarshalJSON (Type_ v))];
         match DataType_ v with
         | Some d => [("datatype", DataType.MarshalJSON d)]
         | None => []
         end;
         labels; descriptions; aliases; claims; sitelinks;
         [("lastrevid", json.Num (LastRevID v))]]).

Definition decode : json.value -> t -> result t :=
  json.object false "Entity"
    ["id"; "type"; "datatype"; "labels"; "descriptions"; "aliases";
     "claims"; "sitelinks"; "lastrevid"]
    (fun f x s =>
       let '(mk id ty dt ls ds als cs sl rev) := s in
       if String.eqb f "id" then
         id ← json.string_ x id; Ok (mk id ty dt ls ds als cs sl rev)
       else if String.eqb f "type" then
         ty ← EntityType.UnmarshalJSON x; Ok (mk id ty dt ls ds als cs sl rev)
       else if String.eqb f "datatype" then
         match x with
         | json.Null => Ok (mk id ty None ls ds als cs sl rev)
         | _ =>
             d ← DataType.UnmarshalJSON x;
             Ok (mk id ty (Some d) ls ds als cs sl rev)
         end
       else if String.eqb f "labels" then
         ls ← json.map_ "map[string]LanguageValue"
                (fun v => LanguageValue.decode v LanguageValue.zero) x ls;
         Ok (mk id ty dt ls ds als cs sl rev)
       else if String.eqb f "descriptions" then
         ds ← json.map_ "map[string]LanguageValue"
                (fun v => LanguageValue.decode v LanguageValue.zero) x ds;
         Ok (mk id ty dt ls ds als cs sl rev)
       else if String.eqb f "aliases" then
         als ← json.map_ "map[string][]LanguageValue"
                 (json.slice "[]LanguageValue"
                    (fun v => LanguageValue.decode v LanguageValue.zero))
                 x als;
         Ok (mk id ty dt ls ds als cs sl rev)
       else if String.eqb f "claims" then
         cs ← json.map_ "map[string][]Statement"
                (json.slice "[]Statement"
                   (fun v => Statement.decode v Statement.zero)) x cs;
         Ok (mk id ty dt ls ds als cs sl rev)
       else if String.eqb f "sitelinks" then
         sl ← json.map_ "map[string]SiteLink"
                (fun v => SiteLink.decode v SiteLink.zero) x sl;
         Ok (mk id ty dt ls ds als cs sl rev)
       else
         rev ← json.int x rev; Ok (mk id ty dt ls ds als cs sl rev)).

(** [json.Unmarshal(data, &entity)] into a fresh entity. *)
Definition UnmarshalJSON (b : json.value) : result t := decode b zero.
End Entity.

(** ** Timestamps in JSON: [Time.MarshalJSON] and [Time.UnmarshalJSON]

    RFC 3339 with nanoseconds.  A [Time] is its UTC reading here, so the
    encoder writes the designator [Z]; the decoder also reads numeric zone
    offsets and converts them. *)

Module timejson.
Import strconv.

(** Nine digits of nanoseconds without their trailing zeros. *)
Fixpoint trim (fuel : nat) (width : nat) (ns : Z) : string :=
  match fuel with
  | O => EmptyString
  | S fuel' =>
      if ns =? 0 then EmptyString
      else if ns mod 10 =? 0 then trim fuel' (width - 1) (ns / 10)
      else fmt.d0 false width ns
  end.

Definition fraction (ns : Z) : string :=
  if ns =? 0 then "" else "." +:+ trim 9 9 ns.

Definition format (t : time.Time) : string :=
  fmt.d0 false 4 (time.Year t) +:+ "-" +:+ fmt.d0 false 2 (time.Month t)
    +:+ "-" +:+ fmt.d0 false 2 (time.Day t) +:+ "T"
    +:+ fmt.d0 false 2 (time.Hour t) +:+ ":"
    +:+ fmt.d0 false 2 (time.Minute t) +:+ ":"
    +:+ fmt.d0 false 2 (time.Second t) +:+ fraction (time.Nanosecond t)
    +:+ "Z".

Definition MarshalJSON (t : time.Time) : result json.value :=
  if (0 <=? time.Year t) && (time.Year t <=? 9999) then
    Ok (json.Str (format t))
  else Err (New "Time.MarshalJSON: year outside of range [0,9999]").

(** The zone: [Z], or a sign and [hh:mm]; the offset in minutes. *)
Definition zone (s : string) : option Z :=
  match s with
  | String "Z" EmptyString => Some 0
  | String sign (String h1 (String h2 (String ":" (String m1 (String m2
      EmptyString))))) =>
      if all_digits (String h1 (String h2 (String m1 (String m2 ""))))
      then
        let hh := digits_value 0 (two h1 h2) in
        let mm := digits_value 0 (two m1 m2) in
        if (hh <? 24) && (mm <? 60) then
          if Ascii.eqb sign "+" then Some (hh * 60 + mm)
          else if Ascii.eqb sign "-" then Some (- (hh * 60 + mm))
          else None
        else None
      else None
  | _ => None
  end.

(** Up to nine fractional digits, as nanoseconds. *)
Definition nanos (ds : string) : Z :=
  let ds := substring 0 9 ds in
  digits_value 0 ds * 10 ^ Z.of_nat (9 - String.length ds).

Definition parse (s : string) : option time.Time :=
  match s with
  | String y1 (String y2 (String y3 (String y4 (String "-" (String m1
    (String m2 (String "-" (String d1 (String d2 (String "T" (String h1
    (String h2 (String ":" (String n1 (String n2 (String ":" (String s1
    (String s2 rest)))))))))))))))))) =>
      if all_digits
           (String y1 (String y2 (String y3 (String y4 (String m1
           (String m2 (String d1 (String d2 (String h1 (String h2
           (String n1 (String n2 (two s1 s2)))))))))))))
      then
        let year := digits_value 0
                      (String y1 (String y2 (String y3 (String y4 ""))))
        in
        let month := digits_value 0 (two m1 m2) in
        let day := digits_value 0 (two d1 d2) in
        let hour := digits_value 0 (two h1 h2) in
        let minute := digits_value 0 (two n1 n2) in
        let second := digits_value 0 (two s1 s2) in
        let '(ns, rest) :=
          match rest with
          | String "." rest =>
              let '(ds, rest) := span_digits rest in
              (match ds with "" => None | _ => Some (nanos ds) end, rest)
          | _ => (Some 0, rest)
          end in
        match ns, zone rest with
        | Some ns, Some offset =>
            if (1 <=? month) && (month <=? 12) && (1 <=? day)
               && (day <=? time.daysIn year month) && (hour <? 24)
               && (minute <? 60) && (second <? 60)
            then Some (time.Date year month day hour (minute - offset)
                         second ns)
            else None
        | _, _ => None
        end
      else None
  | _ => None
  end.

Definition UnmarshalJSON (b : json.value) (cur : time.Time)
  : result time.Time :=
  match b with
  | json.Null => Ok cur
  | json.Str s =>
      match parse s with
      | Some t => Ok t
      | None => Err (New "parsing time: not in RFC 3339 format")
      end
  | _ => Err (New "Time.UnmarshalJSON: input is not a JSON string")
  end.
End timejson.

(** ** The file system and the clock *)

Module os.
(** The content of a file: the text of a JSON document, or other bytes. *)
Inductive file : Type :=
| Text (doc : json.value)
| Bytes (raw : list byte).

(** [denied] lists the paths that cannot be written, [unreadable] the
    paths that cannot be read. *)
Record World : Type := mkWorld {
  files : gmap string file;
  now : time.Time;
  denied : list string;
  unreadable : list string
}.

Definition ErrNotExist : string := "no such file or directory".
Definition ErrPermission : string := "permission denied".

Definition ReadFile (w : World) (name : string) : result file :=
  match files w !! name with
  | Some data =>
      if bool_decide (name ∈ unreadable w) then
        Err (PathError "open" name ErrPermission)
      else Ok data
  | None => Err (PathError "open" name ErrNotExist)
  end.

Definition WriteFile (w : World) (name : string) (data : file)
  : result World :=
  if bool_decide (name ∈ denied w) then
    Err (PathError "open" name ErrPermission)
  else Ok (mkWorld (<[name := data]> (files w)) (now w) (denied w)
             (unreadable w)).

Definition Rename (w : World) (oldpath newpath : string) : result World :=
  match files w !! oldpath with
  | None => Err (PathError "rename" oldpath ErrNotExist)
  | Some data =>
      if bool_decide (newpath ∈ denied w) then
        Err (PathError "rename" oldpath ErrPermission)
      else
        Ok (mkWorld (<[newpath := data]> (delete oldpath (files w)))
              (now w) (denied w) (unreadable w))
  end.

Definition IsNotExist (err : error) : bool :=
  match err with
  | PathError _ _ why => String.eqb why ErrNotExist
  | _ => false
  end.
End os.

(** ** The checkpoint manager *)

Module Checkpoint.
Record t : Type := mk {
  TotalItems : Z;
  SaveTimestamp : time.Time;
  LastItemID : string;
  ProcessedPosition : Z
}.

(** [&Checkpoint{}]. *)
Definition zero : t := mk 0 time.zero "" 0.

(** [json.MarshalIndent(checkpoint, "", "  ")]. *)
Definition Marshal (c : t) : result json.value :=
  ts ← timejson.MarshalJSON (SaveTimestamp c);
  Ok (json.Obj [("total_items", json.Num (TotalItems c));
                ("timestamp", ts);
                ("last_item_id", json.of_string (LastItemID c));
                ("position", json.Num (ProcessedPosition c))]).

(** [json.Unmarshal(data, checkpoint)] into [&Checkpoint{}]. *)
Definition Unmarshal (data : os.file) : result t :=
  match data with
  | os.Bytes _ => Err (SyntaxError "invalid character")
  | os.Text doc =>
      json.object false "Checkpoint"
        ["total_items"; "timestamp"; "last_item_id"; "position"]
        (fun f x s =>
           let '(mk n ts id pos) := s in
           if String.eqb f "total_items" then
             n ← json.int x n; Ok (mk n ts id pos)
           else if String.eqb f "timestamp" then
             ts ← timejson.UnmarshalJSON x ts; Ok (mk n ts id pos)
           else if String.eqb f "last_item_id" then
             id ← json.string_ x id; Ok (mk n ts id pos)
           else
             pos ← json.int x pos; Ok (mk n ts id pos))
        doc zero
  end.
End Checkpoint.

Module CheckpointManager.
(** The configuration behind the pointer a constructor is given; a [nil]
    pointer is not modelled.  [SaveInterval] is a [time.Duration], in
    nanoseconds. *)
Record CheckpointConfig : Type := mkConfig {
  SaveInterval : Z;
  ItemsThreshold : Z;
  CheckpointFile : string
}.

(** The mutex [mu] is not a field here: each method below is one critical
    section.  [currentCheckpoint] is never [nil] once the manager is
    constructed. *)
Record t : Type := mk {
  config : CheckpointConfig;
  currentCheckpoint : Checkpoint.t;
  itemsSinceLastCheckpoint : Z;
  dirty : bool
}.

(** What a constructor does: it returns the manager, or the process ends
    in a panic, of the constructor itself or of the task it starts. *)
Inductive outcome : Type :=
| Returned (cm : t)
| Panicked (msg : string).

(** The checkpoint [loadCheckpoint] stores into the manager. *)
Definition loadCheckpoint (config : CheckpointConfig) (w : os.World)
  : result Checkpoint.t :=
  match os.ReadFile w (CheckpointFile config) with
  | Err err => Err err
  | Ok data =>
      match Checkpoint.Unmarshal data with
      | Err err => Err (WithMessage "unmarshal checkpoint" err)
      | Ok checkpoint => Ok checkpoint
      end
  end.

(** [go cm.autoSave()]: the task begins with
    [time.NewTicker(cm.config.SaveInterval)], which panics for an interval
    that is not positive; a panic in a goroutine ends the process.  The
    ticks of a started task are [tick] below, run by the environment. *)
Definition autoSave (cm : t) : outcome :=
  if SaveInterval (config cm) <=? 0
  then Panicked "non-positive interval for NewTicker"
  else Returned cm.

Definition NewCheckpointManagerWithConfig (config : CheckpointConfig)
    (w : os.World) : outcome :=
  match loadCheckpoint config w with
  | Ok checkpoint => autoSave (mk config checkpoint 0 false)
  | Err err =>
      if os.IsNotExist err then autoSave (mk config Checkpoint.zero 0 false)
      else Panicked ("Failed to load checkpoint: " +:+ Error err)
  end.

Definition checkpointFile : string := "checkpoint.json".
Definition itemsThreshold : Z := 1000.
(** Five minutes, in nanoseconds. *)
Definition saveInterval : Z := 5 * 60 * 1000000000.

Definition NewCheckpointManager (w : os.World) : outcome :=
  NewCheckpointManagerWithConfig
    (mkConfig saveInterval itemsThreshold checkpointFile) w.

Definition save (cm : t) (w : os.World) : t * os.World * option error :=
  if negb (dirty cm) then (cm, w, None)
  else
    let c := currentCheckpoint cm in
    let c := Checkpoint.mk (Checkpoint.TotalItems c) (os.now w)
               (Checkpoint.LastItemID c) (Checkpoint.ProcessedPosition c) in
    let cm := mk (config cm) c (itemsSinceLastCheckpoint cm) (dirty cm) in
    match Checkpoint.Marshal c with
    | Err err => (cm, w, Some (WithMessage "marshal checkpoint" err))
    | Ok data =>
        let tempFile := CheckpointFile (config cm) +:+ ".tmp" in
        match os.WriteFile w tempFile (os.Text data) with
        | Err err => (cm, w, Some (WithMessage "write checkpoint" err))
        | Ok w1 =>
            match os.Rename w1 tempFile (CheckpointFile (config cm)) with
            | Err err =>
                (cm, w1, Some (WithMessage "rename checkpoint file" err))
            | Ok w2 => (mk (config cm) c 0 false, w2, None)
            end
        end
    end.

Definition Save : t -> os.World -> t * os.World * option error := save.

Definition UpdateProgressAndMaybeSave (position : Z) (itemID : string)
    (cm : t) (w : os.World) : t * os.World * option error :=
  let c := currentCheckpoint cm in
  let c := Checkpoint.mk (Int.incr (Checkpoint.TotalItems c))
             (Checkpoint.SaveTimestamp c) itemID position in
  let cm := mk (config cm) c (Int.incr (itemsSinceLastCheckpoint cm)) true in
  if ItemsThreshold (config cm) <=? itemsSinceLastCheckpoint cm then
    save cm w
  else (cm, w, None).

(** One tick of [autoSave]: a failure is printed and dropped. *)
Definition tick (cm : t) (w : os.World) : t * os.World :=
  if dirty cm then fst (Save cm w) else (cm, w).

Definition GetCheckpoint (cm : t) : Checkpoint.t := currentCheckpoint cm.

Definition Close : t -> os.World -> t * os.World * option error := Save.
End CheckpointManager.

(** ** Predicates of the statements *)

(** The number a run of digits denotes. *)
Definition field_value (s : string) : Z := strconv.digits_value 0 s.

(** The year [parseTime] stores for the year [y] of the text. *)
Definition stored_year (y : Z) : Z := if y <? 0 then y + 1 else y.

(** A month or day of [00] is stored as 1. *)
Definition one_if_zero (v : Z) : Z := if v =? 0 then 1 else v.

(** The [Time] [parseTime] builds from a match whose year field is [y]. *)
Definition stored_time (y : Z) (m : timeMatch) : time.Time :=
  time.mkTime (stored_year y) (one_if_zero (field_value (m_month m)))
    (one_if_zero (field_value (m_day m))) (field_value (m_hour m))
    (field_value (m_minute m)) (field_value (m_second m)) 0.

(** The fields of a match denote a calendar date and a time of day in
    [year] (a month or day of [00] stands for 1), so that [time.Date] has
    nothing to normalize. *)
Definition civil (year : Z) (m : timeMatch) : Prop :=
  let month := field_value (m_month m) in
  let day := field_value (m_day m) in
  month <= 12 /\
  one_if_zero day <= time.daysIn year (one_if_zero month) /\
  field_value (m_hour m) < 24 /\
  field_value (m_minute m) < 60 /\
  field_value (m_second m) < 60.

(** A year field written the way [formatTime] writes it: a sign and four
    digits, or more digits of which the first is not [0]. *)
Definition canonical_year (s : string) : Prop :=
  match s with
  | String _ (String d ds) => String.length ds = 3%nat \/ d <> "0"%char
  | _ => False
  end.

(** The wire form of a time value as [TimeValue.MarshalJSON] lays it out,
    around any time text. *)
Definition time_object (t : string) (p : TimePrecision) (c : CalendarModel.t)
  : json.value :=
  DataValue.tagged "time"
    (json.Obj [("time", json.Str t); ("precision", json.Num p);
               ("calendarmodel", CalendarModel.MarshalJSON c)]).

(** The members of a [DataValue] object that name [type] or [error] hold a
    string or [null], as the two string fields of the header need. *)
Definition header_member (kv : string * json.value) : bool :=
  match json.field ["type"; "error"] (fst kv), snd kv with
  | Some _, json.Str _ | Some _, json.Null | None, _ => true
  | Some _, _ => false
  end.

(** The member names the field [error]. *)
Definition names_error (kv : string * json.value) : bool :=
  match json.field ["type"; "error"] (fst kv) with
  | Some f => String.eqb f "error"
  | None => false
  end.

(** One member stored into the header struct. *)
Definition header_step (s : string * string) (kv : string * json.value)
  : result (string * string) :=
  match json.field ["type"; "error"] (fst kv) with
  | Some f =>
      if String.eqb f "type" then
        ty ← json.string_ (snd kv) (fst s); Ok (ty, snd s)
      else e ← json.string_ (snd kv) (snd s); Ok (fst s, e)
  | None => Ok s
  end.

(** The year field [formatTime] writes: historical numbering. *)
Definition year_field (t : time.Time) : string :=
  fmt.d0 true 5 (if time.Year t <? 1 then time.Year t - 1 else time.Year t).

(** The time of day [formatTime] writes. *)
Definition clock_field (t : time.Time) : string :=
  fmt.d0 false 2 (time.Hour t) +:+ ":" +:+ fmt.d0 false 2 (time.Minute t)
    +:+ ":" +:+ fmt.d0 false 2 (time.Second t) +:+ "Z".

(** A snak object around a data value document. *)
Definition snak_object (st : SnakType.t) (property : string)
    (dt : DataType.t) (datavalue : json.value) : json.value :=
  json.Obj [("snaktype", SnakType.MarshalJSON st);
            ("property", json.Str property);
            ("datatype", DataType.MarshalJSON dt);
            ("datavalue", datavalue)].

(** Every character of the string is an ASCII character. *)
Fixpoint ascii_only (s : string) : bool :=
  match s with
  | EmptyString => true
  | String c s' => ((N_of_ascii c <? 128)%N && ascii_only s')%bool
  end.

(** The amount has a finite decimal expansion. *)
Definition terminating (a : Qc) : Prop :=
  exists k : nat, (Amount.den a | 10 ^ Z.of_nat k).

(** Encoding [x] succeeds, and decoding the document gives [x] back. *)
Definition roundtrips {T : Type} (enc : T -> result json.value)
    (dec : json.value -> result T) (x : T) : Prop :=
  exists doc, enc x = Ok doc /\ dec doc = Ok x.

(** A time value in the form the decoder produces: a calendar date and a
    time of day in whole seconds, month 1 below precision [Month] and day 1
    below precision [Day], a year [time.Time] represents and a precision
    that is a Go [int]. *)
Definition decoded_time (v : TimeValue.t) : Prop :=
  let t := TimeValue.Time v in
  let p := TimeValue.Precision v in
  time.representable (time.Year t) /\
  1 <= time.Month t <= 12 /\
  1 <= time.Day t <= time.daysIn (time.Year t) (time.Month t) /\
  0 <= time.Hour t < 24 /\ 0 <= time.Minute t < 60 /\
  0 <= time.Second t < 60 /\ time.Nanosecond t = 0 /\
  (p < Precision.Month -> time.Month t = 1) /\
  (p < Precision.Day -> time.Day t = 1) /\
  Int.min_int <= p <= Int.max_int.

Definition terminating_opt (a : option Qc) : Prop :=
  match a with
  | Some a => terminating a
  | None => True
  end.

(** The values that survive encoding and decoding: one of the seven
    declared kinds, in the form the decoder produces, every string of it
    valid UTF-8 and every enumeration value a declared constant. *)
Definition valid_value (v : DataValue.any) : Prop :=
  match v with
  | DataValue.ErrorValue e => e <> "" /\ utf8.ValidString e
  | DataValue.StringValue s => utf8.ValidString s
  | DataValue.WikiBaseEntityIDValue v =>
      declared (WikiBaseEntityIDValue.Type_ v) /\
      utf8.ValidString (WikiBaseEntityIDValue.ID v)
  | DataValue.GlobeCoordinateValue g =>
      json.finite (GlobeCoordinateValue.Latitude g) = true /\
      json.finite (GlobeCoordinateValue.Longitude g) = true /\
      json.finite (GlobeCoordinateValue.Precision g) = true /\
      utf8.ValidString (GlobeCoordinateValue.Globe g)
  | DataValue.MonolingualTextValue m =>
      utf8.ValidString (MonolingualTextValue.Language m) /\
      utf8.ValidString (MonolingualTextValue.Text m)
  | DataValue.QuantityValue q =>
      terminating (QuantityValue.Amount_ q) /\
      terminating_opt (QuantityValue.UpperBound q) /\
      terminating_opt (QuantityValue.LowerBound q) /\
      utf8.ValidString (QuantityValue.Unit q)
  | DataValue.TimeValue t => decoded_time t /\ declared (TimeValue.Calendar t)
  | DataValue.OtherValue _ => False
  end.

Definition valid_datavalue (d : DataValue.t) : Prop :=
  match DataValue.Value d with
  | Some v => valid_value v
  | None => False
  end.

Definition valid_snak (s : Snak.t) : Prop :=
  utf8.ValidString (Snak.Hash s) /\ declared (Snak.SnakType_ s) /\
  utf8.ValidString (Snak.Property s) /\ declared (Snak.DataType_ s) /\
  match Snak.DataValue_ s with
  | Some d => valid_datavalue d
  | None => True
  end.

Definition valid_snaks (m : gmap string (list Snak.t)) : Prop :=
  map_Forall (fun k l => utf8.ValidString k /\ Forall valid_snak l) m.

Definition valid_reference (r : Reference.t) : Prop :=
  utf8.ValidString (Reference.Hash r) /\
  valid_snaks (Reference.Snaks r) /\
  Forall utf8.ValidString (Reference.SnaksOrder r).

Definition valid_statement (s : Statement.t) : Prop :=
  utf8.ValidString (Statement.ID s) /\
  declared (Statement.Type_ s) /\ declared (Statement.Rank s) /\
  valid_snak (Statement.MainSnak s) /\
  valid_snaks (Statement.Qualifiers s) /\
  Forall utf8.ValidString (Statement.QualifiersOrder s) /\
  Forall valid_reference (Statement.References s).

Definition valid_language (v : LanguageValue.t) : Prop :=
  utf8.ValidString (LanguageValue.Language v) /\
  utf8.ValidString (LanguageValue.Value v).

Definition valid_sitelink (v : SiteLink.t) : Prop :=
  utf8.ValidString (SiteLink.Site v) /\ utf8.ValidString (SiteLink.Title v) /\
  Forall utf8.ValidString (SiteLink.Badges v) /\
  utf8.ValidString (SiteLink.URL v).

(** The entities that survive encoding and decoding: every string and
    every key of a map is valid UTF-8, every enumeration value is a
    declared constant, every data value is valid, and the revision number
    is a Go [int]. *)
Definition valid_entity (e : Entity.t) : Prop :=
  utf8.ValidString (Entity.ID e) /\ declared (Entity.Type_ e) /\
  match Entity.DataType_ e with
  | Some d => declared d
  | None => True
  end /\
  map_Forall (fun k v => utf8.ValidString k /\ valid_language v)
    (Entity.Labels e) /\
  map_Forall (fun k v => utf8.ValidString k /\ valid_language v)
    (Entity.Descriptions e) /\
  map_Forall (fun k l => utf8.ValidString k /\ Forall valid_language l)
    (Entity.Aliases e) /\
  map_Forall (fun k l => utf8.ValidString k /\ Forall valid_statement l)
    (Entity.Claims e) /\
  map_Forall (fun k v => utf8.ValidString k /\ valid_sitelink v)
    (Entity.SiteLinks e) /\
  Int.min_int <= Entity.LastRevID e <= Int.max_int.

(** ** Sample entities

    An item with one label and one claim whose main snak holds the data
    value [d], qualified by the snaks [qs]. *)
Definition sample_snak (property : string) (d : DataValue.any) : Snak.t :=
  Snak.mk "h" SnakType.Value property DataType.String
    (Some (DataValue.mk (Some d))).

Definition sample_entity (d : DataValue.any)
    (qs : gmap string (list Snak.t)) : Entity.t :=
  Entity.mk "Q1" EntityType.Item None
    {[ "en" := LanguageValue.mk "en" "universe" ]} ∅ ∅
    {[ "P1" := [Statement.mk "Q1$1" StatementType.StatementT
                  (sample_snak "P1" d) StatementRank.Normal qs [] []] ]}
    ∅ 7.

(** The year 1950 at precision [Year], as the decoder stores it, and the same
    year with a date in June. *)
Definition year_1950 : DataValue.any :=
  DataValue.TimeValue
    (TimeValue.mk (time.mkTime 1950 1 1 0 0 0 0) Precision.Year
       CalendarModel.Gregorian).

Definition june_1950 : DataValue.any :=
  DataValue.TimeValue
    (TimeValue.mk (time.mkTime 1950 6 15 0 0 0 0) Precision.Year
       CalendarModel.Gregorian).

Definition quantity (a : Qc) : DataValue.any :=
  DataValue.QuantityValue (QuantityValue.mk a None None "1").

(** An entity with an id and a type and nothing else. *)
Definition bare_entity (id : string) (ty : enum EntityType.t) : Entity.t :=
  Entity.mk id ty None ∅ ∅ ∅ ∅ ∅ 0.

(** The byte FF, which is part of no UTF-8 sequence. *)
Definition invalid_byte : string := String "255" EmptyString.

(** ** Predicates of the further properties *)

(** A calendar date and a time of day, in a year [time.Time] represents;
    the nanoseconds are free. *)
Definition civil_time (t : time.Time) : Prop :=
  time.representable (time.Year t) /\
  1 <= time.Month t <= 12 /\
  1 <= time.Day t <= time.daysIn (time.Year t) (time.Month t) /\
  0 <= time.Hour t < 24 /\ 0 <= time.Minute t < 60 /\
  0 <= time.Second t < 60.

(** What is left of a time at precision [p]: the month is 1 below
    precision [Month], the day is 1 below precision [Day], and there is no
    fraction of a second. *)
Definition truncated (t : time.Time) (p : TimePrecision) : time.Time :=
  time.mkTime (time.Year t)
    (if p <? Precision.Month then 1 else time.Month t)
    (if p <? Precision.Day then 1 else time.Day t)
    (time.Hour t) (time.Minute t) (time.Second t) 0.

(** The members the decoder of a data value admits inside [value], by
    discriminator: the fields of the struct it decodes into. *)
Definition value_fields (type : string) : list string :=
  if String.eqb type "wikibase-entityid" then
    ["entity-type"; "id"; "numeric-id"]
  else if String.eqb type "globecoordinate" then
    ["latitude"; "longitude"; "altitude"; "precision"; "globe"]
  else if String.eqb type "monolingualtext" then ["language"; "text"]
  else if String.eqb type "quantity" then
    ["amount"; "upperBound"; "lowerBound"; "unit"]
  else if String.eqb type "time" then
    ["time"; "precision"; "calendarmodel"; "timezone"; "before"; "after"]
  else [].

(** ** Runs of the checkpoint manager *)

(** The two files of the manager can be written, and the clock shows a
    year that [Time.MarshalJSON] accepts. *)
Definition writable (config : CheckpointManager.CheckpointConfig)
    (w : os.World) : Prop :=
  (CheckpointManager.CheckpointFile config ∉ os.denied w) /\
  (CheckpointManager.CheckpointFile config +:+ ".tmp" ∉ os.denied w) /\
  0 <= time.Year (os.now w) <= 9999.

(** A reading of the wall clock: a calendar date in the years 0 to 9999
    and a time of day with its nanoseconds. *)
Definition wall_clock (t : time.Time) : Prop :=
  0 <= time.Year t <= 9999 /\
  1 <= time.Month t <= 12 /\
  1 <= time.Day t <= time.daysIn (time.Year t) (time.Month t) /\
  0 <= time.Hour t < 24 /\ 0 <= time.Minute t < 60 /\
  0 <= time.Second t < 60 /\ 0 <= time.Nanosecond t < 1000000000.

(** A checkpoint whose counters are Go [int]s, whose timestamp is a
    reading of the wall clock and whose item id is valid UTF-8. *)
Definition valid_checkpoint (c : Checkpoint.t) : Prop :=
  Int.in_int (Checkpoint.TotalItems c) /\
  Int.in_int (Checkpoint.ProcessedPosition c) /\
  wall_clock (Checkpoint.SaveTimestamp c) /\
  utf8.ValidString (Checkpoint.LastItemID c).

Module Run.
(** What the program and its environment do to a manager, one step after
    another: the three exported methods, a tick of the [autoSave] task, and
    a change of the file system and the clock from outside. *)
Inductive call : Type :=
| CallUpdate (position : Z) (itemID : string)
| CallSave
| CallClose
| Tick
| Outside (w : os.World).

(** The manager, the world, and the errors returned to the caller so far
    (a failed tick returns none: its error is printed). *)
Definition state : Type := CheckpointManager.t * os.World * list error.

Definition report (errs : list error) (e : option error) : list error :=
  match e with
  | Some e => errs ++ [e]
  | None => errs
  end.

Definition step (s : state) (c : call) : state :=
  let '(cm, w, errs) := s in
  match c with
  | CallUpdate position itemID =>
      let '(cm', w', e) :=
        CheckpointManager.UpdateProgressAndMaybeSave position itemID cm w in
      (cm', w', report errs e)
  | CallSave =>
      let '(cm', w', e) := CheckpointManager.Save cm w in
      (cm', w', report errs e)
  | CallClose =>
      let '(cm', w', e) := CheckpointManager.Close cm w in
      (cm', w', report errs e)
  | Tick => let '(cm', w') := CheckpointManager.tick cm w in (cm', w', errs)
  | Outside w' => (cm, w', errs)
  end.

Definition run (calls : list call) (s : state) : state :=
  fold_left step calls s.

(** The number of updates among the calls. *)
Fixpoint updates (calls : list call) : Z :=
  match calls with
  | [] => 0
  | CallUpdate _ _ :: calls' => 1 + updates calls'
  | _ :: calls' => updates calls'
  end.

(** Every world put in from outside satisfies [P]. *)
Fixpoint outside (P : os.World -> Prop) (calls : list call) : Prop :=
  match calls with
  | [] => True
  | Outside w :: calls' => P w /\ outside P calls'
  | _ :: calls' => outside P calls'
  end.
End Run.

(** * Part II: lemmas and theorems *)

(** ** Framing *)


Section FramingFacts.
Import Int Framing.

Lemma of_byte_to_byte (z : Z) : of_byte (to_byte z) = z mod 256.
Proof.
  unfold of_byte, to_byte.
  assert (Hr : 0 <= z mod 256 < 256) by (apply Z.mod_pos_bound; lia).
  destruct (Byte.of_N (Z.to_N (z mod 256))) as [b|] eqn:Hb.
  - apply Byte.to_of_N in Hb. rewrite Hb. lia.
  - apply Byte.of_N_None_iff in Hb. lia.
Qed.

Lemma of_byte_range (b : byte) : 0 <= of_byte b < 256.
Proof.
  unfold of_byte. pose proof (Byte.to_N_bounded b). lia.
Qed.

Lemma Uint32_PutUint32 (v : Z) :
  0 <= v < 2 ^ 32 ->
  Uint32 (to_byte v) (to_byte (Z.shiftr v 8)) (to_byte (Z.shiftr v 16))
    (to_byte (Z.shiftr v 24)) = v.
Proof.
  intros Hv. unfold Uint32. rewrite !of_byte_to_byte.
  change 256 with (2 ^ 8).
  apply Z.bits_inj'. intros n Hn.
  assert (Hhigh : 32 <= n -> Z.testbit v n = false).
  { intros Hge. destruct (Z.eq_dec v 0) as [->|Hne]; [apply Z.bits_0|].
    apply Z.bits_above_log2; [lia|].
    apply Z.lt_le_trans with 32; [|lia]. apply Z.log2_lt_pow2; lia. }
  rewrite !Z.lor_spec.
  rewrite (Z.shiftl_spec _ 8), (Z.shiftl_spec _ 16), (Z.shiftl_spec _ 24)
    by lia.
  assert (Hcases : n < 8 \/ 8 <= n < 16 \/ 16 <= n < 24 \/ 24 <= n < 32
                   \/ 32 <= n) by lia.
  destruct Hcases as [H|[H|[H|[H|H]]]];
    rewrite ?(Z.testbit_neg_r _ (n - 8)), ?(Z.testbit_neg_r _ (n - 16)),
      ?(Z.testbit_neg_r _ (n - 24)) by lia;
    rewrite ?Z.testbit_mod_pow2 by lia;
    rewrite ?Z.shiftr_spec by lia;
    replace (n - 8 + 8) with n by lia; replace (n - 16 + 16) with n by lia;
    replace (n - 24 + 24) with n by lia;
    repeat match goal with
      | |- context [Z.ltb ?a ?b] =>
          destruct (Z.ltb_spec a b); try lia; cbn [andb orb]
      end;
    try (destruct (Z.testbit v n); reflexivity);
    symmetry; apply Hhigh; lia.
Qed.

Lemma uint32_int32 (n : Z) : uint32 (int32 n) = n mod 2 ^ 32.
Proof.
  unfold uint32, int32, wrap.
  change (2 ^ (32 - 1)) with 2147483648. change (2 ^ 32) with 4294967296.
  rewrite Zminus_mod_idemp_l. f_equal. lia.
Qed.

Lemma Parse_Add (n : Z) (d : list byte) :
  ParseLineNumber (AddLineNumber n d) = Ok (n mod 2 ^ 32, d).
Proof.
  unfold AddLineNumber, PutUint32. cbn [app ParseLineNumber].
  rewrite Uint32_PutUint32.
  - now rewrite uint32_int32.
  - rewrite uint32_int32. apply Z.mod_pos_bound. lia.
Qed.
End FramingFacts.

(** C10 (as amended).  [ParseLineNumber] fails exactly on fewer than four
    bytes; after [AddLineNumber n d] it returns [d] and [n] reduced modulo
    [2^32], which is [n] itself exactly when [0 <= n < 2^32]: the prefix is
    the 32-bit pattern of [int32(n)], read back unsigned. *)
Theorem framing_roundtrip :
  (forall data : list byte,
     (exists e, Framing.ParseLineNumber data = Err e)
     <-> (List.length data < 4)%nat) /\
  (forall (n : Z) (d : list byte),
     Framing.ParseLineNumber (Framing.AddLineNumber n d)
     = Ok (n mod 2 ^ 32, d)) /\
  (forall (n : Z) (d : list byte),
     0 <= n < 2 ^ 32 ->
     Framing.ParseLineNumber (Framing.AddLineNumber n d) = Ok (n, d)) /\
  (forall (n m : Z) (d d' : list byte),
     ~ (0 <= n < 2 ^ 32) ->
     Framing.ParseLineNumber (Framing.AddLineNumber n d) = Ok (m, d') ->
     m <> n).
Proof.
  repeat split.
  - intros [e He].
    destruct data as [|b0 [|b1 [|b2 [|b3 rest]]]]; cbn in *; try lia.
    discriminate He.
  - intros Hlen.
    destruct data as [|b0 [|b1 [|b2 [|b3 rest]]]]; cbn in *;
      try (eexists; reflexivity); lia.
  - apply Parse_Add.
  - intros n d Hn. rewrite Parse_Add, Z.mod_small by exact Hn. reflexivity.
  - intros n m d d' Hn Hp. rewrite Parse_Add in Hp.
    injection Hp as Hm _. subst m.
    pose proof (Z.mod_pos_bound n (2 ^ 32) ltac:(lia)). lia.
Qed.

(** Witness for C10: line number 113287550 of the repository's own test. *)
Lemma framing_roundtrip_witness :
  Framing.ParseLineNumber (Framing.AddLineNumber 113287550 [x48; x69])
  = Ok (113287550, [x48; x69]).
Proof.
  apply (proj1 (proj2 (proj2 framing_roundtrip))). lia.
Defined.

(** Counterexample to C10 as stated: [2^31] lies outside [0, 2^31), yet it
    is recovered unchanged. *)
Lemma framing_roundtrip_above_int32 :
  ~ (0 <= 2147483648 < 2 ^ 31) /\
  Framing.ParseLineNumber (Framing.AddLineNumber 2147483648 [])
  = Ok (2147483648, []).
Proof.
  split; [lia | reflexivity].
Qed.


(** ** Strings and decimal digits *)

Section DigitFacts.
Import strconv.

Lemma str_app_assoc (a b c : string) : (a +:+ b) +:+ c = a +:+ (b +:+ c).
Proof. induction a as [|x a IH]; cbn; [reflexivity | now rewrite IH]. Qed.

Lemma str_app_nil_r (a : string) : a +:+ "" = a.
Proof. induction a as [|x a IH]; cbn; [reflexivity | now rewrite IH]. Qed.

Lemma str_length_app (a b : string) :
  String.length (a +:+ b) = (String.length a + String.length b)%nat.
Proof. induction a as [|x a IH]; cbn; [reflexivity | now rewrite IH]. Qed.

Lemma digit_val_char (d : Z) : 0 <= d <= 9 -> digit_val (digit_char d) = d.
Proof.
  intros Hd. unfold digit_val, digit_char.
  rewrite N_ascii_embedding by lia. lia.
Qed.

Lemma is_digit_char (d : Z) : 0 <= d <= 9 -> is_digit (digit_char d) = true.
Proof.
  intros Hd. unfold is_digit, digit_char.
  rewrite N_ascii_embedding by lia.
  apply andb_true_intro; split; apply N.leb_le; lia.
Qed.

Lemma is_digit_range (c : ascii) :
  is_digit c = true -> 0 <= digit_val c <= 9.
Proof.
  unfold is_digit, digit_val. intros H.
  apply andb_prop in H as [H1 H2].
  apply N.leb_le in H1, H2. lia.
Qed.

Lemma digit_char_val (c : ascii) :
  is_digit c = true -> digit_char (digit_val c) = c.
Proof.
  intros H. pose proof (is_digit_range c H) as Hr.
  unfold digit_char, digit_val in *.
  replace (Z.to_N (48 + (Z.of_N (N_of_ascii c) - 48))) with (N_of_ascii c)
    by lia.
  apply ascii_N_embedding.
Qed.

Lemma digit_val_zero (c : ascii) :
  is_digit c = true -> digit_val c = 0 -> c = "0"%char.
Proof.
  intros H H0. rewrite <- (digit_char_val c H), H0. reflexivity.
Qed.

Lemma all_digits_app (a b : string) :
  all_digits (a +:+ b) = (all_digits a && all_digits b)%bool.
Proof.
  induction a as [|x a IH]; cbn; [reflexivity|].
  rewrite IH. now rewrite andb_assoc.
Qed.

Lemma digits_value_app (a b : string) (acc : Z) :
  digits_value acc (a +:+ b) = digits_value (digits_value acc a) b.
Proof.
  revert acc. induction a as [|x a IH]; intros acc; cbn; [reflexivity|].
  apply IH.
Qed.

Lemma digits_value_acc (s : string) (acc : Z) :
  digits_value acc s
  = acc * 10 ^ Z.of_nat (String.length s) + digits_value 0 s.
Proof.
  revert acc. induction s as [|c s IH]; intros acc.
  - cbn. lia.
  - cbn [digits_value String.length].
    rewrite IH, (IH (10 * 0 + digit_val c)).
    rewrite Nat2Z.inj_succ, Z.pow_succ_r by lia. ring.
Qed.

Lemma digits_value_nonneg (s : string) (acc : Z) :
  all_digits s = true -> 0 <= acc -> 0 <= digits_value acc s.
Proof.
  revert acc. induction s as [|c s IH]; intros acc Hs Hacc; cbn in *.
  - exact Hacc.
  - apply andb_prop in Hs as [Hc Hs].
    apply IH; [exact Hs|]. pose proof (is_digit_range c Hc). lia.
Qed.

(** The digit loop does not depend on its fuel once there is enough. *)
Lemma utoa_go_fuel (f1 f2 : nat) (n : Z) (acc : string) :
  0 <= n -> n < 10 ^ Z.of_nat f1 -> n < 10 ^ Z.of_nat f2 ->
  (1 <= f1)%nat -> (1 <= f2)%nat ->
  utoa_go f1 n acc = utoa_go f2 n acc.
Proof.
  revert f2 n acc.
  induction f1 as [|f1 IH]; intros f2 n acc Hn H1 H2 Hf1 Hf2; [lia|].
  destruct f2 as [|f2]; [lia|]. cbn [utoa_go].
  destruct (Z.ltb_spec n 10) as [Hlt|Hge]; [reflexivity|].
  rewrite Nat2Z.inj_succ, Z.pow_succ_r in H1, H2 by lia.
  assert (Hf1' : (1 <= f1)%nat).
  { destruct f1; [cbn in H1; lia | lia]. }
  assert (Hf2' : (1 <= f2)%nat).
  { destruct f2; [cbn in H2; lia | lia]. }
  apply IH; try assumption.
  - apply Z.div_pos; lia.
  - apply Z.div_lt_upper_bound; lia.
  - apply Z.div_lt_upper_bound; lia.
Qed.

Lemma utoa_go_acc (f : nat) (n : Z) (acc : string) :
  utoa_go f n acc = utoa_go f n "" +:+ acc.
Proof.
  revert n acc. induction f as [|f IH]; intros n acc; cbn [utoa_go].
  - reflexivity.
  - destruct (n <? 10); [reflexivity|].
    rewrite IH, (IH _ (String _ "")). rewrite str_app_assoc. reflexivity.
Qed.

Lemma log2_fuel (n : Z) : 0 <= n -> n < 10 ^ Z.of_nat (S (Z.to_nat (Z.log2 n))).
Proof.
  intros Hn. rewrite Nat2Z.inj_succ, Z2Nat.id by apply Z.log2_nonneg.
  destruct (Z.eq_dec n 0) as [->|Hne]; [cbn; lia|].
  pose proof (Z.log2_spec n ltac:(lia)) as [_ Hlt].
  apply Z.lt_le_trans with (2 ^ Z.succ (Z.log2 n)); [exact Hlt|].
  apply Z.pow_le_mono_l. lia.
Qed.

Lemma utoa_lt10 (n : Z) :
  0 <= n < 10 -> utoa n = String (digit_char n) "".
Proof.
  intros Hn. unfold utoa. cbn [utoa_go].
  destruct (Z.ltb_spec n 10); [|lia].
  now rewrite Z.mod_small by lia.
Qed.

Lemma utoa_ge10 (n : Z) :
  10 <= n -> utoa n = utoa (n / 10) +:+ String (digit_char (n mod 10)) "".
Proof.
  intros Hn. unfold utoa at 1. cbn [utoa_go].
  destruct (Z.ltb_spec n 10); [lia|].
  rewrite utoa_go_acc. f_equal. unfold utoa.
  assert (Hq : 0 <= n / 10) by (apply Z.div_pos; lia).
  assert (Hl : 1 <= Z.log2 n).
  { change 1 with (Z.log2 2). apply Z.log2_le_mono. lia. }
  apply utoa_go_fuel; try lia.
  - pose proof (log2_fuel n ltac:(lia)) as Hf.
    rewrite Nat2Z.inj_succ, Z.pow_succ_r in Hf by lia.
    apply Z.div_lt_upper_bound; lia.
  - apply log2_fuel; lia.
Qed.

(** Induction on the number printed, one digit at a time. *)
Lemma utoa_ind (P : Z -> Prop) :
  (forall n, 0 <= n < 10 -> P n) ->
  (forall n, 10 <= n -> P (n / 10) -> P n) ->
  forall n, 0 <= n -> P n.
Proof.
  intros Hsmall Hbig n Hn.
  induction n as [n IH] using (well_founded_induction (Z.lt_wf 0)).
  destruct (Z.lt_ge_cases n 10) as [Hlt|Hge].
  - apply Hsmall. lia.
  - apply Hbig; [exact Hge|]. apply IH.
    + split; [apply Z.div_pos; lia | apply Z.div_lt; lia].
    + apply Z.div_pos; lia.
Qed.

Lemma all_digits_utoa (n : Z) : 0 <= n -> all_digits (utoa n) = true.
Proof.
  intros Hn. pattern n. apply utoa_ind; [| |exact Hn]; clear n Hn.
  - intros n Hs.
    rewrite utoa_lt10 by lia. cbn. rewrite is_digit_char by lia. reflexivity.
  - intros n Hb IH. rewrite utoa_ge10, all_digits_app, IH by lia. cbn.
    rewrite is_digit_char; [reflexivity|].
    pose proof (Z.mod_pos_bound n 10). lia.
Qed.

Lemma digits_value_utoa (n : Z) : 0 <= n -> digits_value 0 (utoa n) = n.
Proof.
  intros Hn. pattern n. apply utoa_ind; [| |exact Hn]; clear n Hn.
  - intros n Hs. rewrite utoa_lt10 by lia. cbn. rewrite digit_val_char; lia.
  - intros n Hb IH. rewrite utoa_ge10, digits_value_app, IH by lia. cbn.
    pose proof (Z.mod_pos_bound n 10 ltac:(lia)).
    rewrite digit_val_char by lia.
    pose proof (Z.div_mod n 10). lia.
Qed.

Lemma utoa_nonempty (n : Z) : 0 <= n -> (1 <= String.length (utoa n))%nat.
Proof.
  intros Hn. destruct (Z.lt_ge_cases n 10).
  - rewrite utoa_lt10 by lia. cbn. lia.
  - rewrite utoa_ge10, str_length_app by lia. cbn. lia.
Qed.

(** Printing the value of digits appended to a positive number. *)
Lemma utoa_digits_value (ds : string) (v : Z) :
  all_digits ds = true -> 0 < v ->
  utoa (digits_value v ds) = utoa v +:+ ds.
Proof.
  revert v. induction ds as [|c ds IH]; intros v Hds Hv.
  - cbn. now rewrite str_app_nil_r.
  - cbn in Hds. apply andb_prop in Hds as [Hc Hds].
    pose proof (is_digit_range c Hc) as Hr.
    cbn [digits_value]. rewrite IH by (assumption || lia).
    rewrite utoa_ge10 by lia.
    replace ((10 * v + digit_val c) / 10) with v
      by (apply Z.div_unique with (digit_val c); lia).
    replace ((10 * v + digit_val c) mod 10) with (digit_val c)
      by (apply Z.mod_unique with v; lia).
    rewrite digit_char_val by assumption.
    now rewrite str_app_assoc.
Qed.

(** Digits with no leading zero are printed back as they were read. *)
Lemma utoa_canonical (c : ascii) (ds : string) :
  all_digits (String c ds) = true -> c <> "0"%char ->
  utoa (digits_value 0 (String c ds)) = String c ds.
Proof.
  intros Hds Hc. cbn in Hds. apply andb_prop in Hds as [Hd Hds].
  pose proof (is_digit_range c Hd) as Hr.
  assert (Hpos : 0 < digit_val c).
  { destruct (Z.eq_dec (digit_val c) 0) as [H0|]; [|lia].
    now apply digit_val_zero in H0. }
  cbn [digits_value]. rewrite utoa_digits_value by (assumption || lia).
  replace (10 * 0 + digit_val c) with (digit_val c) by lia.
  rewrite utoa_lt10 by lia. now rewrite digit_char_val.
Qed.

(** Zero padding to the original width restores any run of digits. *)
Lemma pad_digits (ds : string) :
  ds <> "" -> all_digits ds = true ->
  (String.length (utoa (digits_value 0 ds)) <= String.length ds)%nat /\
  fmt.zeros (String.length ds - String.length (utoa (digits_value 0 ds)))
    +:+ utoa (digits_value 0 ds) = ds.
Proof.
  induction ds as [|c ds IH]; intros Hne Hds; [congruence|].
  destruct (ascii_dec c "0") as [->|Hc].
  - destruct ds as [|c' ds'].
    + split; [vm_compute; lia | reflexivity].
    + cbn in Hds. destruct IH as [Hlen Heq]; [congruence | exact Hds |].
      change (digits_value 0 (String "0" (String c' ds')))
        with (digits_value 0 (String c' ds')).
      split; [cbn [String.length] in *; lia|].
      cbn [String.length] in *.
      replace (S (S (String.length ds'))
               - String.length (utoa (digits_value 0 (String c' ds'))))%nat
        with (S (S (String.length ds')
                 - String.length (utoa (digits_value 0 (String c' ds')))))
        by lia.
      cbn [fmt.zeros]. cbn [String.append]. now rewrite Heq.
  - rewrite utoa_canonical by assumption.
    split; [lia|]. rewrite Nat.sub_diag. reflexivity.
Qed.
End DigitFacts.

(** ** The checkpoint manager *)

Section CheckpointFacts.
Import CheckpointManager.

Lemma incr_small (z : Z) :
  Int.min_int <= z < Int.max_int -> Int.incr z = z + 1.
Proof.
  unfold Int.incr, Int.int64, Int.wrap, Int.min_int, Int.max_int.
  change (2 ^ (64 - 1)) with 9223372036854775808.
  change (2 ^ 64) with 18446744073709551616.
  change (2 ^ 63) with 9223372036854775808.
  intros Hz. rewrite Z.mod_small; lia.
Qed.

Lemma tmp_neq (path : string) : path +:+ ".tmp" <> path.
Proof.
  intros H. apply (f_equal String.length) in H.
  rewrite str_length_app in H. cbn in H. lia.
Qed.

(** A flush of a dirty manager whose files can be written. *)
Lemma save_dirty (cm : t) (w : os.World) :
  dirty cm = true ->
  CheckpointFile (config cm) ∉ os.denied w ->
  CheckpointFile (config cm) +:+ ".tmp" ∉ os.denied w ->
  0 <= time.Year (os.now w) <= 9999 ->
  let c := currentCheckpoint cm in
  let c' := Checkpoint.mk (Checkpoint.TotalItems c) (os.now w)
              (Checkpoint.LastItemID c) (Checkpoint.ProcessedPosition c) in
  exists w',
    save cm w = (mk (config cm) c' 0 false, w', None) /\
    os.files w' !! CheckpointFile (config cm)
    = Some (os.Text
              (json.Obj
                 [("total_items", json.Num (Checkpoint.TotalItems c));
                  ("timestamp", json.Str (timejson.format (os.now w)));
                  ("last_item_id",
                   json.Str (utf8.coerce (Checkpoint.LastItemID c)));
                  ("position", json.Num (Checkpoint.ProcessedPosition c))]))
    /\ os.files w' !! (CheckpointFile (config cm) +:+ ".tmp") = None
    /\ os.unreadable w' = os.unreadable w.
Proof.
  intros Hd Hp Ht Hy c c'. unfold save. rewrite Hd. cbn [negb].
  unfold Checkpoint.Marshal, timejson.MarshalJSON, json.of_string.
  cbn [Checkpoint.SaveTimestamp config].
  destruct (Z.leb_spec 0 (time.Year (os.now w))); [|lia].
  destruct (Z.leb_spec (time.Year (os.now w)) 9999); [|lia].
  cbn [andb mbind result_bind]. unfold os.WriteFile.
  rewrite bool_decide_eq_false_2 by exact Ht.
  unfold os.Rename. cbn [os.files os.denied os.now].
  rewrite lookup_insert_eq.
  rewrite bool_decide_eq_false_2 by exact Hp.
  eexists. split; [reflexivity|]. cbn [os.files os.unreadable].
  split; [|split; [|reflexivity]].
  - apply lookup_insert_eq.
  - rewrite lookup_insert_ne by (intros E; symmetry in E; revert E; apply tmp_neq).
    apply lookup_delete_eq.
Qed.

(** A constructor that finds no file starts its task on the empty
    checkpoint. *)
Lemma New_without_file (cfg : CheckpointConfig) (w : os.World) :
  os.files w !! CheckpointFile cfg = None ->
  NewCheckpointManagerWithConfig cfg w
  = autoSave (mk cfg Checkpoint.zero 0 false).
Proof.
  intros Hnone. unfold NewCheckpointManagerWithConfig, loadCheckpoint,
    os.ReadFile. rewrite Hnone. reflexivity.
Qed.

Lemma autoSave_positive (cm : t) :
  0 < SaveInterval (config cm) -> autoSave cm = Returned cm.
Proof.
  intros H. unfold autoSave.
  destruct (Z.leb_spec (SaveInterval (config cm)) 0); [lia | reflexivity].
Qed.

Lemma incr_max : Int.incr Int.max_int = Int.min_int.
Proof. reflexivity. Qed.
End CheckpointFacts.

(** C9 (as amended).  Constructing a manager with a positive save interval
    when the configured checkpoint file does not exist returns a manager
    (no panic, no error) holding the empty snapshot: every counter is zero
    and the state is clean. *)
Theorem new_manager_without_file
    (config : CheckpointManager.CheckpointConfig) (w : os.World) :
  0 < CheckpointManager.SaveInterval config ->
  os.files w !! CheckpointManager.CheckpointFile config = None ->
  exists cm,
    CheckpointManager.NewCheckpointManagerWithConfig config w
    = CheckpointManager.Returned cm /\
    CheckpointManager.config cm = config /\
    CheckpointManager.currentCheckpoint cm = Checkpoint.zero /\
    Checkpoint.TotalItems (CheckpointManager.currentCheckpoint cm) = 0 /\
    CheckpointManager.itemsSinceLastCheckpoint cm = 0 /\
    CheckpointManager.dirty cm = false.
Proof.
  intros Hpos Hnone. rewrite (New_without_file config w Hnone).
  rewrite autoSave_positive by exact Hpos. eexists. repeat split.
Qed.

(** Witness for C9: the repository's test, on an empty file system. *)
Lemma new_manager_without_file_witness :
  exists cm,
    CheckpointManager.NewCheckpointManagerWithConfig
      (CheckpointManager.mkConfig 1000000000 1 "TestNewCheckpointManager.json")
      (os.mkWorld ∅ time.zero [] [])
    = CheckpointManager.Returned cm /\
    Checkpoint.TotalItems (CheckpointManager.currentCheckpoint cm) = 0.
Proof.
  destruct (new_manager_without_file
              (CheckpointManager.mkConfig 1000000000 1
                 "TestNewCheckpointManager.json")
              (os.mkWorld ∅ time.zero [] []) eq_refl (lookup_empty _))
    as (cm & Hcm & _ & _ & Htot & _).
  exists cm. split; [exact Hcm | exact Htot].
Defined.

(** Counterexample to C9 as stated: with a save interval of zero, or a
    negative one, and no checkpoint file, the task the constructor starts
    panics in [time.NewTicker], which ends the process. *)
Lemma new_manager_non_positive_interval :
  CheckpointManager.NewCheckpointManagerWithConfig
    (CheckpointManager.mkConfig 0 1 "TestNewCheckpointManager.json")
    (os.mkWorld ∅ time.zero [] [])
  = CheckpointManager.Panicked "non-positive interval for NewTicker" /\
  CheckpointManager.NewCheckpointManagerWithConfig
    (CheckpointManager.mkConfig (-1000000000) 1
       "TestNewCheckpointManager.json")
    (os.mkWorld ∅ time.zero [] [])
  = CheckpointManager.Panicked "non-positive interval for NewTicker".
Proof. split; reflexivity. Qed.

(** C8 (as amended).  A call of [UpdateProgressAndMaybeSave] stores the
    position and the item id, increments the total and the count since the
    last flush as Go increments an [int] (by one below the largest [int],
    around to the smallest at the largest), and marks the manager dirty.
    While the incremented count is below the threshold it touches no file;
    when the incremented count is at or above the threshold it flushes at
    once, and with writable files the checkpoint file then holds the new
    snapshot, the count is back at zero and the manager is clean.  With a
    positive save interval, threshold 2 and no file, the file is still
    absent after the first call and holds [total_items = 2],
    [last_item_id = "item2"], [position = 2] after the second. *)
Theorem update_progress_and_maybe_save :
  (forall (position : Z) (itemID : string) (cm : CheckpointManager.t)
          (w : os.World),
     let c := CheckpointManager.currentCheckpoint cm in
     let since := CheckpointManager.itemsSinceLastCheckpoint cm in
     let threshold :=
       CheckpointManager.ItemsThreshold (CheckpointManager.config cm) in
     let path :=
       CheckpointManager.CheckpointFile (CheckpointManager.config cm) in
     let updated :=
       CheckpointManager.mk (CheckpointManager.config cm)
         (Checkpoint.mk (Int.incr (Checkpoint.TotalItems c))
            (Checkpoint.SaveTimestamp c) itemID position)
         (Int.incr since) true in
     (Int.incr since < threshold ->
      CheckpointManager.UpdateProgressAndMaybeSave position itemID cm w
      = (updated, w, None)) /\
     (threshold <= Int.incr since ->
      CheckpointManager.UpdateProgressAndMaybeSave position itemID cm w
      = CheckpointManager.save updated w) /\
     (threshold <= Int.incr since ->
      path ∉ os.denied w -> path +:+ ".tmp" ∉ os.denied w ->
      0 <= time.Year (os.now w) <= 9999 ->
      exists w',
        CheckpointManager.UpdateProgressAndMaybeSave position itemID cm w
        = (CheckpointManager.mk (CheckpointManager.config cm)
             (Checkpoint.mk (Int.incr (Checkpoint.TotalItems c)) (os.now w)
                itemID position) 0 false,
           w', None) /\
        os.files w' !! path
        = Some (os.Text
                  (json.Obj
                     [("total_items",
                       json.Num (Int.incr (Checkpoint.TotalItems c)));
                      ("timestamp", json.Str (timejson.format (os.now w)));
                      ("last_item_id", json.Str (utf8.coerce itemID));
                      ("position", json.Num position)])))) /\
  (forall z : Z, Int.min_int <= z < Int.max_int -> Int.incr z = z + 1) /\
  Int.incr Int.max_int = Int.min_int /\
  (forall (interval : Z) (path : string) (w : os.World),
     0 < interval ->
     os.files w !! path = None ->
     path ∉ os.denied w -> path +:+ ".tmp" ∉ os.denied w ->
     0 <= time.Year (os.now w) <= 9999 ->
     exists cm0 cm1 cm2 w2,
       CheckpointManager.NewCheckpointManagerWithConfig
         (CheckpointManager.mkConfig interval 2 path) w
       = CheckpointManager.Returned cm0 /\
       CheckpointManager.UpdateProgressAndMaybeSave 1 "item1" cm0 w
       = (cm1, w, None) /\
       os.files w !! path = None /\
       CheckpointManager.UpdateProgressAndMaybeSave 2 "item2" cm1 w
       = (cm2, w2, None) /\
       os.files w2 !! path
       = Some (os.Text
                 (json.Obj
                    [("total_items", json.Num 2);
                     ("timestamp", json.Str (timejson.format (os.now w)));
                     ("last_item_id", json.Str "item2");
                     ("position", json.Num 2)]))).
Proof.
  split; [|split; [exact incr_small|split; [exact incr_max|]]].
  - intros position itemID cm w c since threshold path updated.
    assert (Hu : CheckpointManager.UpdateProgressAndMaybeSave position itemID
                   cm w
                 = if threshold <=? Int.incr since
                   then CheckpointManager.save updated w
                   else (updated, w, None)) by reflexivity.
    split; [|split].
    + intros Hlt. rewrite Hu.
      destruct (Z.leb_spec threshold (Int.incr since)); [lia | reflexivity].
    + intros Hge. rewrite Hu.
      destruct (Z.leb_spec threshold (Int.incr since)); [reflexivity | lia].
    + intros Hge Hp Htmp Hy. rewrite Hu.
      destruct (Z.leb_spec threshold (Int.incr since)); [|lia].
      destruct (save_dirty updated w eq_refl Hp Htmp Hy)
        as (w' & Hsave & Hf & _).
      exists w'. split; [exact Hsave | exact Hf].
  - intros interval path w Hpos Hnone Hp Htmp Hy.
    set (cfg := CheckpointManager.mkConfig interval 2 path).
    set (cm0 := CheckpointManager.mk cfg Checkpoint.zero 0 false).
    set (cm1 := CheckpointManager.mk cfg
                  (Checkpoint.mk 1 time.zero "item1" 1) 1 true).
    destruct (save_dirty
                (CheckpointManager.mk cfg (Checkpoint.mk 2 time.zero "item2" 2)
                   2 true) w eq_refl Hp Htmp Hy) as (w2 & Hsave & Hf & _).
    exists cm0, cm1, (CheckpointManager.mk cfg
                        (Checkpoint.mk 2 (os.now w) "item2" 2) 0 false), w2.
    split; [|split; [|split; [|split]]].
    + rewrite (New_without_file cfg w Hnone).
      now apply autoSave_positive.
    + reflexivity.
    + exact Hnone.
    + exact Hsave.
    + exact Hf.
Qed.

(** Witness for C8: the repository's test, on an empty file system. *)
Lemma update_progress_and_maybe_save_witness :
  exists cm0 cm1 cm2 w2,
    CheckpointManager.NewCheckpointManagerWithConfig
      (CheckpointManager.mkConfig 1000000000 2 "checkpoint.json")
      (os.mkWorld ∅ (time.mkTime 2024 5 17 10 30 0 0) [] [])
    = CheckpointManager.Returned cm0 /\
    CheckpointManager.UpdateProgressAndMaybeSave 1 "item1" cm0
      (os.mkWorld ∅ (time.mkTime 2024 5 17 10 30 0 0) [] [])
    = (cm1, os.mkWorld ∅ (time.mkTime 2024 5 17 10 30 0 0) [] [], None) /\
    CheckpointManager.UpdateProgressAndMaybeSave 2 "item2" cm1
      (os.mkWorld ∅ (time.mkTime 2024 5 17 10 30 0 0) [] [])
    = (cm2, w2, None) /\
    os.files w2 !! "checkpoint.json"
    = Some (os.Text
              (json.Obj
                 [("total_items", json.Num 2);
                  ("timestamp", json.Str "2024-05-17T10:30:00Z");
                  ("last_item_id", json.Str "item2");
                  ("position", json.Num 2)])).
Proof.
  destruct (proj2 (proj2 (proj2 update_progress_and_maybe_save))
              1000000000 "checkpoint.json"
              (os.mkWorld ∅ (time.mkTime 2024 5 17 10 30 0 0) [] []))
    as (cm0 & cm1 & cm2 & w2 & H0 & H1 & _ & H2 & Hf).
  - reflexivity.
  - apply lookup_empty.
  - cbn. apply not_elem_of_nil.
  - cbn. apply not_elem_of_nil.
  - cbn. lia.
  - exists cm0, cm1, cm2, w2. repeat split; assumption.
Defined.

(** Counterexample to C8 as stated.  At the largest [int], which a
    checkpoint file can hold, the total is not one more after the call: the
    increment wraps around to the smallest [int].  With a save interval of
    zero the scenario does not begin: the task the constructor starts
    panics. *)
Lemma update_progress_wraps_and_needs_interval :
  Checkpoint.TotalItems
    (CheckpointManager.currentCheckpoint
       (CheckpointManager.UpdateProgressAndMaybeSave 1 "item1"
          (CheckpointManager.mk
             (CheckpointManager.mkConfig 1000000000 2 "checkpoint.json")
             (Checkpoint.mk Int.max_int time.zero "" 0) 0 false)
          (os.mkWorld ∅ (time.mkTime 2024 5 17 10 30 0 0) [] [])).1.1)
  = Int.min_int /\
  Int.min_int <> Int.max_int + 1 /\
  CheckpointManager.NewCheckpointManagerWithConfig
    (CheckpointManager.mkConfig 0 2 "checkpoint.json")
    (os.mkWorld ∅ (time.mkTime 2024 5 17 10 30 0 0) [] [])
  = CheckpointManager.Panicked "non-positive interval for NewTicker".
Proof.
  split; [reflexivity|]. split; [discriminate | reflexivity].
Qed.

(** ** Timestamps *)

Section TimeFacts.
Import strconv.

Lemma span_digits_spec (s ds r : string) :
  span_digits s = (ds, r) -> s = ds +:+ r /\ all_digits ds = true.
Proof.
  revert ds r. induction s as [|c s IH]; intros ds r H; cbn in H.
  - injection H as <- <-. split; reflexivity.
  - destruct (is_digit c) eqn:Hc.
    + destruct (span_digits s) as [ds' r'] eqn:Hs.
      injection H as <- <-. destruct (IH ds' r' eq_refl) as [-> Hd].
      split; [reflexivity|]. cbn. now rewrite Hc, Hd.
    + injection H as <- <-. split; reflexivity.
Qed.

Lemma digit_not_sign (c : ascii) :
  is_digit c = true -> Ascii.eqb c "+" = false /\ Ascii.eqb c "-" = false.
Proof.
  intros Hc. split.
  - destruct (Ascii.eqb_spec c "+") as [->|]; [discriminate Hc | reflexivity].
  - destruct (Ascii.eqb_spec c "-") as [->|]; [discriminate Hc | reflexivity].
Qed.

Lemma two_digits_range (a b : ascii) :
  all_digits (two a b) = true -> 0 <= field_value (two a b) <= 99.
Proof.
  cbn. intros H. apply andb_prop in H as [Ha H].
  apply andb_prop in H as [Hb _].
  pose proof (is_digit_range a Ha). pose proof (is_digit_range b Hb).
  unfold field_value. cbn. lia.
Qed.

Lemma ParseInt_two (a b : ascii) :
  all_digits (two a b) = true ->
  ParseInt (two a b) = Ok (field_value (two a b)).
Proof.
  intros H. pose proof (two_digits_range a b H) as Hr.
  unfold ParseInt. cbn [two].
  assert (Ha : is_digit a = true) by (cbn in H; now apply andb_prop in H).
  destruct (digit_not_sign a Ha) as [-> ->].
  change (String a (String b "")) with (two a b). rewrite H.
  fold (field_value (two a b)).
  unfold Int.min_int, Int.max_int.
  destruct (Z.leb_spec (- 2 ^ 63) (field_value (two a b))); [|lia].
  destruct (Z.leb_spec (field_value (two a b)) (2 ^ 63 - 1)); [|lia].
  reflexivity.
Qed.

(** What [ParseInt] returns on a sign followed by digits. *)
Lemma ParseInt_signed (sign : ascii) (ds : string) (y : Z) :
  sign = "+"%char \/ sign = "-"%char -> all_digits ds = true ->
  ParseInt (String sign ds) = Ok y ->
  y = (if Ascii.eqb sign "-" then - field_value ds else field_value ds)
  /\ Int.min_int <= y <= Int.max_int.
Proof.
  intros Hs Hd. unfold ParseInt.
  assert (Hsplit :
    (if Ascii.eqb sign "+" then (false, ds)
     else if Ascii.eqb sign "-" then (true, ds)
     else (false, String sign ds))
    = (Ascii.eqb sign "-", ds)).
  { destruct Hs as [-> | ->]; reflexivity. }
  rewrite Hsplit. destruct ds as [|c ds']; [discriminate|].
  rewrite Hd. fold (field_value (String c ds')).
  set (z := if Ascii.eqb sign "-" then _ else _).
  destruct (Z.leb_spec Int.min_int z); [|discriminate].
  destruct (Z.leb_spec z Int.max_int); [|discriminate].
  cbn. intros [= <-]. split; [reflexivity | lia].
Qed.

(** The shape of a text the regular expression matches. *)
Lemma timeRegex_inv (t : string) (m : timeMatch) :
  timeRegex t = Some m ->
  exists sign ds m1 m2 d1 d2 h1 h2 n1 n2 s1 s2,
    t = String sign ds +:+ "-" +:+ two m1 m2 +:+ "-" +:+ two d1 d2 +:+ "T"
          +:+ two h1 h2 +:+ ":" +:+ two n1 n2 +:+ ":" +:+ two s1 s2 +:+ "Z"
    /\ m = mkMatch (String sign ds) (two m1 m2) (two d1 d2) (two h1 h2)
             (two n1 n2) (two s1 s2)
    /\ (sign = "+"%char \/ sign = "-"%char)
    /\ all_digits ds = true /\ (4 <= String.length ds)%nat
    /\ all_digits (two m1 m2) = true /\ all_digits (two d1 d2) = true
    /\ all_digits (two h1 h2) = true /\ all_digits (two n1 n2) = true
    /\ all_digits (two s1 s2) = true.
Proof.
  unfold timeRegex. destruct t as [|sign rest]; [discriminate|].
  destruct (span_digits rest) as [ds r] eqn:Hspan.
  apply span_digits_spec in Hspan as [-> Hds].
  do 16 (destruct r as [|? r]; [discriminate|]).
  destruct r; [|discriminate].
  match goal with
  | |- (if ?c then _ else _) = _ -> _ => destruct c eqn:Hc; [|discriminate]
  end.
  intros [= <-].
  repeat match goal with
         | H : (_ && _)%bool = true |- _ => apply andb_prop in H as [H ?]
         end.
  repeat match goal with
         | H : Ascii.eqb _ _ = true |- _ => apply Ascii.eqb_eq in H; subst
         end.
  do 12 eexists. split; [|split; [reflexivity|]].
  - reflexivity.
  - repeat split; try assumption.
    + apply orb_prop in Hc as [Hsg|Hsg]; apply Ascii.eqb_eq in Hsg; auto.
    + now apply Nat.leb_le.
Qed.

Lemma norm_small (hi lo base : Z) :
  0 <= lo < base -> time.norm hi lo base = (hi, lo).
Proof.
  intros H. unfold time.norm.
  rewrite Z.div_small, Z.mod_small by lia. f_equal. lia.
Qed.

(** [time.Date] keeps fields that are already in range. *)
Lemma Date_valid (year month day hour min sec nsec : Z) :
  1 <= month <= 12 -> 1 <= day <= time.daysIn year month ->
  0 <= hour < 24 -> 0 <= min < 60 -> 0 <= sec < 60 ->
  0 <= nsec < 1000000000 ->
  time.Date year month day hour min sec nsec
  = time.mkTime year month day hour min sec nsec.
Proof.
  intros Hm Hd Hh Hmin Hs Hn. unfold time.Date.
  rewrite (norm_small year (month - 1) 12) by lia.
  rewrite (norm_small sec nsec) by lia.
  rewrite (norm_small min sec) by lia.
  rewrite (norm_small hour min) by lia.
  rewrite (norm_small day hour) by lia.
  replace (month - 1 + 1) with month by lia.
  destruct (Z.leb_spec 1 day); [|lia].
  destruct (Z.leb_spec day (time.daysIn year month)); [|lia].
  reflexivity.
Qed.

Lemma parseTime_civil (t : string) (m : timeMatch) (y : Z) :
  timeRegex t = Some m -> ParseInt (m_year m) = Ok y -> y <> 0 ->
  civil (stored_year y) m ->
  parseTime t = Ok (stored_time y m).
Proof.
  intros Hre Hy Hnz Hciv. unfold parseTime. rewrite Hre.
  destruct (timeRegex_inv t m Hre)
    as (sign & ds & m1 & m2 & d1 & d2 & h1 & h2 & n1 & n2 & s1 & s2
        & _ & -> & Hsign & Hds & _ & Hm & Hd & Hh & Hn & Hs).
  cbn [m_year m_month m_day m_hour m_minute m_second] in *.
  destruct (ParseInt_signed sign ds y Hsign Hds Hy) as [_ Hrange].
  unfold parseField. rewrite Hy, !ParseInt_two by assumption.
  cbn [mbind result_bind].
  assert (Hyear :
    (if y <? 0 then Ok (Int.incr y)
     else if y =? 0 then Err (New "year cannot be 0") else Ok y)
    = Ok (stored_year y)).
  { unfold stored_year. destruct (Z.ltb_spec y 0).
    - rewrite incr_small by (unfold Int.max_int in *; lia). reflexivity.
    - destruct (Z.eqb_spec y 0); [contradiction | reflexivity]. }
  rewrite Hyear. cbn [mbind result_bind].
  destruct Hciv as (Hmon & Hday & Hhour & Hmin & Hsec).
  cbn [m_year m_month m_day m_hour m_minute m_second] in *.
  pose proof (two_digits_range m1 m2 Hm).
  pose proof (two_digits_range d1 d2 Hd).
  pose proof (two_digits_range h1 h2 Hh).
  pose proof (two_digits_range n1 n2 Hn).
  pose proof (two_digits_range s1 s2 Hs).
  unfold stored_time.
  cbn [m_year m_month m_day m_hour m_minute m_second].
  fold (one_if_zero (field_value (two m1 m2))).
  fold (one_if_zero (field_value (two d1 d2))).
  f_equal. apply Date_valid; try lia.
  - unfold one_if_zero. destruct (Z.eqb_spec (field_value (two m1 m2)) 0); lia.
  - split; [|exact Hday].
    unfold one_if_zero. destruct (Z.eqb_spec (field_value (two d1 d2)) 0); lia.
Qed.

Lemma two_length (a b : ascii) : String.length (two a b) = 2%nat.
Proof. reflexivity. Qed.

(** [%02d] writes a two-digit field back. *)
Lemma d0_two (a b : ascii) :
  all_digits (two a b) = true ->
  fmt.d0 false 2 (field_value (two a b)) = two a b.
Proof.
  intros H. pose proof (two_digits_range a b H) as Hr.
  destruct (pad_digits (two a b) ltac:(discriminate) H) as [_ Hpad].
  unfold fmt.d0. destruct (Z.ltb_spec (field_value (two a b)) 0); [lia|].
  rewrite Z.abs_eq by lia. rewrite two_length in Hpad.
  cbn [String.length Nat.sub String.append]. exact Hpad.
Qed.

Lemma two_zero (a b : ascii) :
  all_digits (two a b) = true ->
  field_value (two a b) = 0 <-> two a b = "00".
Proof.
  intros H. split.
  - intros Hv. cbn in H. apply andb_prop in H as [Ha H].
    apply andb_prop in H as [Hb _].
    pose proof (is_digit_range a Ha). pose proof (is_digit_range b Hb).
    unfold field_value in Hv. cbn in Hv.
    assert (digit_val a = 0) as Ha0 by lia.
    assert (digit_val b = 0) as Hb0 by lia.
    apply digit_val_zero in Ha0, Hb0; try assumption. now subst.
  - intros [= -> ->]. reflexivity.
Qed.

(** [%+05d] writes a canonical year field back. *)
Lemma d0_year (sign : ascii) (ds : string) (y : Z) :
  sign = "+"%char \/ sign = "-"%char -> all_digits ds = true ->
  (4 <= String.length ds)%nat -> canonical_year (String sign ds) ->
  y = (if Ascii.eqb sign "-" then - field_value ds else field_value ds) ->
  y <> 0 ->
  fmt.d0 true 5 y = String sign ds.
Proof.
  intros Hsign Hds Hlen Hcan Hy Hnz.
  pose proof (digits_value_nonneg ds 0 Hds ltac:(lia)) as Hv.
  fold (field_value ds) in Hv.
  assert (Hdigits :
    fmt.zeros (4 - String.length (utoa (field_value ds)))
      +:+ utoa (field_value ds) = ds).
  { destruct ds as [|d ds']; [cbn in Hlen; lia|].
    destruct (pad_digits (String d ds') ltac:(discriminate) Hds)
      as [Hle Hpad].
    destruct Hcan as [H3 | Hd].
    - cbn [String.length] in Hpad. rewrite H3 in Hpad. exact Hpad.
    - unfold field_value. rewrite utoa_canonical by assumption.
      replace (4 - String.length (String d ds'))%nat with 0%nat by lia.
      reflexivity. }
  unfold fmt.d0.
  destruct Hsign as [-> | ->]; cbn [Ascii.eqb Bool.eqb] in Hy; subst y.
  - destruct (Z.ltb_spec (field_value ds) 0); [lia|].
    rewrite Z.abs_eq by lia.
    cbn [String.length Nat.sub String.append]. now rewrite Hdigits.
  - destruct (Z.ltb_spec (- field_value ds) 0); [|lia].
    rewrite Z.abs_neq, Z.opp_involutive by lia.
    cbn [String.length Nat.sub String.append]. now rewrite Hdigits.
Qed.

(** [formatTime] on what [parseTime] stored. *)
Lemma formatTime_stored (y : Z) (m : timeMatch) (p : TimePrecision) :
  y <> 0 ->
  formatTime (stored_time y m) p
  = fmt.d0 true 5 y +:+ "-"
      +:+ fmt.d0 false 2
            (if p <? Precision.Month then 0
             else one_if_zero (field_value (m_month m)))
      +:+ "-"
      +:+ fmt.d0 false 2
            (if p <? Precision.Day then 0
             else one_if_zero (field_value (m_day m)))
      +:+ "T" +:+ fmt.d0 false 2 (field_value (m_hour m)) +:+ ":"
      +:+ fmt.d0 false 2 (field_value (m_minute m)) +:+ ":"
      +:+ fmt.d0 false 2 (field_value (m_second m)) +:+ "Z".
Proof.
  intros Hnz. unfold formatTime, stored_time.
  cbn [time.Year time.Month time.Day time.Hour time.Minute time.Second].
  replace (if stored_year y <? 1 then stored_year y - 1 else stored_year y)
    with y; [reflexivity|].
  unfold stored_year. destruct (Z.ltb_spec y 0).
  - destruct (Z.ltb_spec (y + 1) 1); lia.
  - destruct (Z.ltb_spec y 1); lia.
Qed.

(** A month or day field and the precision agree when the field is [00]
    exactly below the precision's level. *)
Lemma field_at_precision (a b : ascii) (p level : Z) :
  all_digits (two a b) = true ->
  (p < level <-> two a b = "00") ->
  fmt.d0 false 2
    (if p <? level then 0 else one_if_zero (field_value (two a b)))
  = two a b.
Proof.
  intros Hd Hiff. destruct (Z.ltb_spec p level) as [Hlt|Hge].
  - apply Hiff in Hlt. rewrite Hlt. reflexivity.
  - assert (Hne : field_value (two a b) <> 0).
    { intros H0. apply (two_zero a b Hd) in H0. apply Hiff in H0. lia. }
    unfold one_if_zero.
    destruct (Z.eqb_spec (field_value (two a b)) 0); [contradiction|].
    now apply d0_two.
Qed.

(** Re-encoding a decoded text restores it when the text is written the
    way the encoder writes: a canonical year, and [00] for the month and
    the day exactly below their precision. *)
Lemma format_parse (t : string) (m : timeMatch) (y : Z) (p : TimePrecision) :
  timeRegex t = Some m -> ParseInt (m_year m) = Ok y -> y <> 0 ->
  canonical_year (m_year m) ->
  (p < Precision.Month <-> m_month m = "00") ->
  (p < Precision.Day <-> m_day m = "00") ->
  formatTime (stored_time y m) p = t.
Proof.
  intros Hre Hy Hnz Hcan Hmon Hday.
  destruct (timeRegex_inv t m Hre)
    as (sign & ds & m1 & m2 & d1 & d2 & h1 & h2 & n1 & n2 & s1 & s2
        & -> & -> & Hsign & Hds & Hlen & Hm & Hd & Hh & Hn & Hs).
  cbn [m_year m_month m_day m_hour m_minute m_second] in *.
  destruct (ParseInt_signed sign ds y Hsign Hds Hy) as [Hval _].
  rewrite formatTime_stored by exact Hnz.
  cbn [m_year m_month m_day m_hour m_minute m_second].
  rewrite (d0_year sign ds y) by assumption.
  rewrite !field_at_precision by assumption.
  rewrite !d0_two by assumption.
  reflexivity.
Qed.
End TimeFacts.

(** ** Data values *)

Section DataValueFacts.

Lemma CalendarModel_roundtrip (c : CalendarModel.t) :
  CalendarModel.UnmarshalJSON (CalendarModel.MarshalJSON c) = Ok c.
Proof. destruct c; reflexivity. Qed.

Lemma header_time_object (t : string) (p : TimePrecision)
    (c : CalendarModel.t) :
  DataValue.header (time_object t p c) = Ok ("time", "").
Proof. reflexivity. Qed.

Lemma payload_time_object (t : string) (p : TimePrecision)
    (c : CalendarModel.t) :
  Int.min_int <= p <= Int.max_int ->
  DataValue.payload DataValue.timewire TimeValue.wire_zero (time_object t p c)
  = Ok (TimeValue.mkWire t p c 0 0 0).
Proof.
  intros Hp. unfold DataValue.payload, time_object, DataValue.tagged.
  cbn. destruct (Z.leb_spec Int.min_int p); [|lia].
  destruct (Z.leb_spec p Int.max_int); [|lia].
  destruct c; reflexivity.
Qed.

(** The [time] case of [DataValue.UnmarshalJSON]. *)
Lemma UnmarshalJSON_time (b : json.value) (w : TimeValue.wire) :
  DataValue.header b = Ok ("time", "") ->
  DataValue.payload DataValue.timewire TimeValue.wire_zero b = Ok w ->
  DataValue.UnmarshalJSON b
  = match parseTime (TimeValue.w_Time w) with
    | Err err => Ok (DataValue.mk (Some (DataValue.ErrorValue (Error err))))
    | Ok parsedTime =>
        Ok (DataValue.mk
              (Some (DataValue.TimeValue
                       (TimeValue.mk parsedTime (TimeValue.w_Precision w)
                          (TimeValue.w_Calendar w)))))
    end.
Proof.
  intros Hh Hp. unfold DataValue.UnmarshalJSON. rewrite Hh.
  cbn [mbind result_bind]. cbn [String.eqb Ascii.eqb Bool.eqb negb].
  rewrite Hp. reflexivity.
Qed.

(** The error case of [DataValue.UnmarshalJSON]. *)
Lemma UnmarshalJSON_error (b : json.value) (type error : string) :
  DataValue.header b = Ok (type, error) -> error <> "" ->
  DataValue.UnmarshalJSON b
  = Ok (DataValue.mk (Some (DataValue.ErrorValue error))).
Proof.
  intros Hh Hne. unfold DataValue.UnmarshalJSON. rewrite Hh.
  cbn [mbind result_bind].
  destruct (String.eqb_spec error ""); [contradiction | reflexivity].
Qed.

Lemma foldM_app {A B : Type} (f : B -> A -> result B) (l1 l2 : list A)
    (b : B) :
  json.foldM f (l1 ++ l2) b = (b' ← json.foldM f l1 b; json.foldM f l2 b').
Proof.
  revert b. induction l1 as [|a l1 IH]; intros b; cbn; [reflexivity|].
  destruct (f b a) as [b'|e]; cbn; [apply IH | reflexivity].
Qed.

Lemma field_in (fields : list string) (key f : string) :
  json.field fields key = Some f -> In f fields.
Proof.
  unfold json.field. destruct (find (String.eqb key) fields) eqn:H1.
  - intros [= <-]. now apply find_some in H1.
  - intros H2. now apply find_some in H2.
Qed.

Lemma foldM_ext {A B : Type} (f g : B -> A -> result B) (l : list A)
    (b : B) :
  (forall b a, f b a = g b a) -> json.foldM f l b = json.foldM g l b.
Proof.
  intros Hfg. revert b. induction l as [|a l IH]; intros b; cbn;
    [reflexivity|].
  rewrite Hfg. destruct (g b a); cbn; [apply IH | reflexivity].
Qed.

Lemma header_fold (members : list (string * json.value)) :
  DataValue.header (json.Obj members) = json.foldM header_step members ("", "").
Proof.
  unfold DataValue.header, json.object.
  apply foldM_ext. intros s [k x]. reflexivity.
Qed.

(** Well-typed header members never fail, and only a member naming
    [error] changes the error field. *)
Lemma header_fold_ok (members : list (string * json.value))
    (s : string * string) :
  forallb header_member members = true ->
  exists s',
    json.foldM header_step members s = Ok s' /\
    (forallb (fun kv => negb (names_error kv)) members = true ->
     snd s' = snd s).
Proof.
  revert s. induction members as [|[k x] members IH]; intros s Hok.
  - exists s. split; reflexivity.
  - cbn in Hok. apply andb_prop in Hok as [Hkx Hok].
    cbn [json.foldM].
    assert (Hstep : exists s1,
              header_step s (k, x) = Ok s1 /\
              (names_error (k, x) = false -> snd s1 = snd s)).
    { unfold header_step, header_member, names_error in *.
      cbn [fst snd] in *.
      destruct (json.field ["type"; "error"] k) as [f|] eqn:Hf.
      - apply field_in in Hf as [<- | [<- | []]];
          destruct x; try discriminate Hkx; cbn;
          eexists; (split; [reflexivity|]); intros Hn;
          try reflexivity; discriminate Hn.
      - exists s. split; reflexivity. }
    destruct Hstep as (s1 & -> & Hs1). cbn [mbind result_bind].
    destruct (IH s1 Hok) as (s2 & H2 & H2').
    exists s2. split; [exact H2|]. intros Hn. cbn in Hn.
    apply andb_prop in Hn as [Hn1 Hn2].
    rewrite (H2' Hn2). apply Hs1. now apply negb_true_iff in Hn1.
Qed.

(** An object with a member [error] holding the string [e], followed by
    no other member naming [error], has [e] in its header. *)
Lemma header_error_member (pre post : list (string * json.value))
    (e : string) :
  forallb header_member (pre ++ post) = true ->
  forallb (fun kv => negb (names_error kv)) post = true ->
  exists type,
    DataValue.header (json.Obj (pre ++ ("error", json.Str e) :: post))
    = Ok (type, e).
Proof.
  intros Hok Hpost. rewrite forallb_app in Hok.
  apply andb_prop in Hok as [Hpre Hpost_ok].
  rewrite header_fold, foldM_app.
  destruct (header_fold_ok pre ("", "") Hpre) as ([ty1 e1] & -> & _).
  cbn [mbind result_bind json.foldM].
  change (header_step (ty1, e1) ("error", json.Str e)) with (Ok (ty1, e)).
  cbn [mbind result_bind].
  destruct (header_fold_ok post (ty1, e) Hpost_ok) as ([ty2 e2] & -> & He).
  exists ty2. cbn in He. now rewrite (He Hpost).
Qed.

Lemma Snak_decode_datavalue (b : json.value) (d : DataValue.t)
    (st : SnakType.t) (property : string) (dt : DataType.t) :
  DataValue.UnmarshalJSON b = Ok d ->
  Snak.decode (snak_object st property dt b) Snak.zero
  = Ok (Snak.mk "" st property dt (Some d)).
Proof.
  intros Hd. unfold Snak.decode, snak_object, json.object.
  assert (Hb : b <> json.Null) by (intros ->; discriminate Hd).
  destruct st, dt; cbn; destruct b; try contradiction; rewrite Hd;
    reflexivity.
Qed.
End DataValueFacts.

(** ** Amounts *)

Section AmountFacts.
Import strconv Amount.

(** [strip] divides out a power of [p] and leaves a number [p] does not
    divide. *)
Lemma strip_spec (fuel : nat) (p m c : Z) :
  2 <= p -> 0 < m < 2 ^ Z.of_nat fuel ->
  exists k m',
    strip fuel p m c = (m', c + k) /\ 0 <= k /\ m = p ^ k * m' /\
    0 < m' <= m /\ m' mod p <> 0.
Proof.
  intros Hp. revert m c. induction fuel as [|fuel IH]; intros m c Hm.
  - cbn in Hm. lia.
  - cbn [strip]. destruct (Z.eqb_spec (m mod p) 0) as [Hdiv|Hndiv].
    + rewrite Nat2Z.inj_succ, Z.pow_succ_r in Hm by lia.
      assert (Hmp : m = p * (m / p)).
      { pose proof (Z.div_mod m p ltac:(lia)). lia. }
      assert (Hq : 0 < m / p < 2 ^ Z.of_nat fuel) by nia.
      destruct (IH (m / p) (c + 1) Hq) as (k & m' & Hs & Hk & Hpow & Hm' & Hnd).
      exists (k + 1), m'. rewrite Hs.
      split; [f_equal; lia|]. split; [lia|]. split; [|split; [nia | exact Hnd]].
      rewrite Z.pow_add_r, Z.pow_1_r by lia.
      rewrite Hmp at 1. rewrite Hpow at 1. ring.
    + exists 0, m. replace (c + 0) with c by lia.
      split; [reflexivity|]. split; [lia|].
      split; [now rewrite Z.pow_0_r, Z.mul_1_l|]. split; [lia | exact Hndiv].
Qed.

Lemma coprime_2 (m : Z) : m mod 2 <> 0 -> Z.gcd m 2 = 1.
Proof.
  intros Hm. pose proof (Z.gcd_nonneg m 2) as Hg.
  pose proof (Z.gcd_divide_l m 2) as Hl.
  pose proof (Z.gcd_divide_r m 2) as Hr.
  assert (Hle : Z.gcd m 2 <= 2) by (apply Z.divide_pos_le; [lia | exact Hr]).
  assert (Hne : Z.gcd m 2 <> 0).
  { intros H0. rewrite H0 in Hr. destruct Hr as [x Hx]. lia. }
  destruct (Z.eq_dec (Z.gcd m 2) 2) as [H2|]; [|lia].
  rewrite H2 in Hl. apply Z.mod_divide in Hl; lia.
Qed.

Lemma coprime_5 (m : Z) : m mod 5 <> 0 -> Z.gcd m 5 = 1.
Proof.
  intros Hm. pose proof (Z.gcd_nonneg m 5) as Hg.
  pose proof (Z.gcd_divide_l m 5) as Hl.
  pose proof (Z.gcd_divide_r m 5) as Hr.
  assert (Hle : Z.gcd m 5 <= 5) by (apply Z.divide_pos_le; [lia | exact Hr]).
  assert (Hcases : Z.gcd m 5 = 0 \/ Z.gcd m 5 = 1 \/ Z.gcd m 5 = 2 \/
                   Z.gcd m 5 = 3 \/ Z.gcd m 5 = 4 \/ Z.gcd m 5 = 5) by lia.
  destruct Hcases as [H|[H|[H|[H|[H|H]]]]]; rewrite H in *;
    try exact eq_refl;
    try (destruct Hr as [x Hx]; lia).
  apply Z.mod_divide in Hl; lia.
Qed.

(** A divisor of a power of ten that neither 2 nor 5 divides is 1. *)
Lemma divides_pow10 (k : nat) (m : Z) :
  0 < m -> m mod 2 <> 0 -> m mod 5 <> 0 -> (m | 10 ^ Z.of_nat k) -> m = 1.
Proof.
  intros Hm H2 H5. induction k as [|k IH]; intros Hd.
  - cbn in Hd. apply Z.divide_1_r_nonneg in Hd; lia.
  - apply IH. rewrite Nat2Z.inj_succ, Z.pow_succ_r in Hd by lia.
    replace (10 * 10 ^ Z.of_nat k) with (2 * (5 * 10 ^ Z.of_nat k)) in Hd
      by ring.
    apply Z.gauss in Hd; [|now apply coprime_2].
    apply Z.gauss in Hd; [exact Hd | now apply coprime_5].
Qed.

Lemma den_pos (a : Qc) : 0 < den a.
Proof. unfold den. lia. Qed.

Lemma pow_ge_2 (b k : Z) : 2 <= b -> 1 <= k -> 2 <= b ^ k.
Proof.
  intros Hb Hk. replace k with (Z.succ (k - 1)) by lia.
  rewrite Z.pow_succ_r by lia.
  pose proof (Z.pow_pos_nonneg b (k - 1) ltac:(lia) ltac:(lia)). nia.
Qed.

(** For an amount with a finite expansion, [RatPrecision] returns the
    number [l] of its decimals and no repeating digits. *)
Lemma RatPrecision_terminating (a : Qc) :
  terminating a ->
  exists l,
    RatPrecision a = (l, 0) /\ 0 <= l /\ (den a | 10 ^ l) /\
    (den a = 1 -> l = 0) /\ (1 < den a -> 1 <= l).
Proof.
  intros [k Hk]. unfold RatPrecision.
  pose proof (den_pos a) as Hpos.
  set (fuel := S (Z.to_nat (Z.log2 (den a)))).
  assert (Hfuel : den a < 2 ^ Z.of_nat fuel).
  { unfold fuel. rewrite Nat2Z.inj_succ, Z2Nat.id by apply Z.log2_nonneg.
    apply Z.log2_spec. exact Hpos. }
  destruct (strip_spec fuel 2 (den a) 0 ltac:(lia) ltac:(lia))
    as (a2 & m1 & -> & Ha2 & Hden & Hm1 & Hodd).
  destruct (strip_spec fuel 5 m1 0 ltac:(lia) ltac:(lia))
    as (a5 & m2 & -> & Ha5 & Hm1eq & Hm2 & Hn5).
  assert (Hn2 : m2 mod 2 <> 0).
  { intros H0. apply Hodd. apply Z.mod_divide; [lia|].
    apply Z.mod_divide in H0; [|lia]. rewrite Hm1eq.
    now apply Z.divide_mul_r. }
  assert (Hone : m2 = 1).
  { apply (divides_pow10 k); try assumption; [lia|].
    apply Z.divide_trans with (den a); [|exact Hk].
    rewrite Hden, Hm1eq. exists (2 ^ a2 * 5 ^ a5). ring. }
  subst m2. rewrite Z.mul_1_r in Hm1eq. subst m1.
  cbn [Z.eqb Pos.eqb]. replace (0 + a2) with a2 by lia.
  replace (0 + a5) with a5 by lia.
  exists (Z.max a2 a5). split; [reflexivity|]. split; [lia|].
  pose proof (Z.pow_pos_nonneg 2 a2 ltac:(lia) Ha2) as H2pos.
  pose proof (Z.pow_pos_nonneg 5 a5 ltac:(lia) Ha5) as H5pos.
  split; [|split].
  - exists (2 ^ (Z.max a2 a5 - a2) * 5 ^ (Z.max a2 a5 - a5)).
    change 10 with (2 * 5). rewrite Z.pow_mul_l, Hden.
    replace (2 ^ Z.max a2 a5) with (2 ^ (Z.max a2 a5 - a2) * 2 ^ a2)
      by (rewrite <- Z.pow_add_r by lia; f_equal; lia).
    replace (5 ^ Z.max a2 a5) with (5 ^ (Z.max a2 a5 - a5) * 5 ^ a5)
      by (rewrite <- Z.pow_add_r by lia; f_equal; lia).
    ring.
  - intros H1. rewrite Hden in H1.
    destruct (Z.eq_dec a2 0) as [->|]; destruct (Z.eq_dec a5 0) as [->|];
      try reflexivity.
    + pose proof (pow_ge_2 5 a5 ltac:(lia) ltac:(lia)). cbn in H1. lia.
    + pose proof (pow_ge_2 2 a2 ltac:(lia) ltac:(lia)). nia.
    + pose proof (pow_ge_2 2 a2 ltac:(lia) ltac:(lia)). nia.
  - intros H1. rewrite Hden in H1.
    destruct (Z.eq_dec a2 0) as [->|]; destruct (Z.eq_dec a5 0) as [->|];
      lia.
Qed.

Lemma zeros_digits (n : nat) : all_digits (fmt.zeros n) = true.
Proof. induction n as [|n IH]; cbn; [reflexivity | exact IH]. Qed.

Lemma zeros_length (n : nat) : String.length (fmt.zeros n) = n.
Proof. induction n as [|n IH]; cbn; [reflexivity | now rewrite IH]. Qed.

Lemma zeros_value (n : nat) (s : string) (acc : Z) :
  digits_value acc (fmt.zeros n +:+ s)
  = digits_value (acc * 10 ^ Z.of_nat n) s.
Proof.
  revert acc. induction n as [|n IH]; intros acc.
  - cbn. f_equal. lia.
  - cbn [fmt.zeros String.append digits_value]. rewrite IH.
    f_equal. rewrite Nat2Z.inj_succ, Z.pow_succ_r by lia.
    change (digit_val "0") with 0. ring.
Qed.

(** A number below [10^k] has at most [k] digits. *)
Lemma utoa_length (n : Z) (k : nat) :
  0 <= n < 10 ^ Z.of_nat k -> (1 <= k)%nat ->
  (String.length (utoa n) <= k)%nat.
Proof.
  intros [Hn Hlt]. revert k Hlt. pattern n.
  apply utoa_ind; [| |exact Hn]; clear n Hn.
  - intros n Hs k _ Hk. rewrite utoa_lt10 by lia. cbn. lia.
  - intros n Hb IH k Hlt Hk.
    destruct k as [|k]; [lia|].
    rewrite Nat2Z.inj_succ, Z.pow_succ_r in Hlt by lia.
    assert (Hk' : (1 <= k)%nat).
    { destruct k; [cbn in Hlt; lia | lia]. }
    rewrite utoa_ge10, str_length_app by lia. cbn [String.length].
    specialize (IH k ltac:(apply Z.div_lt_upper_bound; lia) Hk'). lia.
Qed.

Lemma span_digits_stop (ds rest : string) :
  all_digits ds = true ->
  match rest with
  | EmptyString => True
  | String c _ => is_digit c = false
  end ->
  span_digits (ds +:+ rest) = (ds, rest).
Proof.
  intros Hds Hrest. induction ds as [|c ds IH].
  - cbn. destruct rest as [|c r]; [reflexivity|].
    cbn. now rewrite Hrest.
  - cbn in Hds. apply andb_prop in Hds as [Hc Hds].
    cbn. rewrite Hc, (IH Hds). reflexivity.
Qed.

Lemma Q2Qc_canon (a : Qc) (q : Q) : (q == this a)%Q -> Q2Qc q = a.
Proof.
  intros H. apply Qc_is_canon. cbn. now rewrite Qred_correct.
Qed.

(** [SetString] on a sign, digits, a point and digits. *)
Lemma SetString_decimal (neg : bool) (ip fp : string) :
  all_digits ip = true -> ip <> "" -> all_digits fp = true ->
  SetString (String (if neg then "-" else "+")%char (ip +:+ "." +:+ fp))
  = Some (Q2Qc
            (Qmake (if neg then - digits_value 0 (ip +:+ fp)
                    else digits_value 0 (ip +:+ fp))
               (Z.to_pos (10 ^ Z.of_nat (String.length fp))))).
Proof.
  intros Hip Hne Hfp. unfold SetString.
  assert (Hsign :
    (if Ascii.eqb (if neg then "-" else "+")%char "+"
     then (false, ip +:+ "." +:+ fp)
     else if Ascii.eqb (if neg then "-" else "+")%char "-"
          then (true, ip +:+ "." +:+ fp)
          else (false, String (if neg then "-" else "+")%char
                         (ip +:+ "." +:+ fp)))
    = (neg, ip +:+ "." +:+ fp)) by (destruct neg; reflexivity).
  rewrite Hsign.
  rewrite (span_digits_stop ip ("." +:+ fp) Hip) by reflexivity.
  cbn [String.append]. cbn [Ascii.eqb Bool.eqb andb]. rewrite Hfp.
  destruct ip as [|c ip]; [congruence|]. reflexivity.
Qed.

(** [SetString] on a sign and digits. *)
Lemma SetString_integer (neg : bool) (ip : string) :
  all_digits ip = true -> ip <> "" ->
  SetString (String (if neg then "-" else "+")%char ip)
  = Some (Q2Qc (Qmake (if neg then - digits_value 0 ip
                       else digits_value 0 ip) 1)).
Proof.
  intros Hip Hne. unfold SetString.
  assert (Hsign :
    (if Ascii.eqb (if neg then "-" else "+")%char "+" then (false, ip)
     else if Ascii.eqb (if neg then "-" else "+")%char "-" then (true, ip)
          else (false, String (if neg then "-" else "+")%char ip))
    = (neg, ip)) by (destruct neg; reflexivity).
  rewrite Hsign.
  pose proof (span_digits_stop ip "" Hip I) as Hspan.
  rewrite str_app_nil_r in Hspan. rewrite Hspan.
  destruct ip as [|c ip]; [congruence|]. reflexivity.
Qed.

Lemma amount_integer (a : Qc) :
  den a = 1 -> UnmarshalJSON (MarshalJSON a) = Ok a.
Proof.
  intros Hden.
  assert (Ha : forall z, z = num a -> Q2Qc (Qmake z 1) = a).
  { intros z ->. apply Q2Qc_canon. unfold Qeq. cbn [Qnum Qden].
    unfold num, den in *. rewrite Hden.
    reflexivity. }
  unfold MarshalJSON, String_.
  assert (Hprec : RatPrecision a = (0, 0)).
  { unfold RatPrecision. rewrite Hden. reflexivity. }
  rewrite Hprec. unfold FloatString. rewrite Hden. cbn [Z.eqb Pos.eqb Z.add Z.ltb Z.compare].
  rewrite str_app_nil_r. unfold UnmarshalJSON, Sign, Itoa.
  cbn [json.string_ mbind result_bind].
  destruct (Z.ltb_spec (num a) 0) as [Hneg|Hpos].
  - replace (0 <=? Z.sgn (num a)) with false
      by (symmetry; apply Z.leb_gt; rewrite Z.sgn_neg; lia).
    cbn [String.append].
    pose proof (SetString_integer true (utoa (- num a))
                  (all_digits_utoa (- num a) ltac:(lia))) as Hset.
    cbv beta iota in Hset. rewrite Hset.
    + rewrite digits_value_utoa by lia. rewrite Ha by lia. reflexivity.
    + pose proof (utoa_nonempty (- num a) ltac:(lia)).
      destruct (utoa (- num a)); [cbn in *; lia | discriminate].
  - replace (0 <=? Z.sgn (num a)) with true
      by (symmetry; apply Z.leb_le; apply Z.sgn_nonneg; lia).
    cbn [String.append].
    pose proof (SetString_integer false (utoa (num a))
                  (all_digits_utoa (num a) ltac:(lia))) as Hset.
    cbv beta iota in Hset. rewrite Hset.
    + rewrite digits_value_utoa by lia. rewrite Ha by lia. reflexivity.
    + pose proof (utoa_nonempty (num a) ltac:(lia)).
      destruct (utoa (num a)); [cbn in *; lia | discriminate].
Qed.

Lemma amount_fraction (a : Qc) (l : Z) :
  den a <> 1 -> RatPrecision a = (l, 0) -> 1 <= l -> (den a | 10 ^ l) ->
  UnmarshalJSON (MarshalJSON a) = Ok a.
Proof.
  intros Hden Hprec Hl [c Hc].
  pose proof (den_pos a) as Hdpos.
  set (n := Z.abs (num a)). set (d := den a) in *.
  set (q := n / d). set (r := n mod d).
  assert (Hn : n = d * q + r) by (apply Z.div_mod; lia).
  assert (Hr : 0 <= r < d) by (apply Z.mod_pos_bound; lia).
  assert (Hq : 0 <= q) by (apply Z.div_pos; unfold n; lia).
  assert (Hp : 0 < 10 ^ l) by (apply Z.pow_pos_nonneg; lia).
  assert (Hexact : r * 10 ^ l = d * (r * c)) by (rewrite Hc; ring).
  assert (Hr2 : (r * 10 ^ l) mod d = 0).
  { rewrite Hexact, Z.mul_comm. apply Z.mod_mul. lia. }
  assert (Hr' : r * 10 ^ l / d = r * c).
  { rewrite Hexact, Z.mul_comm. apply Z.div_mul. lia. }
  assert (Hrc : 0 <= r * c < 10 ^ l) by nia.
  pose proof (utoa_length (r * c) (Z.to_nat l)
                ltac:(rewrite Z2Nat.id by lia; exact Hrc) ltac:(lia)) as Hlen.
  set (fp := fmt.zeros (Z.to_nat l - String.length (utoa (r * c)))
               +:+ utoa (r * c)).
  assert (Hfp : all_digits fp = true).
  { unfold fp. rewrite all_digits_app, zeros_digits, all_digits_utoa by lia.
    reflexivity. }
  assert (Hfplen : String.length fp = Z.to_nat l).
  { unfold fp. rewrite str_length_app, zeros_length. lia. }
  assert (Hval : digits_value 0 (utoa q +:+ fp) = q * 10 ^ l + r * c).
  { rewrite digits_value_app, digits_value_utoa by lia.
    rewrite digits_value_acc, Hfplen, Z2Nat.id by lia. f_equal.
    unfold fp. rewrite zeros_value. cbn [Z.mul]. apply digits_value_utoa. lia. }
  assert (Hfloat :
    FloatString a l
    = (if num a <? 0 then "-" else "") +:+ utoa q +:+ "." +:+ fp).
  { unfold FloatString. fold d. destruct (Z.eqb_spec d 1); [contradiction|].
    destruct (Z.ltb_spec 0 l); [|lia]. fold n. fold q. fold r.
    rewrite Hr2, Hr'. cbn [Z.add].
    destruct (Z.leb_spec d 0); [lia|]. reflexivity. }
  unfold MarshalJSON, String_. rewrite Hprec, Z.add_0_r, Hfloat.
  unfold UnmarshalJSON, Sign. cbn [json.string_ mbind result_bind].
  assert (Hq_ne : utoa q <> "").
  { pose proof (utoa_nonempty q Hq). destruct (utoa q);
      [cbn in *; lia | discriminate]. }
  assert (Hcanon : forall z, z = (if num a <? 0 then - (q * 10 ^ l + r * c)
                                  else q * 10 ^ l + r * c) ->
                   Q2Qc (Qmake z (Z.to_pos (10 ^ l))) = a).
  { intros z ->. apply Q2Qc_canon. unfold Qeq. cbn [Qnum Qden].
    rewrite Z2Pos.id by exact Hp.
    change (Z.pos (Qden a)) with d. change (Qnum a) with (num a).
    destruct (Z.ltb_spec (num a) 0).
    - assert (num a = - n) by (unfold n; lia). nia.
    - assert (num a = n) by (unfold n; lia). nia. }
  destruct (Z.ltb_spec (num a) 0) as [Hneg|Hpos].
  - replace (0 <=? Z.sgn (num a)) with false
      by (symmetry; apply Z.leb_gt; rewrite Z.sgn_neg; lia).
    pose proof (SetString_decimal true (utoa q) fp
                  (all_digits_utoa q Hq) Hq_ne Hfp) as Hset.
    change ("" +:+ "-" +:+ utoa q +:+ "." +:+ fp)
      with (String "-" (utoa q +:+ "." +:+ fp)).
    cbv beta iota in Hset. rewrite Hset, Hval, Hfplen, Z2Nat.id by lia.
    rewrite Hcanon; [reflexivity|].
    destruct (Z.ltb_spec (num a) 0); [reflexivity | lia].
  - replace (0 <=? Z.sgn (num a)) with true
      by (symmetry; apply Z.leb_le; apply Z.sgn_nonneg; lia).
    pose proof (SetString_decimal false (utoa q) fp
                  (all_digits_utoa q Hq) Hq_ne Hfp) as Hset.
    change ("+" +:+ "" +:+ utoa q +:+ "." +:+ fp)
      with (String "+" (utoa q +:+ "." +:+ fp)).
    cbv beta iota in Hset. rewrite Hset, Hval, Hfplen, Z2Nat.id by lia.
    rewrite Hcanon; [reflexivity|].
    destruct (Z.ltb_spec (num a) 0); [lia | reflexivity].
Qed.

(** Decoding the encoding of an amount with a finite expansion. *)
Lemma amount_roundtrip (a : Qc) :
  terminating a -> UnmarshalJSON (MarshalJSON a) = Ok a.
Proof.
  intros Ht.
  destruct (RatPrecision_terminating a Ht) as (l & Hprec & Hl & Hdiv & _ & H1).
  destruct (Z.eq_dec (den a) 1) as [Hone|Hne].
  - now apply amount_integer.
  - pose proof (den_pos a). apply (amount_fraction a l); try assumption.
    apply H1. lia.
Qed.

(** The first character of an encoded amount is its sign. *)
Lemma amount_sign (a : Qc) :
  exists rest,
    MarshalJSON a
    = json.Str (String (if 0 <=? Sign a then "+"%char else "-"%char) rest).
Proof.
  unfold MarshalJSON, Sign. destruct (Z.leb_spec 0 (Z.sgn (num a))) as [Hs|Hs].
  - eexists. reflexivity.
  - assert (Hneg : num a < 0).
    { destruct (Z.lt_trichotomy (num a) 0) as [H|[H|H]]; [exact H| |].
      - rewrite H in Hs. cbn in Hs. lia.
      - rewrite Z.sgn_pos in Hs; lia. }
    unfold String_. destruct (RatPrecision a) as [l q].
    unfold FloatString, Itoa.
    destruct (Z.ltb_spec (num a) 0); [|lia].
    destruct (den a =? 1).
    + eexists. reflexivity.
    + match goal with
      | |- context [let '(_, _) := ?x in _] => destruct x
      end. eexists. reflexivity.
Qed.
End AmountFacts.

(** ** Decoding what [formatTime] writes *)

Section TimeEncodeFacts.
Import strconv.

(** [%02d] of a number below 100 is two digits denoting it. *)
Lemma d0_two_shape (v : Z) :
  0 <= v <= 99 ->
  exists a b,
    fmt.d0 false 2 v = two a b /\ all_digits (two a b) = true /\
    field_value (two a b) = v.
Proof.
  intros Hv. unfold fmt.d0. destruct (Z.ltb_spec v 0); [lia|].
  rewrite Z.abs_eq by lia.
  destruct (Z.lt_ge_cases v 10) as [Hlt|Hge].
  - rewrite utoa_lt10 by lia. exists "0"%char, (digit_char v).
    split; [reflexivity|]. split.
    + cbn. rewrite is_digit_char by lia. reflexivity.
    + unfold field_value. cbn. rewrite digit_val_char by lia. reflexivity.
  - assert (Hq : 1 <= v / 10 <= 9).
    { split; [apply Z.div_le_lower_bound; lia|].
      apply Z.lt_succ_r. apply Z.div_lt_upper_bound; lia. }
    pose proof (Z.mod_pos_bound v 10 ltac:(lia)) as Hr.
    rewrite utoa_ge10, (utoa_lt10 (v / 10)) by lia.
    exists (digit_char (v / 10)), (digit_char (v mod 10)).
    split; [reflexivity|]. split.
    + cbn. rewrite !is_digit_char by lia. reflexivity.
    + unfold field_value. cbn. rewrite !digit_val_char by lia.
      pose proof (Z.div_mod v 10 ltac:(lia)). lia.
Qed.

(** [%+05d] of a year is a sign and at least four digits denoting it. *)
Lemma d0_year_shape (y : Z) :
  exists ds,
    fmt.d0 true 5 y = String (if y <? 0 then "-"%char else "+"%char) ds /\
    all_digits ds = true /\ (4 <= String.length ds)%nat /\
    field_value ds = Z.abs y.
Proof.
  exists (fmt.zeros (4 - String.length (utoa (Z.abs y))) +:+ utoa (Z.abs y)).
  pose proof (Z.abs_nonneg y) as Habs.
  split; [|split; [|split]].
  - unfold fmt.d0. destruct (y <? 0); reflexivity.
  - rewrite all_digits_app, zeros_digits, all_digits_utoa by lia.
    reflexivity.
  - rewrite str_length_app, zeros_length. lia.
  - unfold field_value. rewrite zeros_value. cbn [Z.mul].
    apply digits_value_utoa. lia.
Qed.

Lemma ParseInt_signed_ok (neg : bool) (ds : string) :
  all_digits ds = true -> ds <> "" ->
  Int.min_int <= (if neg then - field_value ds else field_value ds)
  <= Int.max_int ->
  ParseInt (String (if neg then "-" else "+")%char ds)
  = Ok (if neg then - field_value ds else field_value ds).
Proof.
  intros Hds Hne Hr. unfold ParseInt.
  assert (Hsign :
    (if Ascii.eqb (if neg then "-" else "+")%char "+" then (false, ds)
     else if Ascii.eqb (if neg then "-" else "+")%char "-" then (true, ds)
          else (false, String (if neg then "-" else "+")%char ds))
    = (neg, ds)) by (destruct neg; reflexivity).
  rewrite Hsign. destruct ds as [|c ds]; [congruence|].
  rewrite Hds. fold (field_value (String c ds)).
  destruct (Z.leb_spec Int.min_int
              (if neg then - field_value (String c ds)
               else field_value (String c ds))); [|lia].
  destruct (Z.leb_spec (if neg then - field_value (String c ds)
                        else field_value (String c ds)) Int.max_int); [|lia].
  reflexivity.
Qed.

(** The regular expression matches a text of the six fields. *)
Lemma timeRegex_build (neg : bool) (ds : string)
    (m1 m2 d1 d2 h1 h2 n1 n2 s1 s2 : ascii) :
  all_digits ds = true -> (4 <= String.length ds)%nat ->
  all_digits (two m1 m2) = true -> all_digits (two d1 d2) = true ->
  all_digits (two h1 h2) = true -> all_digits (two n1 n2) = true ->
  all_digits (two s1 s2) = true ->
  timeRegex
    (String (if neg then "-" else "+")%char ds +:+ "-" +:+ two m1 m2 +:+ "-"
       +:+ two d1 d2 +:+ "T" +:+ two h1 h2 +:+ ":" +:+ two n1 n2 +:+ ":"
       +:+ two s1 s2 +:+ "Z")
  = Some (mkMatch (String (if neg then "-" else "+")%char ds) (two m1 m2)
            (two d1 d2) (two h1 h2) (two n1 n2) (two s1 s2)).
Proof.
  intros Hds Hlen Hm Hd Hh Hn Hs. unfold timeRegex.
  cbn [String.append two].
  rewrite (span_digits_stop ds _ Hds) by reflexivity.
  apply Nat.leb_le in Hlen. rewrite Hlen.
  change (String m1 (String m2 "")) with (two m1 m2).
  change (String d1 (String d2 "")) with (two d1 d2).
  change (String h1 (String h2 "")) with (two h1 h2).
  change (String n1 (String n2 "")) with (two n1 n2).
  change (String s1 (String s2 "")) with (two s1 s2).
  rewrite Hm, Hd, Hh, Hn, Hs. destruct neg; reflexivity.
Qed.

(** A time value in decoded form is read back from what is written. *)
Lemma parse_format (v : TimeValue.t) :
  decoded_time v ->
  parseTime (formatTime (TimeValue.Time v) (TimeValue.Precision v))
  = Ok (TimeValue.Time v).
Proof.
  destruct v as [[Y M D h mi sc ns] p c]. unfold decoded_time.
  cbn [TimeValue.Time TimeValue.Precision time.Year time.Month time.Day
       time.Hour time.Minute time.Second time.Nanosecond].
  intros (HY & HM & HD & Hh & Hmi & Hs & -> & HpM & HpD & Hp).
  unfold time.representable in HY.
  assert (Hdays : time.daysIn Y M <= 31).
  { unfold time.daysIn. destruct (M =? 2); [destruct (time.isLeap Y); lia|].
    destruct ((M =? 4) || (M =? 6) || (M =? 9) || (M =? 11)); lia. }
  set (y := if Y <? 1 then Y - 1 else Y).
  set (mo := if p <? Precision.Month then 0 else M).
  set (dy := if p <? Precision.Day then 0 else D).
  assert (Hmo12 : 0 <= mo <= 12) by (unfold mo; destruct (p <? _); lia).
  assert (Hmo : 0 <= mo <= 99) by lia.
  assert (Hdy : 0 <= dy <= 99).
  { unfold dy. destruct (p <? Precision.Day); [lia|].
    destruct HD as [HD1 HD2]. split; [lia|].
    apply Z.le_trans with (time.daysIn Y M); [exact HD2 | lia]. }
  destruct (d0_year_shape y) as (ds & HYs & Hds & Hlen & Hval).
  destruct (d0_two_shape mo Hmo) as (m1 & m2 & HMs & HMd & HMv).
  destruct (d0_two_shape dy Hdy) as (d1 & d2 & HDs & HDd & HDv).
  destruct (d0_two_shape h ltac:(lia)) as (h1 & h2 & Hhs & Hhd & Hhv).
  destruct (d0_two_shape mi ltac:(lia)) as (n1 & n2 & Hns & Hnd & Hnv).
  destruct (d0_two_shape sc ltac:(lia)) as (s1 & s2 & Hss & Hsd & Hsv).
  assert (Hy0 : y <> 0) by (unfold y; destruct (Z.ltb_spec Y 1); lia).
  assert (Hfmt :
    formatTime (time.mkTime Y M D h mi sc 0) p
    = String (if y <? 0 then "-"%char else "+"%char) ds +:+ "-" +:+ two m1 m2
        +:+ "-" +:+ two d1 d2 +:+ "T" +:+ two h1 h2 +:+ ":" +:+ two n1 n2
        +:+ ":" +:+ two s1 s2 +:+ "Z").
  { unfold formatTime.
    cbn [time.Year time.Month time.Day time.Hour time.Minute time.Second].
    fold y. fold mo. fold dy.
    rewrite HYs, HMs, HDs, Hhs, Hns, Hss. reflexivity. }
  rewrite Hfmt.
  set (m := mkMatch (String (if y <? 0 then "-"%char else "+"%char) ds)
              (two m1 m2) (two d1 d2) (two h1 h2) (two n1 n2) (two s1 s2)).
  assert (Hre : timeRegex
                  (String (if y <? 0 then "-"%char else "+"%char) ds +:+ "-"
                     +:+ two m1 m2 +:+ "-" +:+ two d1 d2 +:+ "T"
                     +:+ two h1 h2 +:+ ":" +:+ two n1 n2 +:+ ":"
                     +:+ two s1 s2 +:+ "Z") = Some m)
    by (apply timeRegex_build; assumption).
  assert (Hyear : ParseInt (m_year m) = Ok y).
  { unfold m. cbn [m_year].
    assert (Hne : ds <> "") by (destruct ds; [cbn in Hlen; lia | discriminate]).
    assert (Hsigned : (if y <? 0 then - field_value ds else field_value ds) = y).
    { rewrite Hval. destruct (Z.ltb_spec y 0); lia. }
    rewrite (ParseInt_signed_ok (y <? 0) ds Hds Hne); rewrite Hsigned;
      [reflexivity|].
    unfold y, Int.min_int, Int.max_int. destruct (Z.ltb_spec Y 1); lia. }
  assert (Hstored : stored_year y = Y).
  { unfold stored_year, y.
    destruct (Z.ltb_spec Y 1);
      [destruct (Z.ltb_spec (Y - 1) 0) | destruct (Z.ltb_spec Y 0)]; lia. }
  assert (HoM : one_if_zero mo = M).
  { unfold one_if_zero, mo. destruct (Z.ltb_spec p Precision.Month).
    - cbn. symmetry. now apply HpM.
    - destruct (Z.eqb_spec M 0); [lia | reflexivity]. }
  assert (HoD : one_if_zero dy = D).
  { unfold one_if_zero, dy. destruct (Z.ltb_spec p Precision.Day).
    - cbn. symmetry. now apply HpD.
    - destruct (Z.eqb_spec D 0); [lia | reflexivity]. }
  rewrite (parseTime_civil _ m y Hre Hyear Hy0).
  - unfold stored_time, m. cbn [m_month m_day m_hour m_minute m_second].
    rewrite Hstored, HMv, HDv, Hhv, Hnv, Hsv, HoM, HoD. reflexivity.
  - unfold civil, m. cbn [m_month m_day m_hour m_minute m_second].
    rewrite Hstored, HMv, HDv, Hhv, Hnv, Hsv, HoM, HoD. lia.
Qed.
End TimeEncodeFacts.

(** ** Encoding and decoding of slices, maps and structs *)

Section CodecFacts.
Import strconv.

(** ASCII text is valid UTF-8. *)
Lemma coerce_ascii (s : string) : ascii_only s = true -> utf8.coerce s = s.
Proof.
  induction s as [|c s IH]; [reflexivity|]. cbn [ascii_only utf8.coerce].
  intros H. apply andb_prop in H as [Hc Hs]. rewrite Hc.
  now rewrite IH.
Qed.

Lemma ascii_only_app (a b : string) :
  ascii_only (a +:+ b) = (ascii_only a && ascii_only b)%bool.
Proof.
  induction a as [|x a IH]; cbn; [reflexivity|].
  rewrite IH. now rewrite andb_assoc.
Qed.

Lemma digits_ascii (s : string) : all_digits s = true -> ascii_only s = true.
Proof.
  induction s as [|c s IH]; [reflexivity|]. cbn [all_digits ascii_only].
  intros H. apply andb_prop in H as [Hc Hs]. rewrite (IH Hs), andb_true_r.
  unfold is_digit in Hc. apply andb_prop in Hc as [_ Hhi].
  apply N.leb_le in Hhi. apply N.ltb_lt. lia.
Qed.

Lemma d0_ascii (plus : bool) (width : nat) (z : Z) :
  ascii_only (fmt.d0 plus width z) = true.
Proof.
  unfold fmt.d0. rewrite !ascii_only_app.
  rewrite (digits_ascii _ (zeros_digits _)).
  rewrite (digits_ascii _ (all_digits_utoa _ (Z.abs_nonneg z))).
  destruct (z <? 0); [reflexivity|]. destruct plus; reflexivity.
Qed.

(** The text of a time is ASCII: it is written as it is. *)
Lemma formatTime_ascii (t : time.Time) (p : TimePrecision) :
  json.of_string (formatTime t p) = json.Str (formatTime t p).
Proof.
  unfold json.of_string. f_equal. apply coerce_ascii.
  unfold formatTime. rewrite !ascii_only_app, !d0_ascii. reflexivity.
Qed.

Lemma of_string_valid (s : string) :
  utf8.ValidString s -> json.of_string s = json.Str s.
Proof. unfold utf8.ValidString, json.of_string. now intros ->. Qed.

Lemma of_strings_valid (l : list string) :
  Forall utf8.ValidString l -> json.of_string <$> l = json.Str <$> l.
Proof.
  induction 1 as [|s l Hs _ IH]; [reflexivity|]. cbn.
  now rewrite (of_string_valid s Hs), IH.
Qed.

Lemma mapM_roundtrip {T : Type} (enc : T -> result json.value)
    (dec : json.value -> result T) (l : list T) :
  Forall (roundtrips enc dec) l ->
  exists vs, json.mapM enc l = Ok vs /\ json.mapM dec vs = Ok l.
Proof.
  induction 1 as [|x l (y & Hy & Hx) _ (vs & Hvs & Hl)].
  - exists []. split; reflexivity.
  - exists (y :: vs). cbn. rewrite Hy, Hx. cbn. rewrite Hvs, Hl.
    split; reflexivity.
Qed.

Lemma slice_roundtrip {T : Type} (goType : string)
    (enc : T -> result json.value) (dec : json.value -> result T)
    (l : list T) :
  Forall (roundtrips enc dec) l ->
  roundtrips (json.of_slice enc) (json.slice goType dec) l.
Proof.
  intros H. destruct (mapM_roundtrip enc dec l H) as (vs & Hvs & Hl).
  exists (json.Arr vs). unfold json.of_slice. rewrite Hvs. cbn.
  split; [reflexivity | exact Hl].
Qed.

(** Storing the members of a list with distinct keys, one after the
    other, builds the map of the list. *)
Lemma fold_insert {T : Type} (l : list (string * T)) (acc : gmap string T) :
  NoDup l.*1 ->
  forall key,
    fold_left (fun m kx => <[kx.1 := kx.2]> m) l acc !! key
    = match list_to_map (M := gmap string T) l !! key with
      | Some x => Some x
      | None => acc !! key
      end.
Proof.
  revert acc. induction l as [|[k x] l IH]; intros acc Hnd key.
  - cbn. now rewrite lookup_empty.
  - cbn [fold_left fmap list_fmap fst snd] in *.
    apply NoDup_cons in Hnd as [Hk Hnd].
    rewrite IH by exact Hnd. cbn [list_to_map foldr].
    destruct (decide (k = key)) as [->|Hne].
    + rewrite lookup_insert_eq.
      rewrite (not_elem_of_list_to_map_1 l key Hk).
      now rewrite lookup_insert_eq.
    + rewrite !(lookup_insert_ne _ k key) by exact Hne. reflexivity.
Qed.

Lemma sorted_map {T : Type} (m : gmap string T) :
  list_to_map (M := gmap string T) (json.sorted (map_to_list m)) = m.
Proof.
  rewrite <- (list_to_map_to_list m) at 2.
  apply list_to_map_proper.
  - unfold json.sorted. rewrite merge_sort_Permutation.
    apply NoDup_fst_map_to_list.
  - unfold json.sorted. apply merge_sort_Permutation.
Qed.

Lemma sorted_NoDup {T : Type} (m : gmap string T) :
  NoDup (json.sorted (map_to_list m)).*1.
Proof.
  unfold json.sorted. rewrite merge_sort_Permutation.
  apply NoDup_fst_map_to_list.
Qed.

(** Decoding the members an encoder wrote for a list of entries stores
    exactly these entries. *)
Lemma members_roundtrip {T : Type} (enc : T -> result json.value)
    (dec : json.value -> result T) (l : list (string * T))
    (acc : gmap string T) :
  Forall (fun kx => utf8.ValidString kx.1 /\ roundtrips enc dec kx.2) l ->
  exists ms,
    json.mapM (fun '(k, x) => v ← enc x; Ok (utf8.coerce k, v)) l = Ok ms /\
    json.foldM (fun m '(key, x) => e ← dec x; Ok (<[key := e]> m)) ms acc
    = Ok (fold_left (fun m kx => <[kx.1 := kx.2]> m) l acc).
Proof.
  intros H. revert acc.
  induction H as [|[k x] l (Hk & y & Hy & Hx) _ IH]; intros acc.
  - exists []. split; reflexivity.
  - cbn [fst snd] in *. destruct (IH (<[k := x]> acc)) as (ms & Hms & Hfold).
    exists ((k, y) :: ms). cbn. rewrite Hy. cbn. rewrite Hms. cbn.
    rewrite Hk, Hx. cbn. split; [reflexivity | exact Hfold].
Qed.

Lemma map_roundtrip {T : Type} (goType : string)
    (enc : T -> result json.value) (dec : json.value -> result T)
    (m : gmap string T) :
  map_Forall (fun k x => utf8.ValidString k /\ roundtrips enc dec x) m ->
  roundtrips (json.of_map enc) (fun v => json.map_ goType dec v ∅) m.
Proof.
  intros H.
  assert (Hl : Forall (fun kx => utf8.ValidString kx.1
                                 /\ roundtrips enc dec kx.2)
                 (json.sorted (map_to_list m))).
  { apply Forall_forall. intros [k x] Hin. cbn.
    apply (H k). apply elem_of_map_to_list.
    unfold json.sorted in Hin. now rewrite merge_sort_Permutation in Hin. }
  destruct (members_roundtrip enc dec _ ∅ Hl) as (ms & Hms & Hfold).
  exists (json.Obj ms). unfold json.of_map. rewrite Hms. cbn.
  split; [reflexivity|]. rewrite Hfold. f_equal.
  apply map_eq. intros key.
  rewrite fold_insert by apply sorted_NoDup.
  rewrite sorted_map, lookup_empty. now destruct (m !! key).
Qed.
End CodecFacts.

(** ** Data values are decoded back *)

Section DataValueCodec.

Lemma header_tagged (type : string) (v : json.value) :
  DataValue.header (DataValue.tagged type v) = Ok (type, "").
Proof. reflexivity. Qed.

Lemma payload_tagged {X : Type} (inner : json.value -> X -> result X)
    (zero x : X) (type : string) (v : json.value) :
  inner v zero = Ok x ->
  DataValue.payload inner zero (DataValue.tagged type v) = Ok x.
Proof.
  intros H. unfold DataValue.payload, DataValue.tagged, json.object.
  cbn. rewrite H. reflexivity.
Qed.

Lemma pointer_roundtrip (a : Qc) :
  terminating a ->
  QuantityValue.pointer (Amount.MarshalJSON a) = Ok (Some a).
Proof.
  intros Ha. pose proof (amount_roundtrip a Ha) as Hr.
  unfold QuantityValue.pointer.
  destruct (Amount.MarshalJSON a) eqn:E; try discriminate E.
  rewrite Hr. reflexivity.
Qed.

Lemma QuantityValue_roundtrip (q : QuantityValue.t) :
  valid_value (DataValue.QuantityValue q) ->
  QuantityValue.decode true (QuantityValue.MarshalJSON q) QuantityValue.zero
  = Ok q.
Proof.
  destruct q as [a ub lb u]. cbn [valid_value QuantityValue.Amount_
    QuantityValue.UpperBound QuantityValue.LowerBound QuantityValue.Unit].
  intros (Ha & Hub & Hlb & Hu).
  pose proof (amount_roundtrip a Ha) as Hra.
  unfold QuantityValue.decode, QuantityValue.MarshalJSON, json.members,
    json.object.
  cbn [QuantityValue.Unit]. rewrite (of_string_valid u Hu).
  destruct ub as [ub|], lb as [lb|]; cbn [terminating_opt] in *;
    cbn -[Amount.MarshalJSON Amount.UnmarshalJSON QuantityValue.pointer];
    rewrite Hra;
    cbn -[Amount.MarshalJSON Amount.UnmarshalJSON QuantityValue.pointer];
    rewrite ?pointer_roundtrip by assumption;
    cbn -[Amount.MarshalJSON Amount.UnmarshalJSON QuantityValue.pointer];
    rewrite ?pointer_roundtrip by assumption;
    reflexivity.
Qed.

Lemma timewire_roundtrip (v : TimeValue.t) :
  Int.min_int <= TimeValue.Precision v <= Int.max_int ->
  declared (TimeValue.Calendar v) ->
  DataValue.timewire (TimeValue.MarshalJSON v) TimeValue.wire_zero
  = Ok (TimeValue.mkWire
          (formatTime (TimeValue.Time v) (TimeValue.Precision v))
          (TimeValue.Precision v) (TimeValue.Calendar v) 0 0 0).
Proof.
  intros Hp Hc. destruct v as [t p c].
  cbn [TimeValue.Precision TimeValue.Calendar] in Hp, Hc.
  unfold DataValue.timewire, TimeValue.MarshalJSON, json.object.
  cbn [TimeValue.Time TimeValue.Precision TimeValue.Calendar].
  rewrite formatTime_ascii.
  cbn -[formatTime].
  destruct (Z.leb_spec Int.min_int p); [|lia].
  destruct (Z.leb_spec p Int.max_int); [|lia].
  destruct c as [[]| |]; try contradiction; reflexivity.
Qed.

(** A valid data value is encoded, and decoded back from its encoding. *)
Lemma DataValue_roundtrip (d : DataValue.t) :
  valid_datavalue d ->
  roundtrips DataValue.MarshalJSON DataValue.UnmarshalJSON d.
Proof.
  destruct d as [[v|]]; unfold valid_datavalue; cbn [DataValue.Value];
    [|contradiction].
  unfold roundtrips, DataValue.MarshalJSON. cbn [DataValue.Value].
  destruct v as [e|s|v|g|v|q|t|o]; intros Hv.
  - destruct Hv as [Hne He]. rewrite (of_string_valid e He).
    eexists. split; [reflexivity|].
    now apply (UnmarshalJSON_error _ "").
  - cbn in Hv. rewrite (of_string_valid s Hv). eexists. split; reflexivity.
  - destruct v as [ty id]. cbn in Hv. destruct Hv as [Hty Hid].
    unfold WikiBaseEntityIDValue.MarshalJSON.
    cbn [WikiBaseEntityIDValue.Type_ WikiBaseEntityIDValue.ID].
    rewrite (of_string_valid id Hid).
    eexists. split; [reflexivity|].
    destruct ty as [[]| |]; try contradiction; reflexivity.
  - destruct g as [lat lon prec globe]. cbn in Hv.
    destruct Hv as (H1 & H2 & H3 & Hg).
    unfold GlobeCoordinateValue.MarshalJSON, json.of_float.
    cbn [GlobeCoordinateValue.Latitude GlobeCoordinateValue.Longitude
         GlobeCoordinateValue.Precision GlobeCoordinateValue.Globe].
    rewrite H1, H2, H3, (of_string_valid globe Hg).
    eexists. split; reflexivity.
  - destruct v as [l x]. cbn in Hv. destruct Hv as [Hl Hx].
    unfold MonolingualTextValue.MarshalJSON.
    cbn [MonolingualTextValue.Language MonolingualTextValue.Text].
    rewrite (of_string_valid l Hl), (of_string_valid x Hx).
    eexists. split; reflexivity.
  - eexists. split; [reflexivity|].
    unfold DataValue.UnmarshalJSON. rewrite header_tagged.
    cbn [mbind result_bind String.eqb Ascii.eqb Bool.eqb negb].
    rewrite (payload_tagged _ _ q) by now apply QuantityValue_roundtrip.
    reflexivity.
  - eexists. split; [reflexivity|].
    cbn [valid_value] in Hv. destruct Hv as [Hv Hc].
    assert (Hp : Int.min_int <= TimeValue.Precision t <= Int.max_int)
      by apply Hv.
    rewrite (UnmarshalJSON_time _ _ (header_tagged "time" _)
               (payload_tagged _ _ _ _ _ (timewire_roundtrip t Hp Hc))).
    cbn [TimeValue.w_Time TimeValue.w_Precision TimeValue.w_Calendar].
    rewrite (parse_format t Hv). destruct t. reflexivity.
  - contradiction.
Qed.
End DataValueCodec.

(** ** Entities are decoded back *)

Section EntityCodec.

Lemma object_app {T : Type} (strict : bool) (goType : string)
    (fields : list string) (set : string -> json.value -> T -> result T)
    (g1 g2 : list (string * json.value)) (s : T) :
  json.object strict goType fields set (json.Obj (g1 ++ g2)) s
  = (s' ← json.object strict goType fields set (json.Obj g1) s;
     json.object strict goType fields set (json.Obj g2) s').
Proof. unfold json.object. apply foldM_app. Qed.

Lemma strings_roundtrip (l : list string) :
  json.slice "[]string" (fun v => json.string_ v "")
    (json.Arr (json.Str <$> l)) = Ok l.
Proof.
  cbn. induction l as [|x l IH]; cbn; [reflexivity|]. now rewrite IH.
Qed.

Lemma DataValue_null (d : DataValue.t) :
  DataValue.UnmarshalJSON json.Null <> Ok d.
Proof. discriminate. Qed.

Lemma Snak_roundtrip (s : Snak.t) :
  valid_snak s -> roundtrips Snak.encode (fun v => Snak.decode v Snak.zero) s.
Proof.
  destruct s as [h st p dt dv]. unfold valid_snak, roundtrips, Snak.encode.
  cbn [Snak.Hash Snak.SnakType_ Snak.Property Snak.DataType_ Snak.DataValue_].
  intros (Hh & Hst & Hp & Hdt & Hv). rewrite (of_string_valid p Hp).
  assert (Hhash :
    Snak.decode (json.Obj (omit.str "hash" h)) Snak.zero
    = Ok (Snak.mk h SnakType.Value "" DataType.WikiBaseItem None)).
  { unfold omit.str. rewrite (of_string_valid h Hh).
    destruct (String.eqb_spec h "") as [->|]; reflexivity. }
  assert (Hmid : forall g,
    Snak.decode
      (json.Obj ([("snaktype", SnakType.MarshalJSON st);
                  ("property", json.Str p);
                  ("datatype", DataType.MarshalJSON dt)] ++ g))
      (Snak.mk h SnakType.Value "" DataType.WikiBaseItem None)
    = Snak.decode (json.Obj g) (Snak.mk h st p dt None)).
  { intros g. unfold Snak.decode. rewrite object_app.
    destruct st as [[]| |]; try contradiction;
      destruct dt as [[]| |]; try contradiction; reflexivity. }
  destruct dv as [d|].
  - destruct (DataValue_roundtrip d Hv) as (y & Hy & Hd).
    rewrite Hy. cbn [mbind result_bind]. eexists. split; [reflexivity|].
    unfold json.members. cbn [concat]. rewrite app_nil_r.
    unfold Snak.decode at 1. rewrite object_app.
    fold (Snak.decode (json.Obj (omit.str "hash" h)) Snak.zero).
    rewrite Hhash. cbn [mbind result_bind].
    match goal with
    | |- json.object _ _ _ ?f _ _ = _ =>
        change (Snak.decode
                  (json.Obj ([("snaktype", SnakType.MarshalJSON st);
                              ("property", json.Str p);
                              ("datatype", DataType.MarshalJSON dt)]
                             ++ [("datavalue", y)]))
                  (Snak.mk h SnakType.Value "" DataType.WikiBaseItem None)
                = Ok (Snak.mk h st p dt (Some d)))
    end.
    rewrite Hmid. unfold Snak.decode, json.object.
    cbn -[DataValue.UnmarshalJSON].
    destruct y; try (rewrite Hd; reflexivity).
    exfalso. exact (DataValue_null d Hd).
  - cbn [mbind result_bind]. eexists. split; [reflexivity|].
    unfold json.members. cbn [concat]. rewrite !app_nil_r.
    unfold Snak.decode at 1. rewrite object_app.
    fold (Snak.decode (json.Obj (omit.str "hash" h)) Snak.zero).
    rewrite Hhash. cbn [mbind result_bind].
    specialize (Hmid []). rewrite app_nil_r in Hmid.
    unfold Snak.decode in Hmid |- *. rewrite Hmid. reflexivity.
Qed.

(** Evaluation of a struct decoder on members with literal keys. *)
Ltac eval_fields :=
  cbn [json.object json.foldM json.field find String.eqb Ascii.eqb Bool.eqb
       andb mbind result_bind json.string_ fst snd].

Lemma omit_map_roundtrip {T : Type} (key goType : string)
    (enc : T -> result json.value) (dec : json.value -> result T)
    (m : gmap string T) :
  map_Forall (fun k x => utf8.ValidString k /\ roundtrips enc dec x) m ->
  exists g,
    omit.map_ key enc m = Ok g /\
    (g = [] /\ m = ∅ \/
     exists v, g = [(key, v)] /\ json.map_ goType dec v ∅ = Ok m).
Proof.
  intros H. destruct (map_roundtrip goType enc dec m H) as (v & Hv & Hd).
  unfold omit.map_. destruct (map_to_list m) as [|kx l] eqn:El.
  - exists []. split; [reflexivity|]. left. split; [reflexivity|].
    now apply map_to_list_empty_iff.
  - exists [(key, v)]. rewrite Hv. split; [reflexivity|].
    right. exists v. split; [reflexivity | exact Hd].
Qed.

Lemma omit_slice_roundtrip {T : Type} (key goType : string)
    (enc : T -> result json.value) (dec : json.value -> result T)
    (l : list T) :
  Forall (roundtrips enc dec) l ->
  exists g,
    omit.slice key enc l = Ok g /\
    (g = [] /\ l = [] \/
     exists v, g = [(key, v)] /\ json.slice goType dec v = Ok l).
Proof.
  intros H. destruct (slice_roundtrip goType enc dec l H) as (v & Hv & Hd).
  unfold omit.slice. destruct l as [|x l].
  - exists []. split; [reflexivity|]. left. split; reflexivity.
  - exists [(key, v)]. rewrite Hv. split; [reflexivity|].
    right. exists v. split; [reflexivity | exact Hd].
Qed.

Lemma snaks_roundtrip (m : gmap string (list Snak.t)) :
  valid_snaks m ->
  map_Forall (fun k l => utf8.ValidString k
                         /\ roundtrips Snak.encode_list Snak.decode_list l) m.
Proof.
  intros H k l Hl. destruct (H k l Hl) as [Hk Hs]. split; [exact Hk|].
  apply slice_roundtrip.
  eapply Forall_impl; [exact Hs|]. intros s. apply Snak_roundtrip.
Qed.

Lemma omit_str_valid (key s : string) :
  utf8.ValidString s ->
  omit.str key s = if String.eqb s "" then [] else [(key, json.Str s)].
Proof. intros H. unfold omit.str. now rewrite (of_string_valid s H). Qed.

Lemma omit_strs_valid (key : string) (l : list string) :
  Forall utf8.ValidString l ->
  omit.strs key l
  = match l with [] => [] | _ => [(key, json.Arr (json.Str <$> l))] end.
Proof. intros H. unfold omit.strs. now rewrite (of_strings_valid l H). Qed.

Lemma Reference_decode_app (g1 g2 : list (string * json.value))
    (s : Reference.t) :
  Reference.decode (json.Obj (g1 ++ g2)) s
  = (s' ← Reference.decode (json.Obj g1) s;
     Reference.decode (json.Obj g2) s').
Proof. apply object_app. Qed.

Lemma Reference_roundtrip (r : Reference.t) :
  valid_reference r ->
  roundtrips Reference.encode (fun v => Reference.decode v Reference.zero) r.
Proof.
  destruct r as [h m o]. unfold valid_reference, roundtrips, Reference.encode.
  cbn [Reference.Hash Reference.Snaks Reference.SnaksOrder].
  intros (Hh & Hv & Ho).
  rewrite (omit_str_valid "hash" h Hh), (omit_strs_valid "snaks-order" o Ho).
  destruct (omit_map_roundtrip "snaks" "map[string][]Snak" _ _ m
              (snaks_roundtrip m Hv)) as (g & Hg & Hcases).
  rewrite Hg. cbn [mbind result_bind]. eexists. split; [reflexivity|].
  unfold json.members. cbn [concat]. rewrite app_nil_r.
  rewrite Reference_decode_app.
  assert (H1 : Reference.decode
                 (json.Obj (if String.eqb h "" then []
                            else [("hash", json.Str h)])) Reference.zero
               = Ok (Reference.mk h ∅ [])).
  { destruct (String.eqb_spec h "") as [->|]; reflexivity. }
  assert (H2 : Reference.decode (json.Obj g) (Reference.mk h ∅ [])
               = Ok (Reference.mk h m [])).
  { destruct Hcases as [[-> ->] | (v & -> & Hd)]; [reflexivity|].
    unfold Reference.decode. eval_fields.
    cbn [Reference.Hash Reference.Snaks Reference.SnaksOrder].
    rewrite Hd. reflexivity. }
  assert (H3 : Reference.decode
                 (json.Obj match o with
                           | [] => []
                           | _ => [("snaks-order", json.Arr (json.Str <$> o))]
                           end)
                 (Reference.mk h m [])
               = Ok (Reference.mk h m o)).
  { clear Ho. destruct o as [|x o]; [reflexivity|].
    unfold Reference.decode. eval_fields.
    cbn [Reference.Hash Reference.Snaks Reference.SnaksOrder].
    rewrite strings_roundtrip. reflexivity. }
  rewrite H1. cbn [mbind result_bind].
  rewrite Reference_decode_app, H2. cbn [mbind result_bind].
  exact H3.
Qed.

Lemma Statement_decode_app (g1 g2 : list (string * json.value))
    (s : Statement.t) :
  Statement.decode (json.Obj (g1 ++ g2)) s
  = (s' ← Statement.decode (json.Obj g1) s;
     Statement.decode (json.Obj g2) s').
Proof. apply object_app. Qed.

Lemma Statement_roundtrip (s : Statement.t) :
  valid_statement s ->
  roundtrips Statement.encode (fun v => Statement.decode v Statement.zero) s.
Proof.
  destruct s as [id ty ms rk qs qo rs].
  unfold valid_statement, roundtrips, Statement.encode.
  cbn [Statement.ID Statement.Type_ Statement.MainSnak Statement.Rank
       Statement.Qualifiers Statement.QualifiersOrder Statement.References].
  intros (Hid & Hty & Hrk & Hms & Hqs & Hqo & Hrs).
  rewrite (of_string_valid id Hid),
    (omit_strs_valid "qualifiers-order" qo Hqo).
  destruct (Snak_roundtrip ms Hms) as (y & Hy & Hyd).
  destruct (omit_map_roundtrip "qualifiers" "map[string][]Snak" _ _ qs
              (snaks_roundtrip qs Hqs)) as (gq & Hgq & Hq).
  destruct (omit_slice_roundtrip "references" "[]Reference" Reference.encode
              (fun v => Reference.decode v Reference.zero) rs
              (Forall_impl _ _ _ Hrs Reference_roundtrip))
    as (gr & Hgr & Hr).
  rewrite Hy. cbn [mbind result_bind]. rewrite Hgq. cbn [mbind result_bind].
  rewrite Hgr. cbn [mbind result_bind]. eexists. split; [reflexivity|].
  unfold json.members. cbn [concat]. rewrite app_nil_r.
  assert (H1 :
    Statement.decode
      (json.Obj [("id", json.Str id);
                 ("type", StatementType.MarshalJSON ty);
                 ("mainsnak", y);
                 ("rank", StatementRank.MarshalJSON rk)]) Statement.zero
    = Ok (Statement.mk id ty ms rk ∅ [] [])).
  { unfold Statement.decode, Statement.zero.
    destruct ty as [[]| |]; try contradiction;
      destruct rk as [[]| |]; try contradiction;
      cbn -[Snak.decode Snak.zero]; rewrite Hyd; reflexivity. }
  assert (H2 : Statement.decode (json.Obj gq) (Statement.mk id ty ms rk ∅ [] [])
               = Ok (Statement.mk id ty ms rk qs [] [])).
  { destruct Hq as [[-> ->] | (v & -> & Hd)]; [reflexivity|].
    unfold Statement.decode. eval_fields. rewrite Hd. reflexivity. }
  assert (H3 : Statement.decode
                 (json.Obj match qo with
                           | [] => []
                           | _ => [("qualifiers-order",
                                    json.Arr (json.Str <$> qo))]
                           end)
                 (Statement.mk id ty ms rk qs [] [])
               = Ok (Statement.mk id ty ms rk qs qo [])).
  { clear Hqo. destruct qo as [|x qo]; [reflexivity|].
    unfold Statement.decode. eval_fields.
    rewrite strings_roundtrip. reflexivity. }
  assert (H4 : Statement.decode (json.Obj gr)
                 (Statement.mk id ty ms rk qs qo [])
               = Ok (Statement.mk id ty ms rk qs qo rs)).
  { destruct Hr as [[-> ->] | (v & -> & Hd)]; [reflexivity|].
    unfold Statement.decode. eval_fields. rewrite Hd. reflexivity. }
  rewrite Statement_decode_app, H1. cbn [mbind result_bind].
  rewrite Statement_decode_app, H2. cbn [mbind result_bind].
  rewrite Statement_decode_app, H3. cbn [mbind result_bind].
  exact H4.
Qed.

Lemma LanguageValue_roundtrip (v : LanguageValue.t) :
  valid_language v ->
  roundtrips LanguageValue.encode
    (fun x => LanguageValue.decode x LanguageValue.zero) v.
Proof.
  destruct v as [l x]. intros [Hl Hx]. cbn in Hl, Hx.
  unfold roundtrips, LanguageValue.encode.
  cbn [LanguageValue.Language LanguageValue.Value].
  rewrite (of_string_valid l Hl), (of_string_valid x Hx).
  eexists. split; reflexivity.
Qed.

Lemma SiteLink_decode_app (g1 g2 : list (string * json.value))
    (s : SiteLink.t) :
  SiteLink.decode (json.Obj (g1 ++ g2)) s
  = (s' ← SiteLink.decode (json.Obj g1) s; SiteLink.decode (json.Obj g2) s').
Proof. apply object_app. Qed.

Lemma SiteLink_roundtrip (v : SiteLink.t) :
  valid_sitelink v ->
  roundtrips SiteLink.encode (fun x => SiteLink.decode x SiteLink.zero) v.
Proof.
  destruct v as [site title badges url]. intros (Hs & Ht & Hb & Hu).
  cbn in Hs, Ht, Hb, Hu. unfold roundtrips, SiteLink.encode.
  cbn [SiteLink.Site SiteLink.Title SiteLink.Badges SiteLink.URL].
  rewrite (of_string_valid site Hs), (of_string_valid title Ht),
    (omit_strs_valid "badges" badges Hb), (omit_str_valid "url" url Hu).
  eexists. split; [reflexivity|].
  unfold json.members. cbn [concat]. rewrite app_nil_r.
  assert (H2 : SiteLink.decode
                 (json.Obj match badges with
                           | [] => []
                           | _ => [("badges", json.Arr (json.Str <$> badges))]
                           end)
                 (SiteLink.mk site title [] "")
               = Ok (SiteLink.mk site title badges "")).
  { clear Hb. destruct badges as [|x l]; [reflexivity|].
    unfold SiteLink.decode. eval_fields.
    rewrite strings_roundtrip. reflexivity. }
  assert (H3 : SiteLink.decode
                 (json.Obj (if String.eqb url "" then []
                            else [("url", json.Str url)]))
                 (SiteLink.mk site title badges "")
               = Ok (SiteLink.mk site title badges url)).
  { destruct (String.eqb_spec url "") as [->|]; reflexivity. }
  rewrite SiteLink_decode_app.
  change (SiteLink.decode
            (json.Obj [("site", json.Str site); ("title", json.Str title)])
            SiteLink.zero) with (Ok (SiteLink.mk site title [] "")).
  cbn [mbind result_bind].
  rewrite SiteLink_decode_app, H2. cbn [mbind result_bind]. exact H3.
Qed.

Lemma Entity_decode_app (g1 g2 : list (string * json.value)) (s : Entity.t) :
  Entity.decode (json.Obj (g1 ++ g2)) s
  = (s' ← Entity.decode (json.Obj g1) s; Entity.decode (json.Obj g2) s').
Proof. apply object_app. Qed.

Lemma map_Forall_valid {T : Type} (P Q : T -> Prop) (m : gmap string T) :
  (forall x, P x -> Q x) ->
  map_Forall (fun k x => utf8.ValidString k /\ P x) m ->
  map_Forall (fun k x => utf8.ValidString k /\ Q x) m.
Proof. intros H Hm k x Hx. destruct (Hm k x Hx). split; auto. Qed.

(** A valid entity is encoded, and decoded back from its encoding. *)
Lemma Entity_roundtrip (e : Entity.t) :
  valid_entity e -> roundtrips Entity.encode Entity.UnmarshalJSON e.
Proof.
  destruct e as [id ty dt ls ds als cs sl rev].
  unfold valid_entity, roundtrips, Entity.encode, Entity.UnmarshalJSON.
  cbn [Entity.ID Entity.Type_ Entity.DataType_ Entity.Labels
       Entity.Descriptions Entity.Aliases Entity.Claims Entity.SiteLinks
       Entity.LastRevID].
  intros (Hid & Hty & Hdt & Hls & Hds & Hals & Hcs & Hsl & Hrev).
  rewrite (of_string_valid id Hid).
  destruct (omit_map_roundtrip "labels" "map[string]LanguageValue" _ _ ls
              (map_Forall_valid _ _ ls LanguageValue_roundtrip Hls))
    as (g1 & Hg1 & H1).
  destruct (omit_map_roundtrip "descriptions" "map[string]LanguageValue" _ _
              ds (map_Forall_valid _ _ ds LanguageValue_roundtrip Hds))
    as (g2 & Hg2 & H2).
  destruct (omit_map_roundtrip "aliases" "map[string][]LanguageValue"
              (json.of_slice LanguageValue.encode)
              (json.slice "[]LanguageValue"
                 (fun v => LanguageValue.decode v LanguageValue.zero)) als)
    as (g3 & Hg3 & H3).
  { intros k l Hl. destruct (Hals k l Hl) as [Hk Hv]. split; [exact Hk|].
    apply slice_roundtrip.
    eapply Forall_impl; [exact Hv|]. apply LanguageValue_roundtrip. }
  destruct (omit_map_roundtrip "claims" "map[string][]Statement"
              (json.of_slice Statement.encode)
              (json.slice "[]Statement"
                 (fun v => Statement.decode v Statement.zero)) cs)
    as (g4 & Hg4 & H4).
  { intros k l Hl. destruct (Hcs k l Hl) as [Hk Hv]. split; [exact Hk|].
    apply slice_roundtrip.
    eapply Forall_impl; [exact Hv|]. apply Statement_roundtrip. }
  destruct (omit_map_roundtrip "sitelinks" "map[string]SiteLink" _ _ sl
              (map_Forall_valid _ _ sl SiteLink_roundtrip Hsl))
    as (g5 & Hg5 & H5).
  rewrite Hg1. cbn [mbind result_bind]. rewrite Hg2. cbn [mbind result_bind].
  rewrite Hg3. cbn [mbind result_bind]. rewrite Hg4. cbn [mbind result_bind].
  rewrite Hg5. cbn [mbind result_bind]. eexists. split; [reflexivity|].
  unfold json.members. cbn [concat].
  assert (E0 :
    Entity.decode
      (json.Obj [("id", json.Str id); ("type", EntityType.MarshalJSON ty)])
      Entity.zero
    = Ok (Entity.mk id ty None ∅ ∅ ∅ ∅ ∅ 0)).
  { destruct ty as [[]| |]; try contradiction; reflexivity. }
  assert (Edt :
    Entity.decode
      (json.Obj match dt with
                | Some d => [("datatype", DataType.MarshalJSON d)]
                | None => []
                end) (Entity.mk id ty None ∅ ∅ ∅ ∅ ∅ 0)
    = Ok (Entity.mk id ty dt ∅ ∅ ∅ ∅ ∅ 0)).
  { destruct dt as [[[]| |]|]; try contradiction; reflexivity. }
  assert (E1 : Entity.decode (json.Obj g1) (Entity.mk id ty dt ∅ ∅ ∅ ∅ ∅ 0)
               = Ok (Entity.mk id ty dt ls ∅ ∅ ∅ ∅ 0)).
  { destruct H1 as [[-> ->] | (v & -> & Hd)]; [reflexivity|].
    unfold Entity.decode. eval_fields. rewrite Hd. reflexivity. }
  assert (E2 : Entity.decode (json.Obj g2) (Entity.mk id ty dt ls ∅ ∅ ∅ ∅ 0)
               = Ok (Entity.mk id ty dt ls ds ∅ ∅ ∅ 0)).
  { destruct H2 as [[-> ->] | (v & -> & Hd)]; [reflexivity|].
    unfold Entity.decode. eval_fields. rewrite Hd. reflexivity. }
  assert (E3 : Entity.decode (json.Obj g3) (Entity.mk id ty dt ls ds ∅ ∅ ∅ 0)
               = Ok (Entity.mk id ty dt ls ds als ∅ ∅ 0)).
  { destruct H3 as [[-> ->] | (v & -> & Hd)]; [reflexivity|].
    unfold Entity.decode. eval_fields. rewrite Hd. reflexivity. }
  assert (E4 : Entity.decode (json.Obj g4)
                 (Entity.mk id ty dt ls ds als ∅ ∅ 0)
               = Ok (Entity.mk id ty dt ls ds als cs ∅ 0)).
  { destruct H4 as [[-> ->] | (v & -> & Hd)]; [reflexivity|].
    unfold Entity.decode. eval_fields. rewrite Hd. reflexivity. }
  assert (E5 : Entity.decode (json.Obj g5)
                 (Entity.mk id ty dt ls ds als cs ∅ 0)
               = Ok (Entity.mk id ty dt ls ds als cs sl 0)).
  { destruct H5 as [[-> ->] | (v & -> & Hd)]; [reflexivity|].
    unfold Entity.decode. eval_fields. rewrite Hd. reflexivity. }
  assert (E6 : Entity.decode (json.Obj ([("lastrevid", json.Num rev)] ++ []))
                 (Entity.mk id ty dt ls ds als cs sl 0)
               = Ok (Entity.mk id ty dt ls ds als cs sl rev)).
  { unfold Entity.decode. cbn [app]. eval_fields. unfold json.int.
    destruct (Z.leb_spec Int.min_int rev); [|lia].
    destruct (Z.leb_spec rev Int.max_int); [|lia]. reflexivity. }
  rewrite Entity_decode_app, E0. cbn [mbind result_bind].
  rewrite Entity_decode_app, Edt. cbn [mbind result_bind].
  rewrite Entity_decode_app, E1. cbn [mbind result_bind].
  rewrite Entity_decode_app, E2. cbn [mbind result_bind].
  rewrite Entity_decode_app, E3. cbn [mbind result_bind].
  rewrite Entity_decode_app, E4. cbn [mbind result_bind].
  rewrite Entity_decode_app, E5. cbn [mbind result_bind].
  exact E6.
Qed.
End EntityCodec.

(** ** The claims about timestamps and data values *)

(** C5.  A timestamp whose signed year field parses to 0 is refused with
    the error text "year cannot be 0": [parseTime] and
    [TimeValue.UnmarshalJSON] return that error, and the decoder of a
    [DataValue] produces an error value carrying the text, never a time
    value. *)
Theorem year_zero_rejected (t : string) (m : timeMatch) :
  timeRegex t = Some m -> strconv.ParseInt (m_year m) = Ok 0 ->
  parseTime t = Err (New "year cannot be 0") /\
  Error (New "year cannot be 0") = "year cannot be 0" /\
  (forall (p : TimePrecision) (c : CalendarModel.t),
     Int.min_int <= p <= Int.max_int ->
     TimeValue.UnmarshalJSON
       (json.Obj [("time", json.Str t); ("precision", json.Num p);
                  ("calendarmodel", CalendarModel.MarshalJSON c)])
     = Err (New "year cannot be 0") /\
     DataValue.UnmarshalJSON (time_object t p c)
     = Ok (DataValue.mk (Some (DataValue.ErrorValue "year cannot be 0")))).
Proof.
  intros Hre Hy.
  assert (Hparse : parseTime t = Err (New "year cannot be 0")).
  { unfold parseTime, parseField. rewrite Hre, Hy. reflexivity. }
  split; [exact Hparse|]. split; [reflexivity|].
  intros p c Hp. split.
  - unfold TimeValue.UnmarshalJSON, json.object. cbn.
    destruct (Z.leb_spec Int.min_int p); [|lia].
    destruct (Z.leb_spec p Int.max_int); [|lia].
    destruct c; cbn; now rewrite Hparse.
  - rewrite (UnmarshalJSON_time _ _ (header_time_object t p c)
               (payload_time_object t p c Hp)).
    cbn [TimeValue.w_Time]. now rewrite Hparse.
Qed.

(** Witness for C5: the timestamp of the specification. *)
Lemma year_zero_rejected_witness :
  parseTime "+0000-01-01T00:00:00Z" = Err (New "year cannot be 0").
Proof.
  apply (year_zero_rejected "+0000-01-01T00:00:00Z"
           (mkMatch "+0000" "01" "01" "00" "00" "00")); reflexivity.
Defined.

(** C3.  Decoding "+1950-00-00T00:00:00Z" with precision [Year] gives the
    time value with month 1, day 1 and precision [Year]; [formatTime]
    writes [00] for the month below precision [Month] and [00] for the day
    below precision [Day], and the stored fields otherwise; so the decoded
    value is written back as "+1950-00-00T00:00:00Z". *)
Theorem year_precision_zeros :
  parseTime "+1950-00-00T00:00:00Z" = Ok (time.mkTime 1950 1 1 0 0 0 0) /\
  (forall c : CalendarModel.t,
     DataValue.UnmarshalJSON
       (time_object "+1950-00-00T00:00:00Z" Precision.Year c)
     = Ok (DataValue.mk
             (Some (DataValue.TimeValue
                      (TimeValue.mk (time.mkTime 1950 1 1 0 0 0 0)
                         Precision.Year c))))) /\
  (forall (t : time.Time) (p : TimePrecision),
     p < Precision.Month ->
     formatTime t p = year_field t +:+ "-00-00T" +:+ clock_field t) /\
  (forall (t : time.Time) (p : TimePrecision),
     Precision.Month <= p < Precision.Day ->
     formatTime t p
     = year_field t +:+ "-" +:+ fmt.d0 false 2 (time.Month t) +:+ "-00T"
         +:+ clock_field t) /\
  (forall (t : time.Time) (p : TimePrecision),
     Precision.Day <= p ->
     formatTime t p
     = year_field t +:+ "-" +:+ fmt.d0 false 2 (time.Month t) +:+ "-"
         +:+ fmt.d0 false 2 (time.Day t) +:+ "T" +:+ clock_field t) /\
  formatTime (time.mkTime 1950 1 1 0 0 0 0) Precision.Year
  = "+1950-00-00T00:00:00Z" /\
  (forall c : CalendarModel.t,
     TimeValue.MarshalJSON
       (TimeValue.mk (time.mkTime 1950 1 1 0 0 0 0) Precision.Year c)
     = json.Obj [("time", json.Str "+1950-00-00T00:00:00Z");
                 ("precision", json.Num 9);
                 ("calendarmodel", CalendarModel.MarshalJSON c)]).
Proof.
  unfold Precision.Month, Precision.Day.
  split; [reflexivity|]. split.
  { intros c.
    rewrite (UnmarshalJSON_time _ _
               (header_time_object "+1950-00-00T00:00:00Z" Precision.Year c)
               (payload_time_object "+1950-00-00T00:00:00Z" Precision.Year c
                  ltac:(unfold Int.min_int, Int.max_int, Precision.Year; lia))).
    reflexivity. }
  split; [|split; [|split; [|split]]].
  - intros t p Hp. unfold formatTime, year_field, clock_field.
    unfold Precision.Month, Precision.Day.
    destruct (Z.ltb_spec p 10); [|lia]. destruct (Z.ltb_spec p 11); [|lia].
    reflexivity.
  - intros t p Hp. unfold formatTime, year_field, clock_field.
    unfold Precision.Month, Precision.Day.
    destruct (Z.ltb_spec p 10); [lia|]. destruct (Z.ltb_spec p 11); [|lia].
    reflexivity.
  - intros t p Hp. unfold formatTime, year_field, clock_field.
    unfold Precision.Month, Precision.Day.
    destruct (Z.ltb_spec p 10); [lia|]. destruct (Z.ltb_spec p 11); [lia|].
    reflexivity.
  - reflexivity.
  - intros c. reflexivity.
Qed.

(** Witness for C3: a day in 1950 written at precision [Century]. *)
Lemma year_precision_zeros_witness :
  formatTime (time.mkTime 1950 6 15 12 30 45 0) Precision.Century
  = "+1950-00-00T12:30:45Z".
Proof.
  rewrite (proj1 (proj2 (proj2 year_precision_zeros))
             (time.mkTime 1950 6 15 12 30 45 0) Precision.Century);
    reflexivity.
Defined.

(** C4 (as amended).  For a timestamp text whose year field denotes a
    negative year [y] that fits a Go [int], with [y + 1] a year [time.Time]
    represents, and whose other fields denote a calendar date of the year
    [y + 1] and a time of day, [parseTime] stores the year [y + 1]; [formatTime]
    writes a stored year below 1 decremented by one, so the year field
    written back denotes [y]; the whole text is restored when, moreover,
    its year field is canonical (a sign and four digits, or more digits
    without a leading zero) and its month and day are [00] exactly below
    their precision.  Historical year -44 is stored as -43 and written
    back as "-0044". *)
Theorem negative_year_roundtrip :
  (forall (t : string) (m : timeMatch) (y : Z),
     timeRegex t = Some m -> strconv.ParseInt (m_year m) = Ok y -> y < 0 ->
     time.representable (y + 1) -> civil (y + 1) m ->
     parseTime t = Ok (stored_time y m) /\
     time.Year (stored_time y m) = y + 1 /\
     (forall p : TimePrecision,
        exists rest,
          formatTime (stored_time y m) p = fmt.d0 true 5 y +:+ rest) /\
     (forall p : TimePrecision,
        canonical_year (m_year m) ->
        (p < Precision.Month <-> m_month m = "00") ->
        (p < Precision.Day <-> m_day m = "00") ->
        formatTime (stored_time y m) p = t)) /\
  (forall (tm : time.Time) (p : TimePrecision),
     time.Year tm < 1 ->
     exists rest, formatTime tm p = fmt.d0 true 5 (time.Year tm - 1) +:+ rest)
  /\
  parseTime "-0044-03-15T00:00:00Z" = Ok (time.mkTime (-43) 3 15 0 0 0 0) /\
  formatTime (time.mkTime (-43) 3 15 0 0 0 0) Precision.Day
  = "-0044-03-15T00:00:00Z".
Proof.
  split; [|split; [|split; reflexivity]].
  - intros t m y Hre Hy Hneg _ Hciv.
    assert (Hst : stored_year y = y + 1).
    { unfold stored_year. destruct (Z.ltb_spec y 0); [reflexivity | lia]. }
    split; [|split; [|split]].
    + apply parseTime_civil; try assumption; [lia|]. now rewrite Hst.
    + exact Hst.
    + intros p. rewrite formatTime_stored by lia. eexists. reflexivity.
    + intros p Hcan Hm Hd. apply format_parse; try assumption. lia.
  - intros tm p Hy. unfold formatTime.
    destruct (Z.ltb_spec (time.Year tm) 1); [|lia].
    eexists. reflexivity.
Qed.

(** Witness for C4: 15 March 44 BCE. *)
Lemma negative_year_roundtrip_witness :
  parseTime "-0044-03-15T00:00:00Z"
  = Ok (stored_time (-44) (mkMatch "-0044" "03" "15" "00" "00" "00")) /\
  formatTime (stored_time (-44) (mkMatch "-0044" "03" "15" "00" "00" "00"))
    Precision.Day
  = "-0044-03-15T00:00:00Z".
Proof.
  destruct (proj1 negative_year_roundtrip "-0044-03-15T00:00:00Z"
              (mkMatch "-0044" "03" "15" "00" "00" "00") (-44))
    as (Hp & _ & _ & Hf).
  - reflexivity.
  - reflexivity.
  - lia.
  - unfold time.representable. lia.
  - unfold civil. split; [|split; [|split; [|split]]]; vm_compute; easy.
  - split; [exact Hp|]. apply Hf.
    + cbn. left. reflexivity.
    + cbn. unfold Precision.Day, Precision.Month. split; [lia | discriminate].
    + cbn. unfold Precision.Day. split; [lia | discriminate].
Defined.

(** Counterexample to C4 as stated: a negative year padded beyond four
    digits is written back with four, and a month of 13 moves the stored
    year on by one more. *)
Lemma negative_year_not_restored :
  parseTime "-00044-01-01T00:00:00Z" = Ok (time.mkTime (-43) 1 1 0 0 0 0) /\
  formatTime (time.mkTime (-43) 1 1 0 0 0 0) Precision.Day
  = "-0044-01-01T00:00:00Z" /\
  "-0044-01-01T00:00:00Z" <> "-00044-01-01T00:00:00Z" /\
  parseTime "-0044-13-01T00:00:00Z" = Ok (time.mkTime (-42) 1 1 0 0 0 0).
Proof.
  repeat split; try reflexivity. discriminate.
Qed.

(** C7.  When the time text of a time-typed data value does not parse, the
    decoder of the data value still succeeds, with an error value carrying
    the message of the parse failure, and a snak holding it decodes. *)
Theorem time_parse_failure_is_soft (b : json.value) (w : TimeValue.wire)
    (err : error) :
  DataValue.header b = Ok ("time", "") ->
  DataValue.payload DataValue.timewire TimeValue.wire_zero b = Ok w ->
  parseTime (TimeValue.w_Time w) = Err err ->
  DataValue.UnmarshalJSON b
  = Ok (DataValue.mk (Some (DataValue.ErrorValue (Error err)))) /\
  (forall (st : SnakType.t) (property : string) (dt : DataType.t),
     Snak.decode (snak_object st property dt b) Snak.zero
     = Ok (Snak.mk "" st property dt
             (Some (DataValue.mk (Some (DataValue.ErrorValue (Error err))))))).
Proof.
  intros Hh Hp Herr.
  assert (Hd : DataValue.UnmarshalJSON b
               = Ok (DataValue.mk (Some (DataValue.ErrorValue (Error err))))).
  { rewrite (UnmarshalJSON_time b w Hh Hp), Herr. reflexivity. }
  split; [exact Hd|]. intros st property dt.
  now apply Snak_decode_datavalue.
Qed.

(** Witness for C7: a date with no sign and no time of day. *)
Lemma time_parse_failure_is_soft_witness :
  DataValue.UnmarshalJSON
    (time_object "1950-01-01" Precision.Day CalendarModel.Gregorian)
  = Ok (DataValue.mk
          (Some (DataValue.ErrorValue
                   (Error (New ("unable to parse time " +:+ strconv.dq
                                  +:+ "1950-01-01" +:+ strconv.dq)))))).
Proof.
  apply (time_parse_failure_is_soft
           (time_object "1950-01-01" Precision.Day CalendarModel.Gregorian)
           (TimeValue.mkWire "1950-01-01" Precision.Day
              CalendarModel.Gregorian 0 0 0)); reflexivity.
Defined.

(** C6 (as amended).  When the error field of a data value object holds a
    non-empty string, and its type field holds a string if it is there at
    all, the decoder returns the error value carrying that string, whatever
    the discriminator and the other members are. *)
Theorem error_member_wins :
  (forall (b : json.value) (type error : string),
     DataValue.header b = Ok (type, error) -> error <> "" ->
     DataValue.UnmarshalJSON b
     = Ok (DataValue.mk (Some (DataValue.ErrorValue error)))) /\
  (forall (pre post : list (string * json.value)) (e : string),
     e <> "" ->
     forallb header_member (pre ++ post) = true ->
     forallb (fun kv => negb (names_error kv)) post = true ->
     DataValue.UnmarshalJSON
       (json.Obj (pre ++ ("error", json.Str e) :: post))
     = Ok (DataValue.mk (Some (DataValue.ErrorValue e)))).
Proof.
  split.
  - intros b type error. apply UnmarshalJSON_error.
  - intros pre post e Hne Hok Hpost.
    destruct (header_error_member pre post e Hok Hpost) as [type Hh].
    now apply (UnmarshalJSON_error _ type).
Qed.

(** Witness for C6: an error beside a discriminator and a value. *)
Lemma error_member_wins_witness :
  DataValue.UnmarshalJSON
    (json.Obj [("type", json.Str "string"); ("error", json.Str "bad value");
               ("value", json.Num 7)])
  = Ok (DataValue.mk (Some (DataValue.ErrorValue "bad value"))).
Proof.
  apply (proj2 error_member_wins [("type", json.Str "string")]
           [("value", json.Num 7)] "bad value");
    [discriminate | reflexivity | reflexivity].
Defined.

(** Counterexample to C6 as stated: an error field that is present but
    empty does not give an error value (the decoder goes on to the
    discriminator), and a discriminator that is no string makes the
    decoder fail even beside an error. *)
Lemma error_member_empty :
  DataValue.UnmarshalJSON
    (json.Obj [("error", json.Str ""); ("type", json.Str "string");
               ("value", json.Str "x")])
  = Err (UnknownField "error") /\
  DataValue.UnmarshalJSON
    (json.Obj [("type", json.Str "string"); ("value", json.Str "x");
               ("error", json.Null)])
  = Err (UnknownField "error") /\
  is_ok (DataValue.UnmarshalJSON (json.Obj [("error", json.Str "")])) = false
  /\
  DataValue.UnmarshalJSON
    (json.Obj [("error", json.Str "bad value"); ("type", json.Num 5)])
  = Err (UnmarshalTypeError "number" "string").
Proof.
  repeat split; reflexivity.
Qed.

(** ** The claim about amounts *)

(** C2 (as amended).  Every amount with a finite decimal expansion is
    decoded back from its encoding; and the encoding of every amount
    begins with its sign, [+] for zero and positive amounts and [-] for
    negative ones: 5 is written "+5". *)
Theorem amount_codec :
  (forall a : Qc,
     terminating a -> Amount.UnmarshalJSON (Amount.MarshalJSON a) = Ok a) /\
  (forall a : Qc,
     exists rest,
       Amount.MarshalJSON a
       = json.Str (String (if 0 <=? Amount.Sign a then "+"%char else "-"%char)
                     rest)) /\
  Amount.MarshalJSON (Q2Qc 5) = json.Str "+5" /\
  Amount.MarshalJSON (Q2Qc 0) = json.Str "+0".
Proof.
  split; [exact amount_roundtrip|]. split; [exact amount_sign|].
  split; reflexivity.
Qed.

(** Witness for C2: minus five quarters, written "-1.25". *)
Lemma amount_codec_witness :
  Amount.MarshalJSON (Q2Qc (-5 # 4)) = json.Str "-1.25" /\
  Amount.UnmarshalJSON (Amount.MarshalJSON (Q2Qc (-5 # 4)))
  = Ok (Q2Qc (-5 # 4)).
Proof.
  split; [reflexivity|].
  apply (proj1 amount_codec (Q2Qc (-5 # 4))).
  exists 2%nat. exists 25. reflexivity.
Defined.

(** Counterexample to C2 as stated: one third is written "+0.3", which is
    read back as three tenths. *)
Lemma amount_third_not_restored :
  Amount.MarshalJSON (Q2Qc (1 # 3)) = json.Str "+0.3" /\
  Amount.UnmarshalJSON (Amount.MarshalJSON (Q2Qc (1 # 3)))
  = Ok (Q2Qc (3 # 10)) /\
  Q2Qc (3 # 10) <> Q2Qc (1 # 3).
Proof.
  split; [reflexivity|]. split; [reflexivity|].
  intros H. apply (f_equal this) in H. discriminate H.
Qed.

(** ** The claim about entities *)

(** C1 (as amended).  An entity is encoded, and decoding the document gives
    the entity back, when every string of the entity and every key of its
    maps is valid UTF-8, every value of an enumeration (entity type, data
    type, statement type, rank, snak type, type of an entity id, calendar)
    is one of the declared constants, the revision number is a Go [int],
    and every data value in its claims is in the form the decoder
    produces: it holds one of the seven kinds of value, an error value is
    not the empty string, the numbers of a coordinate are finite, an
    amount and its bounds have a finite decimal expansion, and a time value
    is a calendar date and time of day in whole seconds, in a year
    [time.Time] represents, with month 1 below precision [Month], day 1
    below precision [Day] and a precision that is a Go [int]. *)
Theorem entity_roundtrip (e : Entity.t) :
  valid_entity e ->
  exists doc, Entity.encode e = Ok doc /\ Entity.UnmarshalJSON doc = Ok e.
Proof. exact (Entity_roundtrip e). Qed.

(** Witness for C1: an item whose claim is the year 1950, qualified by the
    quantity minus five quarters. *)
Lemma entity_roundtrip_witness :
  valid_entity
    (sample_entity year_1950
       {[ "P2" := [sample_snak "P2" (quantity (Q2Qc (-5 # 4)))] ]}) /\
  exists doc,
    Entity.encode
      (sample_entity year_1950
         {[ "P2" := [sample_snak "P2" (quantity (Q2Qc (-5 # 4)))] ]})
    = Ok doc /\
    Entity.UnmarshalJSON doc
    = Ok (sample_entity year_1950
            {[ "P2" := [sample_snak "P2" (quantity (Q2Qc (-5 # 4)))] ]}).
Proof.
  assert (H : valid_entity
                (sample_entity year_1950
                   {[ "P2" := [sample_snak "P2" (quantity (Q2Qc (-5 # 4)))]
                   ]})).
  { unfold valid_entity, sample_entity.
    cbn [Entity.ID Entity.Type_ Entity.DataType_ Entity.Labels
         Entity.Descriptions Entity.Aliases Entity.Claims Entity.SiteLinks
         Entity.LastRevID].
    split; [reflexivity|]. split; [exact I|]. split; [exact I|].
    split; [apply map_Forall_singleton; repeat split; reflexivity|].
    split; [apply map_Forall_empty|]. split; [apply map_Forall_empty|].
    split; [|split; [apply map_Forall_empty
                    |unfold Int.min_int, Int.max_int; cbn; lia]].
    apply map_Forall_singleton. split; [reflexivity|].
    constructor; [|constructor].
    split; [reflexivity|]. split; [exact I|]. split; [exact I|].
    split; [|split; [|split; [constructor | constructor]]].
    - split; [reflexivity|]. split; [exact I|]. split; [reflexivity|].
      split; [exact I|].
      unfold valid_datavalue, valid_value, decoded_time. cbn.
      unfold time.representable, Precision.Year, Precision.Month,
        Precision.Day, Int.min_int, Int.max_int.
      repeat split; try lia; try reflexivity; vm_compute; congruence.
    - apply map_Forall_singleton. split; [reflexivity|].
      constructor; [|constructor].
      split; [reflexivity|]. split; [exact I|]. split; [reflexivity|].
      split; [exact I|].
      unfold valid_datavalue, valid_value. cbn.
      split; [|split; [exact I | split; [exact I | reflexivity]]].
      exists 2%nat. exists 25. reflexivity. }
  split; [exact H|].
  exact (entity_roundtrip _ H).
Defined.

(** Counterexample to C1 as stated.  An item whose claim holds the empty
    error value is encoded, and the decoder rejects the document; an item
    whose claim holds a day in June at precision [Year] comes back as the
    first of January; an item whose claim holds one third comes back holding
    three tenths; an item whose id is a byte that is not UTF-8 comes back
    with U+FFFD as its id; an entity whose type is the integer 2, which is
    no declared constant, is encoded with the empty string as its type,
    and the decoder rejects the document. *)
Lemma entity_not_restored :
  (exists doc,
     Entity.encode (sample_entity (DataValue.ErrorValue "") ∅) = Ok doc /\
     is_ok (Entity.UnmarshalJSON doc) = false) /\
  (exists doc,
     Entity.encode (sample_entity june_1950 ∅) = Ok doc /\
     Entity.UnmarshalJSON doc = Ok (sample_entity year_1950 ∅)) /\
  sample_entity year_1950 ∅ <> sample_entity june_1950 ∅ /\
  (exists doc,
     Entity.encode (sample_entity (quantity (Q2Qc (1 # 3))) ∅) = Ok doc /\
     Entity.UnmarshalJSON doc
     = Ok (sample_entity (quantity (Q2Qc (3 # 10))) ∅)) /\
  sample_entity (quantity (Q2Qc (3 # 10))) ∅
  <> sample_entity (quantity (Q2Qc (1 # 3))) ∅ /\
  (exists doc,
     Entity.encode (bare_entity invalid_byte EntityType.Item) = Ok doc /\
     Entity.UnmarshalJSON doc
     = Ok (bare_entity (utf8.RuneError "") EntityType.Item)) /\
  bare_entity (utf8.RuneError "") EntityType.Item
  <> bare_entity invalid_byte EntityType.Item /\
  (exists doc,
     Entity.encode (bare_entity "Q1" (Above 0)) = Ok doc /\
     Entity.UnmarshalJSON doc = Err (New "unknown entity type: ")).
Proof.
  split; [eexists; split; [vm_compute; reflexivity | vm_compute; reflexivity]|].
  split; [eexists; split; [vm_compute; reflexivity | vm_compute; reflexivity]|].
  split.
  { intros H. apply (f_equal Entity.Claims) in H.
    apply (f_equal (fun m => m !! "P1")) in H. vm_compute in H.
    discriminate H. }
  split; [eexists; split; [vm_compute; reflexivity | vm_compute; reflexivity]|].
  split.
  { intros H. apply (f_equal Entity.Claims) in H.
    apply (f_equal (fun m => m !! "P1")) in H. vm_compute in H.
    discriminate H. }
  split; [eexists; split; [vm_compute; reflexivity | vm_compute; reflexivity]|].
  split; [intros H; apply (f_equal Entity.ID) in H; discriminate H|].
  eexists; split; [vm_compute; reflexivity | vm_compute; reflexivity].
Qed.

(** * Further properties

    ** The framing helper, read backwards *)

Section FramingInverse.
Import Int Framing.

Lemma to_byte_of_byte (b : byte) : to_byte (of_byte b) = b.
Proof.
  unfold to_byte. pose proof (of_byte_range b) as Hr.
  rewrite Z.mod_small by lia. unfold of_byte. rewrite N2Z.id.
  now rewrite Byte.of_to_N.
Qed.

Lemma to_byte_mod (z : Z) : to_byte (z mod 256) = to_byte z.
Proof. unfold to_byte. now rewrite Z.mod_mod by lia. Qed.

(** A value below [2^k] and a multiple of [2^k] share no bit. *)
Lemma lor_high (a b k : Z) :
  0 <= k -> 0 <= a < 2 ^ k -> Z.lor a (b * 2 ^ k) = a + b * 2 ^ k.
Proof.
  intros Hk Ha. rewrite <- Z.add_lor_land.
  assert (Hland : Z.land a (b * 2 ^ k) = 0).
  { apply Z.bits_inj'. intros n Hn. rewrite Z.land_spec, Z.bits_0.
    destruct (Z.lt_ge_cases n k) as [Hlt|Hge].
    - rewrite Z.mul_pow2_bits_low by lia. apply andb_false_r.
    - replace a with (a mod 2 ^ k) by (apply Z.mod_small; lia).
      rewrite Z.mod_pow2_bits_high by lia. reflexivity. }
  rewrite Hland. lia.
Qed.

Lemma Uint32_sum (b0 b1 b2 b3 : byte) :
  Uint32 b0 b1 b2 b3
  = of_byte b0 + 256 * (of_byte b1 + 256 * (of_byte b2 + 256 * of_byte b3)).
Proof.
  pose proof (of_byte_range b0). pose proof (of_byte_range b1).
  pose proof (of_byte_range b2). pose proof (of_byte_range b3).
  unfold Uint32. rewrite !Z.shiftl_mul_pow2 by lia.
  rewrite (lor_high (of_byte b2 * 2 ^ 16) (of_byte b3) 24) by lia.
  replace (of_byte b2 * 2 ^ 16 + of_byte b3 * 2 ^ 24)
    with ((of_byte b2 + 256 * of_byte b3) * 2 ^ 16) by lia.
  rewrite (lor_high (of_byte b1 * 2 ^ 8) _ 16) by lia.
  replace (of_byte b1 * 2 ^ 8 + (of_byte b2 + 256 * of_byte b3) * 2 ^ 16)
    with ((of_byte b1 + 256 * (of_byte b2 + 256 * of_byte b3)) * 2 ^ 8)
    by lia.
  rewrite (lor_high (of_byte b0) _ 8) by lia. lia.
Qed.

Lemma Uint32_range (b0 b1 b2 b3 : byte) : 0 <= Uint32 b0 b1 b2 b3 < 2 ^ 32.
Proof.
  pose proof (of_byte_range b0). pose proof (of_byte_range b1).
  pose proof (of_byte_range b2). pose proof (of_byte_range b3).
  rewrite Uint32_sum. lia.
Qed.

Lemma to_byte_low (x r : Z) (b : byte) :
  x = of_byte b + 256 * r -> to_byte x = b.
Proof.
  intros ->. rewrite <- to_byte_mod.
  replace (of_byte b + 256 * r) with (of_byte b + r * 256) by lia.
  rewrite Z.mod_add by lia. rewrite to_byte_mod. apply to_byte_of_byte.
Qed.

Lemma shiftr_byte (r : Z) (b : byte) : Z.shiftr (of_byte b + 256 * r) 8 = r.
Proof.
  pose proof (of_byte_range b) as Hb. rewrite Z.shiftr_div_pow2 by lia.
  symmetry. apply Z.div_unique with (of_byte b); [left|]; lia.
Qed.

Lemma PutUint32_Uint32 (b0 b1 b2 b3 : byte) :
  PutUint32 (Uint32 b0 b1 b2 b3) = [b0; b1; b2; b3].
Proof.
  unfold PutUint32. rewrite Uint32_sum.
  replace 24 with (8 + 8 + 8) by lia. replace 16 with (8 + 8) by lia.
  rewrite <- !Z.shiftr_shiftr by lia. rewrite !shiftr_byte.
  rewrite (to_byte_low _ _ b0 eq_refl), (to_byte_low _ _ b1 eq_refl),
    (to_byte_low _ _ b2 eq_refl).
  now rewrite to_byte_of_byte.
Qed.
End FramingInverse.

(** X1.  Whatever [ParseLineNumber] accepts, [AddLineNumber] builds back:
    the line number it returns lies in [0, 2^32), the payload is the input
    without its first four bytes, and framing the payload with that number
    gives the input again, byte for byte. *)
Theorem parse_then_add (data rest : list byte) (n : Z) :
  Framing.ParseLineNumber data = Ok (n, rest) ->
  0 <= n < 2 ^ 32 /\ rest = skipn 4 data /\
  Framing.AddLineNumber n rest = data.
Proof.
  intros Hp.
  destruct data as [|b0 [|b1 [|b2 [|b3 tl]]]]; try discriminate Hp.
  cbn in Hp. injection Hp as <- <-.
  pose proof (Uint32_range b0 b1 b2 b3) as Hr.
  split; [exact Hr|]. split; [reflexivity|].
  unfold Framing.AddLineNumber. rewrite uint32_int32.
  rewrite Z.mod_small by exact Hr. now rewrite PutUint32_Uint32.
Qed.

(** Witness for X1: the frame of line 258 around two bytes. *)
Lemma parse_then_add_witness :
  Framing.ParseLineNumber [x02; x01; x00; x00; x48; x69]
  = Ok (258, [x48; x69]) /\
  Framing.AddLineNumber 258 [x48; x69] = [x02; x01; x00; x00; x48; x69].
Proof.
  split; [reflexivity|].
  apply (parse_then_add [x02; x01; x00; x00; x48; x69] [x48; x69] 258).
  reflexivity.
Defined.

(** X2.  Two frames are equal exactly when their payloads are equal and
    their line numbers agree modulo [2^32]: the prefix keeps the low 32 bits
    of the line number and nothing else. *)
Theorem add_line_number_equal (n n' : Z) (d d' : list byte) :
  Framing.AddLineNumber n d = Framing.AddLineNumber n' d'
  <-> n mod 2 ^ 32 = n' mod 2 ^ 32 /\ d = d'.
Proof.
  split.
  - intros H. apply (f_equal Framing.ParseLineNumber) in H.
    rewrite !Parse_Add in H. injection H as Hn Hd. now split.
  - intros [Hn ->]. unfold Framing.AddLineNumber.
    now rewrite !uint32_int32, Hn.
Qed.

(** ** Enumerations *)

Section EnumFacts.

(** Walks the [switch] of an enumeration decoder, one token at a time. *)
Ltac token_cases tac :=
  lazymatch goal with
  | |- context [String.eqb ?s ?t] =>
      destruct (String.eqb_spec s t) as [?|?];
      [subst s; tac | token_cases tac]
  | _ => tac
  end.

Ltac token_spec :=
  intros s; unfold unmarshalToken;
  cbn [json.string_ mbind result_bind find fst snd];
  token_cases ltac:(first
    [ split; [exact I | reflexivity]
    | split; [reflexivity
            | intros x; destruct x; intros H; cbv in H; congruence] ]).

Lemma EntityType_spec (s : string) :
  match EntityType.UnmarshalJSON (json.Str s) with
  | Ok x => declared x /\ EntityType.MarshalJSON x = json.Str s
  | Err e =>
      e = New ("unknown entity type: " +:+ s) /\
      forall x : EntityType.t, EntityType.MarshalJSON x <> json.Str s
  end.
Proof. revert s. unfold EntityType.UnmarshalJSON. token_spec. Qed.

Lemma WikiBaseEntityType_spec (s : string) :
  match WikiBaseEntityType.UnmarshalJSON (json.Str s) with
  | Ok x => declared x /\ WikiBaseEntityType.MarshalJSON x = json.Str s
  | Err e =>
      e = New ("unknown wikibase entity type: " +:+ s) /\
      forall x : WikiBaseEntityType.t,
        WikiBaseEntityType.MarshalJSON x <> json.Str s
  end.
Proof. revert s. unfold WikiBaseEntityType.UnmarshalJSON. token_spec. Qed.

Lemma StatementType_spec (s : string) :
  match StatementType.UnmarshalJSON (json.Str s) with
  | Ok x => declared x /\ StatementType.MarshalJSON x = json.Str s
  | Err e =>
      e = New ("unknown statement type: " +:+ s) /\
      forall x : StatementType.t, StatementType.MarshalJSON x <> json.Str s
  end.
Proof. revert s. unfold StatementType.UnmarshalJSON. token_spec. Qed.

Lemma StatementRank_spec (s : string) :
  match StatementRank.UnmarshalJSON (json.Str s) with
  | Ok x => declared x /\ StatementRank.MarshalJSON x = json.Str s
  | Err e =>
      e = New ("unknown statement rank: " +:+ s) /\
      forall x : StatementRank.t, StatementRank.MarshalJSON x <> json.Str s
  end.
Proof. revert s. unfold StatementRank.UnmarshalJSON. token_spec. Qed.

Lemma SnakType_spec (s : string) :
  match SnakType.UnmarshalJSON (json.Str s) with
  | Ok x => declared x /\ SnakType.MarshalJSON x = json.Str s
  | Err e =>
      e = New ("unknown snak type: " +:+ s) /\
      forall x : SnakType.t, SnakType.MarshalJSON x <> json.Str s
  end.
Proof. revert s. unfold SnakType.UnmarshalJSON. token_spec. Qed.

Lemma DataType_spec (s : string) :
  match DataType.UnmarshalJSON (json.Str s) with
  | Ok x => declared x /\ DataType.MarshalJSON x = json.Str s
  | Err e =>
      e = New ("unknown data type: " +:+ s) /\
      forall x : DataType.t, DataType.MarshalJSON x <> json.Str s
  end.
Proof. revert s. unfold DataType.UnmarshalJSON. token_spec. Qed.

(** From the shape above: a decoder accepts exactly what its encoder
    writes for a declared constant. *)
Lemma accepts_written {T : Type} (dec : json.value -> result (enum T))
    (enc : enum T -> json.value) (msg : string -> string) :
  (forall x y : T, enc (Const x) = enc (Const y) -> x = y) ->
  (forall s,
     match dec (json.Str s) with
     | Ok x => declared x /\ enc x = json.Str s
     | Err e => e = New (msg s) /\ forall x : T, enc (Const x) <> json.Str s
     end) ->
  forall s x, dec (json.Str s) = Ok x <-> declared x /\ enc x = json.Str s.
Proof.
  intros Hinj Hspec s x. specialize (Hspec s). split.
  - intros H. now rewrite H in Hspec.
  - intros [Hd H]. destruct x as [c| |]; try contradiction.
    destruct (dec (json.Str s)) as [y|e].
    + destruct Hspec as [Hy Hs]. destruct y as [c'| |]; try contradiction.
      f_equal. f_equal. apply Hinj. congruence.
    + destruct Hspec as [_ Hno]. now destruct (Hno c).
Qed.

Lemma rejects_unknown {T : Type} (dec : json.value -> result (enum T))
    (enc : enum T -> json.value) (msg : string -> string) :
  (forall s,
     match dec (json.Str s) with
     | Ok x => declared x /\ enc x = json.Str s
     | Err e => e = New (msg s) /\ forall x : T, enc (Const x) <> json.Str s
     end) ->
  forall s, (forall x : T, enc (Const x) <> json.Str s) ->
            dec (json.Str s) = Err (New (msg s)).
Proof.
  intros Hspec s Hno. specialize (Hspec s).
  destruct (dec (json.Str s)) as [y|e].
  - destruct Hspec as [Hy Hs]. destruct y as [c| |]; try contradiction.
    now destruct (Hno c).
  - now destruct Hspec as [-> _].
Qed.

Lemma CalendarModel_spec (s : string) :
  match CalendarModel.UnmarshalJSON (json.Str s) with
  | Ok (Const CalendarModel.Gregorian) =>
      s = "https://www.wikidata.org/wiki/Q1985727" \/
      s = "http://www.wikidata.org/entity/Q1985727"
  | Ok (Const CalendarModel.Julian) =>
      s = "https://www.wikidata.org/wiki/Q1985786" \/
      s = "http://www.wikidata.org/entity/Q1985786"
  | Ok _ => False
  | Err e =>
      e = New ("unknown calendar model: " +:+ s) /\
      s <> "https://www.wikidata.org/wiki/Q1985727" /\
      s <> "http://www.wikidata.org/entity/Q1985727" /\
      s <> "https://www.wikidata.org/wiki/Q1985786" /\
      s <> "http://www.wikidata.org/entity/Q1985786"
  end.
Proof.
  unfold CalendarModel.UnmarshalJSON, unmarshalToken.
  cbn [json.string_ mbind result_bind find fst snd].
  token_cases ltac:(first
    [ left; reflexivity | right; reflexivity
    | split; [reflexivity | repeat split; assumption] ]).
Qed.
End EnumFacts.

(** X3.  Each enumeration decoder accepts exactly the tokens its encoder
    writes for the declared constants: a JSON string decodes to a value if
    and only if that value is a declared constant and is encoded as this
    string.  So decoding inverts the encoding of a constant, and the
    tokens are matched exactly, case included.  An integer that is no
    declared constant is written as the empty string, which the decoder
    refuses. *)
Theorem enum_decoders_accept_written_tokens :
  (forall s x, EntityType.UnmarshalJSON (json.Str s) = Ok x
               <-> declared x /\ EntityType.MarshalJSON x = json.Str s) /\
  (forall s x, WikiBaseEntityType.UnmarshalJSON (json.Str s) = Ok x
               <-> declared x /\ WikiBaseEntityType.MarshalJSON x = json.Str s)
  /\
  (forall s x, StatementType.UnmarshalJSON (json.Str s) = Ok x
               <-> declared x /\ StatementType.MarshalJSON x = json.Str s) /\
  (forall s x, StatementRank.UnmarshalJSON (json.Str s) = Ok x
               <-> declared x /\ StatementRank.MarshalJSON x = json.Str s) /\
  (forall s x, SnakType.UnmarshalJSON (json.Str s) = Ok x
               <-> declared x /\ SnakType.MarshalJSON x = json.Str s) /\
  (forall s x, DataType.UnmarshalJSON (json.Str s) = Ok x
               <-> declared x /\ DataType.MarshalJSON x = json.Str s) /\
  (forall x, ~ declared x ->
     EntityType.MarshalJSON x = json.Str "" /\
     EntityType.UnmarshalJSON (EntityType.MarshalJSON x)
     = Err (New "unknown entity type: ")) /\
  (forall x, ~ declared x ->
     WikiBaseEntityType.MarshalJSON x = json.Str "" /\
     WikiBaseEntityType.UnmarshalJSON (WikiBaseEntityType.MarshalJSON x)
     = Err (New "unknown wikibase entity type: ")) /\
  (forall x, ~ declared x ->
     StatementType.MarshalJSON x = json.Str "" /\
     StatementType.UnmarshalJSON (StatementType.MarshalJSON x)
     = Err (New "unknown statement type: ")) /\
  (forall x, ~ declared x ->
     StatementRank.MarshalJSON x = json.Str "" /\
     StatementRank.UnmarshalJSON (StatementRank.MarshalJSON x)
     = Err (New "unknown statement rank: ")) /\
  (forall x, ~ declared x ->
     SnakType.MarshalJSON x = json.Str "" /\
     SnakType.UnmarshalJSON (SnakType.MarshalJSON x)
     = Err (New "unknown snak type: ")) /\
  (forall x, ~ declared x ->
     DataType.MarshalJSON x = json.Str "" /\
     DataType.UnmarshalJSON (DataType.MarshalJSON x)
     = Err (New "unknown data type: ")).
Proof.
  split; [eapply accepts_written; [|exact EntityType_spec];
          intros x y H; destruct x, y; cbv in H; congruence|].
  split; [eapply accepts_written; [|exact WikiBaseEntityType_spec];
          intros x y H; destruct x, y; cbv in H; congruence|].
  split; [eapply accepts_written; [|exact StatementType_spec];
          intros x y H; destruct x, y; cbv in H; congruence|].
  split; [eapply accepts_written; [|exact StatementRank_spec];
          intros x y H; destruct x, y; cbv in H; congruence|].
  split; [eapply accepts_written; [|exact SnakType_spec];
          intros x y H; destruct x, y; cbv in H; congruence|].
  split; [eapply accepts_written; [|exact DataType_spec];
          intros x y H; destruct x, y; cbv in H; congruence|].
  repeat match goal with |- _ /\ _ => split end;
    intros [c| |] H; try (destruct H; exact I); split; reflexivity.
Qed.

(** X4.  A string that is no token of the enumeration is refused with the
    message "unknown <kind>: <string>", and so is JSON [null], which the
    decoders read as the empty string; a JSON value that is neither a
    string nor [null] is refused by the string decoding itself. *)
Theorem enum_decoders_reject_unknown_tokens :
  (forall s,
     (forall x : EntityType.t, EntityType.MarshalJSON x <> json.Str s) ->
     EntityType.UnmarshalJSON (json.Str s)
     = Err (New ("unknown entity type: " +:+ s))) /\
  (forall s,
     (forall x : WikiBaseEntityType.t,
        WikiBaseEntityType.MarshalJSON x <> json.Str s) ->
     WikiBaseEntityType.UnmarshalJSON (json.Str s)
     = Err (New ("unknown wikibase entity type: " +:+ s))) /\
  (forall s,
     (forall x : StatementType.t, StatementType.MarshalJSON x <> json.Str s) ->
     StatementType.UnmarshalJSON (json.Str s)
     = Err (New ("unknown statement type: " +:+ s))) /\
  (forall s,
     (forall x : StatementRank.t, StatementRank.MarshalJSON x <> json.Str s) ->
     StatementRank.UnmarshalJSON (json.Str s)
     = Err (New ("unknown statement rank: " +:+ s))) /\
  (forall s,
     (forall x : SnakType.t, SnakType.MarshalJSON x <> json.Str s) ->
     SnakType.UnmarshalJSON (json.Str s)
     = Err (New ("unknown snak type: " +:+ s))) /\
  (forall s,
     (forall x : DataType.t, DataType.MarshalJSON x <> json.Str s) ->
     DataType.UnmarshalJSON (json.Str s)
     = Err (New ("unknown data type: " +:+ s))) /\
  (EntityType.UnmarshalJSON json.Null = Err (New "unknown entity type: ") /\
   WikiBaseEntityType.UnmarshalJSON json.Null
   = Err (New "unknown wikibase entity type: ") /\
   StatementType.UnmarshalJSON json.Null
   = Err (New "unknown statement type: ") /\
   StatementRank.UnmarshalJSON json.Null
   = Err (New "unknown statement rank: ") /\
   SnakType.UnmarshalJSON json.Null = Err (New "unknown snak type: ") /\
   DataType.UnmarshalJSON json.Null = Err (New "unknown data type: ") /\
   CalendarModel.UnmarshalJSON json.Null
   = Err (New "unknown calendar model: ")) /\
  (forall v : json.value,
     json.kind v <> "string" -> json.kind v <> "null" ->
     EntityType.UnmarshalJSON v
     = Err (UnmarshalTypeError (json.kind v) "string") /\
     WikiBaseEntityType.UnmarshalJSON v
     = Err (UnmarshalTypeError (json.kind v) "string") /\
     StatementType.UnmarshalJSON v
     = Err (UnmarshalTypeError (json.kind v) "string") /\
     StatementRank.UnmarshalJSON v
     = Err (UnmarshalTypeError (json.kind v) "string") /\
     SnakType.UnmarshalJSON v
     = Err (UnmarshalTypeError (json.kind v) "string") /\
     DataType.UnmarshalJSON v
     = Err (UnmarshalTypeError (json.kind v) "string") /\
     CalendarModel.UnmarshalJSON v
     = Err (UnmarshalTypeError (json.kind v) "string")).
Proof.
  split; [exact (rejects_unknown _ _ _ EntityType_spec)|].
  split; [exact (rejects_unknown _ _ _ WikiBaseEntityType_spec)|].
  split; [exact (rejects_unknown _ _ _ StatementType_spec)|].
  split; [exact (rejects_unknown _ _ _ StatementRank_spec)|].
  split; [exact (rejects_unknown _ _ _ SnakType_spec)|].
  split; [exact (rejects_unknown _ _ _ DataType_spec)|].
  split; [repeat split; reflexivity|].
  intros v Hs Hn. destruct v; cbn in Hs, Hn; try congruence;
    repeat split; reflexivity.
Qed.

(** Witness for X4: tokens are matched with their case. *)
Lemma enum_decoders_reject_unknown_tokens_witness :
  EntityType.UnmarshalJSON (json.Str "Item")
  = Err (New "unknown entity type: Item").
Proof.
  apply (proj1 enum_decoders_reject_unknown_tokens "Item").
  intros x; destruct x; discriminate.
Defined.

(** X5.  The calendar decoder accepts two addresses for each calendar, the
    one the encoder writes and the entity address of the dumps, and nothing
    else; so decoding and encoding again replaces the entity address by the
    written one, and leaves the written one as it is.  A declared calendar
    is read back from its encoding; an integer that is no declared calendar
    is written as the empty string, which the decoder refuses. *)
Theorem calendar_model_addresses :
  (forall s,
     CalendarModel.UnmarshalJSON (json.Str s) = Ok CalendarModel.Gregorian
     <-> s = "https://www.wikidata.org/wiki/Q1985727" \/
         s = "http://www.wikidata.org/entity/Q1985727") /\
  (forall s,
     CalendarModel.UnmarshalJSON (json.Str s) = Ok CalendarModel.Julian
     <-> s = "https://www.wikidata.org/wiki/Q1985786" \/
         s = "http://www.wikidata.org/entity/Q1985786") /\
  (forall s,
     s <> "https://www.wikidata.org/wiki/Q1985727" ->
     s <> "http://www.wikidata.org/entity/Q1985727" ->
     s <> "https://www.wikidata.org/wiki/Q1985786" ->
     s <> "http://www.wikidata.org/entity/Q1985786" ->
     CalendarModel.UnmarshalJSON (json.Str s)
     = Err (New ("unknown calendar model: " +:+ s))) /\
  (forall (s : string) (c : enum CalendarModel.t),
     CalendarModel.UnmarshalJSON (json.Str s) = Ok c -> declared c) /\
  (forall c : enum CalendarModel.t,
     declared c ->
     CalendarModel.UnmarshalJSON (CalendarModel.MarshalJSON c) = Ok c) /\
  (forall c : enum CalendarModel.t,
     ~ declared c ->
     CalendarModel.MarshalJSON c = json.Str "" /\
     CalendarModel.UnmarshalJSON (CalendarModel.MarshalJSON c)
     = Err (New "unknown calendar model: ")) /\
  (c ← CalendarModel.UnmarshalJSON
         (json.Str "http://www.wikidata.org/entity/Q1985727");
   Ok (CalendarModel.MarshalJSON c))
  = Ok (json.Str "https://www.wikidata.org/wiki/Q1985727") /\
  (c ← CalendarModel.UnmarshalJSON
         (json.Str "http://www.wikidata.org/entity/Q1985786");
   Ok (CalendarModel.MarshalJSON c))
  = Ok (json.Str "https://www.wikidata.org/wiki/Q1985786").
Proof.
  split; [|split; [|split; [|split; [|split; [|split; [|split;
    reflexivity]]]]]].
  - intros s. pose proof (CalendarModel_spec s) as H. split.
    + intros E. now rewrite E in H.
    + intros [->| ->]; reflexivity.
  - intros s. pose proof (CalendarModel_spec s) as H. split.
    + intros E. now rewrite E in H.
    + intros [->| ->]; reflexivity.
  - intros s H1 H2 H3 H4. pose proof (CalendarModel_spec s) as H.
    destruct (CalendarModel.UnmarshalJSON (json.Str s)) as [[[]| |]|e];
      try contradiction.
    + destruct H; contradiction.
    + destruct H; contradiction.
    + now destruct H as [-> _].
  - intros s c E. pose proof (CalendarModel_spec s) as H. rewrite E in H.
    destruct c as [c| |]; [exact I | contradiction | contradiction].
  - intros [[]| |] H; try contradiction; reflexivity.
  - intros [c| |] H; [destruct H; exact I | split; reflexivity
                     | split; reflexivity].
Qed.

(** Witness for X5: an address with a different host. *)
Lemma calendar_model_addresses_witness :
  CalendarModel.UnmarshalJSON (json.Str "https://example.org/Q1985727")
  = Err (New "unknown calendar model: https://example.org/Q1985727").
Proof.
  apply (proj1 (proj2 (proj2 calendar_model_addresses))
           "https://example.org/Q1985727"); discriminate.
Defined.

(** ** Timestamps, in general *)

Section TimeGeneral.
Import strconv.

(** Below precision [Month] and [Day], [formatTime] does not look at the
    month and the day; it never looks at the nanoseconds. *)
Lemma formatTime_truncated (t : time.Time) (p : TimePrecision) :
  formatTime (truncated t p) p = formatTime t p.
Proof.
  unfold formatTime, truncated.
  cbn [time.Year time.Month time.Day time.Hour time.Minute time.Second].
  destruct (p <? Precision.Month), (p <? Precision.Day); reflexivity.
Qed.

(** [formatTime] distinguishes three levels of precision only. *)
Lemma formatTime_level (t : time.Time) (p : TimePrecision) :
  formatTime t p
  = formatTime t (if p <? Precision.Month then Precision.Year
                  else if p <? Precision.Day then Precision.Month
                       else Precision.Day).
Proof.
  unfold formatTime, Precision.Year, Precision.Month, Precision.Day.
  destruct (Z.ltb_spec p 10); [destruct (Z.ltb_spec p 11); [reflexivity|lia]|].
  destruct (Z.ltb_spec p 11); reflexivity.
Qed.

Lemma daysIn_ge_1 (y m : Z) : 1 <= time.daysIn y m.
Proof.
  unfold time.daysIn. destruct (m =? 2); [destruct (time.isLeap y); lia|].
  destruct ((m =? 4) || (m =? 6) || (m =? 9) || (m =? 11)); lia.
Qed.

Lemma parse_format_truncated (t : time.Time) (p : TimePrecision) :
  civil_time t -> parseTime (formatTime t p) = Ok (truncated t p).
Proof.
  intros (HY & HM & HD & Hh & Hmi & Hs).
  set (q := if p <? Precision.Month then Precision.Year
            else if p <? Precision.Day then Precision.Month
                 else Precision.Day).
  assert (Htr : truncated t p = truncated t q).
  { unfold truncated, q, Precision.Year, Precision.Month, Precision.Day.
    destruct (Z.ltb_spec p 10); [destruct (Z.ltb_spec p 11); [reflexivity|lia]|].
    destruct (Z.ltb_spec p 11); reflexivity. }
  rewrite (formatTime_level t p). fold q. rewrite Htr.
  rewrite <- (formatTime_truncated t q).
  apply (parse_format
           (TimeValue.mk (truncated t q) q CalendarModel.Gregorian)).
  unfold decoded_time, truncated.
  cbn [TimeValue.Time TimeValue.Precision time.Year time.Month time.Day
       time.Hour time.Minute time.Second time.Nanosecond].
  pose proof (daysIn_ge_1 (time.Year t) 1) as Hd1.
  pose proof (daysIn_ge_1 (time.Year t) (time.Month t)) as Hd2.
  assert (Hq : q = 9 \/ q = 10 \/ q = 11).
  { unfold q, Precision.Year, Precision.Month, Precision.Day.
    destruct (p <? 10); [lia|]. destruct (p <? 11); lia. }
  unfold Precision.Month, Precision.Day, Int.min_int, Int.max_int.
  clearbody q.
  destruct Hq as [Hq | [Hq | Hq]]; subst q;
    repeat match goal with
      | |- context [Z.ltb ?a ?b] =>
          let v := eval vm_compute in (Z.ltb a b) in
          change (Z.ltb a b) with v
      end; cbv iota;
    (split; [exact HY|]); repeat split; try lia; try reflexivity;
    intros; lia.
Qed.

(** The clock that [time.Date] returns is always in range. *)
Lemma Date_clock (year month day hour min sec : Z) :
  let t := time.Date year month day hour min sec 0 in
  0 <= time.Hour t < 24 /\ 0 <= time.Minute t < 60 /\
  0 <= time.Second t < 60 /\ time.Nanosecond t = 0.
Proof.
  unfold time.Date, time.norm. cbv zeta.
  change (0 / 1000000000) with 0. change (0 mod 1000000000) with 0.
  pose proof (Z.mod_pos_bound (sec + 0) 60 ltac:(lia)).
  pose proof (Z.mod_pos_bound (min + (sec + 0) / 60) 60 ltac:(lia)).
  pose proof (Z.mod_pos_bound (hour + (min + (sec + 0) / 60) / 60) 24
                ltac:(lia)).
  destruct ((1 <=? _) && (_ <=? _)).
  - cbn [time.Hour time.Minute time.Second time.Nanosecond]. lia.
  - destruct (time.civilFromDays _) as [[y m] d].
    cbn [time.Hour time.Minute time.Second time.Nanosecond]. lia.
Qed.

(** The two-digit fields of a match never make [parseTime] fail. *)
Lemma parseTime_match (t : string) (m : timeMatch) :
  timeRegex t = Some m ->
  parseTime t
  = match ParseInt (m_year m) with
    | Err e =>
        Err (WithMessage ("unable to parse year " +:+ dq +:+ t +:+ dq) e)
    | Ok y =>
        if y =? 0 then Err (New "year cannot be 0")
        else Ok (time.Date (stored_year y)
                   (one_if_zero (field_value (m_month m)))
                   (one_if_zero (field_value (m_day m)))
                   (field_value (m_hour m)) (field_value (m_minute m))
                   (field_value (m_second m)) 0)
    end.
Proof.
  intros Hre. unfold parseTime. rewrite Hre.
  destruct (timeRegex_inv t m Hre)
    as (sign & ds & m1 & m2 & d1 & d2 & h1 & h2 & n1 & n2 & s1 & s2
        & _ & -> & Hsign & Hds & _ & Hm & Hd & Hh & Hn & Hs).
  cbn [m_year m_month m_day m_hour m_minute m_second].
  unfold parseField. rewrite !ParseInt_two by assumption.
  destruct (ParseInt (String sign ds)) as [y|e] eqn:Hy; [|reflexivity].
  destruct (ParseInt_signed sign ds y Hsign Hds Hy) as [_ Hrange].
  cbn [mbind result_bind].
  unfold stored_year, one_if_zero.
  destruct (Z.ltb_spec y 0).
  - rewrite incr_small by (unfold Int.max_int in *; lia).
    destruct (Z.eqb_spec y 0); [lia|]. reflexivity.
  - destruct (Z.eqb_spec y 0); reflexivity.
Qed.

Lemma parseTime_clock (t : string) (tm : time.Time) :
  parseTime t = Ok tm ->
  0 <= time.Hour tm < 24 /\ 0 <= time.Minute tm < 60 /\
  0 <= time.Second tm < 60 /\ time.Nanosecond tm = 0.
Proof.
  intros Hp. destruct (timeRegex t) as [m|] eqn:Hre.
  - rewrite (parseTime_match t m Hre) in Hp.
    destruct (ParseInt (m_year m)) as [y|e]; [|discriminate].
    destruct (y =? 0); [discriminate|]. injection Hp as <-.
    apply Date_clock.
  - unfold parseTime in Hp. rewrite Hre in Hp. discriminate.
Qed.
End TimeGeneral.

(** X6.  Writing a time and reading it back keeps what the precision
    covers: for a calendar date and time of day [t], [parseTime] accepts
    what [formatTime] writes at any precision and returns [t] with month 1
    below precision [Month], day 1 below precision [Day] and no fraction of
    a second; writing that result again gives the same text, so the text is
    stable from the first encoding on. *)
Theorem format_then_parse (t : time.Time) (p : TimePrecision) :
  civil_time t ->
  parseTime (formatTime t p) = Ok (truncated t p) /\
  formatTime (truncated t p) p = formatTime t p /\
  truncated (truncated t p) p = truncated t p.
Proof.
  intros Ht. split; [now apply parse_format_truncated|].
  split; [apply formatTime_truncated|].
  unfold truncated.
  cbn [time.Year time.Month time.Day time.Hour time.Minute time.Second].
  destruct (p <? Precision.Month), (p <? Precision.Day); reflexivity.
Qed.

(** Witness for X6: noon of 15 June 1950 at precision [Month]. *)
Lemma format_then_parse_witness :
  formatTime (time.mkTime 1950 6 15 12 0 0 123) Precision.Month
  = "+1950-06-00T12:00:00Z" /\
  parseTime (formatTime (time.mkTime 1950 6 15 12 0 0 123) Precision.Month)
  = Ok (time.mkTime 1950 6 1 12 0 0 0).
Proof.
  split; [reflexivity|].
  apply (format_then_parse (time.mkTime 1950 6 15 12 0 0 123)
           Precision.Month).
  unfold civil_time, time.representable. cbn. lia.
Defined.

(** X7.  [parseTime] fails in three ways only: the text does not have the
    shape of a timestamp, its year does not fit a Go [int], or its year is
    0.  The month, day, hour, minute and second fields are never refused:
    whatever two digits they hold, the result is [time.Date] of the fields,
    which carries the excess over (month 13 is January of the next year),
    with a month or day of [00] read as 1 and a negative year moved up by
    one; its clock is in range and it has no fraction of a second. *)
Theorem parseTime_fails_only_on_shape_and_year :
  (forall t : string,
     timeRegex t = None ->
     parseTime t
     = Err (New ("unable to parse time " +:+ strconv.dq +:+ t
                   +:+ strconv.dq))) /\
  (forall (t : string) (m : timeMatch),
     timeRegex t = Some m ->
     parseTime t
     = match strconv.ParseInt (m_year m) with
       | Err e =>
           Err (WithMessage
                  ("unable to parse year " +:+ strconv.dq +:+ t
                     +:+ strconv.dq) e)
       | Ok y =>
           if y =? 0 then Err (New "year cannot be 0")
           else Ok (time.Date (stored_year y)
                      (one_if_zero (field_value (m_month m)))
                      (one_if_zero (field_value (m_day m)))
                      (field_value (m_hour m)) (field_value (m_minute m))
                      (field_value (m_second m)) 0)
       end) /\
  (forall (t : string) (tm : time.Time),
     parseTime t = Ok tm ->
     0 <= time.Hour tm < 24 /\ 0 <= time.Minute tm < 60 /\
     0 <= time.Second tm < 60 /\ time.Nanosecond tm = 0).
Proof.
  split; [|split].
  - intros t Hre. unfold parseTime. now rewrite Hre.
  - exact parseTime_match.
  - exact parseTime_clock.
Qed.

(** Witness for X7: the thirtieth of February at 24:60:60. *)
Lemma parseTime_fails_only_on_shape_and_year_witness :
  parseTime "+2023-02-30T24:60:60Z" = Ok (time.mkTime 2023 3 3 1 1 0 0).
Proof.
  rewrite (proj1 (proj2 parseTime_fails_only_on_shape_and_year)
             "+2023-02-30T24:60:60Z"
             (mkMatch "+2023" "02" "30" "24" "60" "60") eq_refl).
  reflexivity.
Defined.

(** ** Time values and data values, in general *)

Section DataValueGeneral.

Lemma TimeValue_decode_fields (t : string) (p : TimePrecision)
    (c : CalendarModel.t) :
  Int.min_int <= p <= Int.max_int ->
  TimeValue.UnmarshalJSON
    (json.Obj [("time", json.Str t); ("precision", json.Num p);
               ("calendarmodel", CalendarModel.MarshalJSON c)])
  = (tm ← parseTime t; Ok (TimeValue.mk tm p c)).
Proof.
  intros Hp. unfold TimeValue.UnmarshalJSON, json.object.
  cbn -[parseTime].
  destruct (Z.leb_spec Int.min_int p); [|lia].
  destruct (Z.leb_spec p Int.max_int); [|lia].
  destruct c; reflexivity.
Qed.

(** A strict decoder that succeeds has met known members only. *)
Lemma strict_members {T : Type} (goType : string) (fields : list string)
    (set : string -> json.value -> T -> result T)
    (members : list (string * json.value)) (cur r : T) :
  json.object true goType fields set (json.Obj members) cur = Ok r ->
  Forall (fun kv => json.field fields kv.1 <> None) members.
Proof.
  unfold json.object. revert cur.
  induction members as [|[k x] ms IH]; intros cur H; [constructor|].
  cbn [json.foldM] in H.
  destruct (json.field fields k) as [f|] eqn:Hf; [|discriminate H].
  destruct (set f x cur) as [s|e]; [|discriminate H].
  cbn [mbind result_bind] in H. constructor.
  - cbn. rewrite Hf. discriminate.
  - now apply (IH s).
Qed.

Lemma payload_members {X : Type} (inner : json.value -> X -> result X)
    (zero x : X) (members : list (string * json.value)) :
  DataValue.payload inner zero (json.Obj members) = Ok x ->
  Forall (fun kv => json.field ["type"; "value"] kv.1 <> None) members.
Proof.
  unfold DataValue.payload. intros H.
  destruct (json.object true _ _ _ _ _) as [s|e] eqn:E; [|discriminate H].
  now apply strict_members in E.
Qed.
End DataValueGeneral.

(** X8.  A time value whose calendar is a declared one, written by
    [TimeValue.MarshalJSON], is read back by [TimeValue.UnmarshalJSON], and
    by the decoder of a data value, as the same value truncated to its
    precision (month 1 below [Month], day 1 below [Day], no fraction of a
    second), with the same precision and calendar; the truncated value is
    written as the original was. *)
Theorem time_value_decodes_truncated (v : TimeValue.t) :
  civil_time (TimeValue.Time v) ->
  Int.min_int <= TimeValue.Precision v <= Int.max_int ->
  declared (TimeValue.Calendar v) ->
  let kept :=
    TimeValue.mk (truncated (TimeValue.Time v) (TimeValue.Precision v))
      (TimeValue.Precision v) (TimeValue.Calendar v) in
  TimeValue.UnmarshalJSON (TimeValue.MarshalJSON v) = Ok kept /\
  (b ← DataValue.MarshalJSON (DataValue.mk (Some (DataValue.TimeValue v)));
   DataValue.UnmarshalJSON b)
  = Ok (DataValue.mk (Some (DataValue.TimeValue kept))) /\
  TimeValue.MarshalJSON kept = TimeValue.MarshalJSON v.
Proof.
  intros Ht Hp Hc kept. destruct v as [t p c].
  cbn [TimeValue.Time TimeValue.Precision TimeValue.Calendar] in *.
  split; [|split].
  - unfold TimeValue.MarshalJSON.
    cbn [TimeValue.Time TimeValue.Precision TimeValue.Calendar].
    rewrite formatTime_ascii.
    destruct c as [c| |]; try contradiction.
    rewrite (TimeValue_decode_fields _ p c Hp).
    now rewrite (parse_format_truncated t p Ht).
  - cbn [DataValue.MarshalJSON DataValue.Value mbind result_bind].
    rewrite (UnmarshalJSON_time _ _ (header_tagged "time" _)
               (payload_tagged _ _ _ _ _
                  (timewire_roundtrip (TimeValue.mk t p c) Hp Hc))).
    cbn [TimeValue.w_Time TimeValue.w_Precision TimeValue.w_Calendar
         TimeValue.Time TimeValue.Precision TimeValue.Calendar].
    now rewrite (parse_format_truncated t p Ht).
  - unfold TimeValue.MarshalJSON, kept.
    cbn [TimeValue.Time TimeValue.Precision TimeValue.Calendar].
    now rewrite formatTime_truncated.
Qed.

(** Witness for X8: 15 June 1950 in the Julian calendar, to the year. *)
Lemma time_value_decodes_truncated_witness :
  TimeValue.UnmarshalJSON
    (TimeValue.MarshalJSON
       (TimeValue.mk (time.mkTime 1950 6 15 0 0 0 0) Precision.Year
          CalendarModel.Julian))
  = Ok (TimeValue.mk (time.mkTime 1950 1 1 0 0 0 0) Precision.Year
          CalendarModel.Julian).
Proof.
  apply (time_value_decodes_truncated
           (TimeValue.mk (time.mkTime 1950 6 15 0 0 0 0) Precision.Year
              CalendarModel.Julian)).
  - unfold civil_time, time.representable. cbn. lia.
  - cbn. unfold Int.min_int, Int.max_int, Precision.Year. lia.
  - exact I.
Defined.

(** X9.  [TimeValue.UnmarshalJSON] on its own returns the failure of
    [parseTime] as its error, where the decoder of a data value turns it
    into an error value: a time text that does not parse makes the method
    fail, whatever the precision and the calendar are. *)
Theorem time_value_parse_failure_is_hard (t : string) (p : TimePrecision)
    (c : CalendarModel.t) (e : error) :
  Int.min_int <= p <= Int.max_int ->
  parseTime t = Err e ->
  TimeValue.UnmarshalJSON
    (json.Obj [("time", json.Str t); ("precision", json.Num p);
               ("calendarmodel", CalendarModel.MarshalJSON c)])
  = Err e /\
  DataValue.UnmarshalJSON (time_object t p c)
  = Ok (DataValue.mk (Some (DataValue.ErrorValue (Error e)))).
Proof.
  intros Hp He. split.
  - rewrite (TimeValue_decode_fields t p c Hp), He. reflexivity.
  - rewrite (UnmarshalJSON_time _ _ (header_time_object t p c)
               (payload_time_object t p c Hp)).
    cbn [TimeValue.w_Time]. now rewrite He.
Qed.

(** Witness for X9: a date without a time of day. *)
Lemma time_value_parse_failure_is_hard_witness :
  TimeValue.UnmarshalJSON
    (json.Obj [("time", json.Str "+1950-01-01"); ("precision", json.Num 11);
               ("calendarmodel",
                CalendarModel.MarshalJSON CalendarModel.Gregorian)])
  = Err (New ("unable to parse time " +:+ strconv.dq +:+ "+1950-01-01"
                +:+ strconv.dq)).
Proof.
  apply (time_value_parse_failure_is_hard "+1950-01-01" 11
           CalendarModel.Gregorian).
  - unfold Int.min_int, Int.max_int. lia.
  - reflexivity.
Defined.

(** X10.  [DataValue.MarshalJSON] fails in three cases only: the value is
    the [nil] interface, its dynamic type is none of the seven of the
    [switch] (a pointer to a [TimeValue], say), or it is a coordinate one
    of whose three numbers is not finite.  In the first two cases the
    error is "unknown data value type: " followed by what [%+v] prints for
    the value. *)
Theorem data_value_encoding_fails_only_on_nil_and_nan (d : DataValue.t) :
  (is_ok (DataValue.MarshalJSON d) = true
   <-> match DataValue.Value d with
       | None => False
       | Some (DataValue.OtherValue _) => False
       | Some (DataValue.GlobeCoordinateValue g) =>
           json.finite (GlobeCoordinateValue.Latitude g) = true /\
           json.finite (GlobeCoordinateValue.Longitude g) = true /\
           json.finite (GlobeCoordinateValue.Precision g) = true
       | Some _ => True
       end) /\
  (DataValue.Value d = None ->
   DataValue.MarshalJSON d = Err (New "unknown data value type: <nil>")) /\
  (forall text : string,
     DataValue.Value d = Some (DataValue.OtherValue text) ->
     DataValue.MarshalJSON d
     = Err (New ("unknown data value type: " +:+ text))).
Proof.
  split; [|split].
  - destruct d as [[v|]]; unfold DataValue.MarshalJSON;
      cbn [DataValue.Value]; [|split; [discriminate | contradiction]].
    destruct v as [e|s|v|g|v|q|t|o];
      try (split; [exact (fun _ => I)|reflexivity]);
      [|split; [discriminate | contradiction]].
    unfold GlobeCoordinateValue.MarshalJSON, json.of_float.
    destruct (json.finite (GlobeCoordinateValue.Latitude g)),
      (json.finite (GlobeCoordinateValue.Longitude g)),
      (json.finite (GlobeCoordinateValue.Precision g)); cbn;
      split; try discriminate; try tauto; intros (? & ? & ?); discriminate.
  - intros H. unfold DataValue.MarshalJSON. now rewrite H.
  - intros text H. unfold DataValue.MarshalJSON. now rewrite H.
Qed.

(** X11.  Whatever [DataValue.UnmarshalJSON] accepts, the value it stores
    is never the [nil] interface: it is one of the seven kinds of value,
    and a time value among them has a clock in range and no fraction of a
    second. *)
Theorem data_value_decoding_never_nil (b : json.value) (d : DataValue.t) :
  DataValue.UnmarshalJSON b = Ok d ->
  exists v,
    DataValue.Value d = Some v /\
    match v with
    | DataValue.TimeValue tv =>
        let tm := TimeValue.Time tv in
        0 <= time.Hour tm < 24 /\ 0 <= time.Minute tm < 60 /\
        0 <= time.Second tm < 60 /\ time.Nanosecond tm = 0
    | DataValue.OtherValue _ => False
    | _ => True
    end.
Proof.
  intros H. unfold DataValue.UnmarshalJSON in H.
  destruct (DataValue.header b) as [[ty er]|e]; [|discriminate H].
  cbn [mbind result_bind] in H.
  destruct (negb (String.eqb er "")).
  { injection H as <-. eexists. split; [reflexivity | exact I]. }
  destruct (String.eqb ty "string").
  { destruct (DataValue.payload json.string_ _ b); [|discriminate H].
    injection H as <-. eexists. split; [reflexivity | exact I]. }
  destruct (String.eqb ty "wikibase-entityid").
  { destruct (DataValue.payload DataValue.entityid _ b) as [[[? ?] ?]|];
      [|discriminate H].
    injection H as <-. eexists. split; [reflexivity | exact I]. }
  destruct (String.eqb ty "globecoordinate").
  { destruct (DataValue.payload DataValue.globe _ b) as [[[[[? ?] ?] ?] ?]|];
      [|discriminate H].
    injection H as <-. eexists. split; [reflexivity | exact I]. }
  destruct (String.eqb ty "monolingualtext").
  { destruct (DataValue.payload (MonolingualTextValue.decode true) _ b);
      [|discriminate H].
    injection H as <-. eexists. split; [reflexivity | exact I]. }
  destruct (String.eqb ty "quantity").
  { destruct (DataValue.payload (QuantityValue.decode true) _ b);
      [|discriminate H].
    injection H as <-. eexists. split; [reflexivity | exact I]. }
  destruct (String.eqb ty "time"); [|discriminate H].
  destruct (DataValue.payload DataValue.timewire _ b) as [w|];
    [|discriminate H].
  cbn [mbind result_bind] in H.
  destruct (parseTime (TimeValue.w_Time w)) as [tm|e] eqn:Hp.
  - injection H as <-. eexists. split; [reflexivity|].
    cbn [TimeValue.Time].
    exact (parseTime_clock _ _ Hp).
  - injection H as <-. eexists. split; [reflexivity | exact I].
Qed.

(** Witness for X11: a string value. *)
Lemma data_value_decoding_never_nil_witness :
  DataValue.UnmarshalJSON (DataValue.tagged "string" (json.Str "x"))
  = Ok (DataValue.mk (Some (DataValue.StringValue "x"))) /\
  exists v,
    DataValue.Value (DataValue.mk (Some (DataValue.StringValue "x")))
    = Some v.
Proof.
  split; [reflexivity|].
  destruct (data_value_decoding_never_nil
              (DataValue.tagged "string" (json.Str "x"))
              (DataValue.mk (Some (DataValue.StringValue "x"))) eq_refl)
    as (v & Hv & _).
  exists v. exact Hv.
Defined.

(** X12.  A data value object without a non-empty error whose
    discriminator is none of the six known ones, or is missing, is refused
    with the message "unknown data value type" naming the discriminator. *)
Theorem data_value_unknown_type (b : json.value) (type : string) :
  DataValue.header b = Ok (type, "") ->
  type ∉ ["string"; "wikibase-entityid"; "globecoordinate";
          "monolingualtext"; "quantity"; "time"] ->
  DataValue.UnmarshalJSON b
  = Err (WithDocument ("unknown data value type " +:+ strconv.dq +:+ type
                         +:+ strconv.dq +:+ ": ")).
Proof.
  intros Hh Hty. unfold DataValue.UnmarshalJSON. rewrite Hh.
  cbn [mbind result_bind String.eqb negb].
  repeat match goal with
    | |- context [String.eqb type ?t] =>
        destruct (String.eqb_spec type t) as [->|?];
        [exfalso; apply Hty; set_solver|]
    end.
  reflexivity.
Qed.

(** Witness for X12: an object with a value and no discriminator, and the
    discriminator of another casing. *)
Lemma data_value_unknown_type_witness :
  DataValue.UnmarshalJSON (json.Obj [("value", json.Str "x")])
  = Err (WithDocument ("unknown data value type " +:+ strconv.dq
                         +:+ strconv.dq +:+ ": ")) /\
  DataValue.UnmarshalJSON
    (json.Obj [("type", json.Str "String"); ("value", json.Str "x")])
  = Err (WithDocument ("unknown data value type " +:+ strconv.dq
                         +:+ "String" +:+ strconv.dq +:+ ": ")).
Proof.
  split.
  - apply (data_value_unknown_type (json.Obj [("value", json.Str "x")]) "");
      [reflexivity|].
    intros H. repeat (apply elem_of_cons in H as [H|H]; [discriminate H|]).
    now apply elem_of_nil in H.
  - apply (data_value_unknown_type
             (json.Obj [("type", json.Str "String"); ("value", json.Str "x")])
             "String"); [reflexivity|].
    intros H. repeat (apply elem_of_cons in H as [H|H]; [discriminate H|]).
    now apply elem_of_nil in H.
Defined.

Section StrictFacts.

(** Keys are folded as the library folds them: the case of ASCII letters
    does not count, U+017F names [s] and U+212A names [k]; nothing else
    does. *)
Lemma field_folds_unicode :
  json.field ["time"; "precision"]
    ("preci" +:+ String "197" (String "191" "ion")) = Some "precision" /\
  json.field ["id"; "claims"] ("claim" +:+ String "197" (String "191" ""))
  = Some "claims" /\
  json.field ["snaktype"]
    ("sna" +:+ String "226" (String "132" (String "170" "type")))
  = Some "snaktype" /\
  json.field ["id"; "claims"] "CLAIMS" = Some "claims" /\
  json.field ["id"; "claims"] "claimz" = None.
Proof. repeat split; reflexivity. Qed.

(** Each known member of an object that decodes was stored without
    error. *)
Lemma object_each {T : Type} (strict : bool) (goType : string)
    (fields : list string) (set : string -> json.value -> T -> result T)
    (members : list (string * json.value)) (cur r : T) (k f : string)
    (x : json.value) :
  json.object strict goType fields set (json.Obj members) cur = Ok r ->
  In (k, x) members -> json.field fields k = Some f ->
  exists s s', set f x s = Ok s'.
Proof.
  unfold json.object. revert cur.
  induction members as [|[k' x'] ms IH]; intros cur H Hin Hf; [destruct Hin|].
  cbn [json.foldM] in H.
  destruct Hin as [[= -> ->]|Hin].
  - rewrite Hf in H. destruct (set f x cur) as [s|e] eqn:E; [|discriminate H].
    now exists cur, s.
  - destruct (match json.field fields k' with
              | Some f0 => set f0 x' cur
              | None => if strict then Err (UnknownField k') else Ok cur
              end) as [s|e]; [|discriminate H].
    cbn [mbind result_bind] in H. now apply (IH s).
Qed.

Lemma payload_value {X : Type} (inner : json.value -> X -> result X)
    (zero x : X) (members : list (string * json.value)) (k : string)
    (v : json.value) :
  DataValue.payload inner zero (json.Obj members) = Ok x ->
  In (k, v) members -> json.field ["type"; "value"] k = Some "value" ->
  exists cur r, inner v cur = Ok r.
Proof.
  unfold DataValue.payload. intros H Hin Hf.
  destruct (json.object true _ _ _ _ _) as [s|e] eqn:E; [|discriminate H].
  destruct (object_each _ _ _ _ _ _ _ _ _ _ E Hin Hf) as (s1 & s2 & Hs).
  cbn [String.eqb Ascii.eqb Bool.eqb] in Hs.
  destruct (inner v s1.2) as [r|] eqn:Hi; [|discriminate Hs].
  now exists s1.2, r.
Qed.
End StrictFacts.

(** X13.  The decoder of a data value is strict at both levels.  When an
    object without a non-empty error is accepted, each of its members names
    [type] or [value], and each member of the object under [value] names a
    field of the struct for its discriminator: one unknown member anywhere
    makes the decoder fail. *)
Theorem data_value_refuses_unknown_members
    (members : list (string * json.value)) (type : string)
    (d : DataValue.t) :
  DataValue.header (json.Obj members) = Ok (type, "") ->
  DataValue.UnmarshalJSON (json.Obj members) = Ok d ->
  Forall (fun kv => json.field ["type"; "value"] kv.1 <> None) members /\
  forall (k : string) (inner : list (string * json.value)),
    In (k, json.Obj inner) members ->
    json.field ["type"; "value"] k = Some "value" ->
    Forall (fun kv => json.field (value_fields type) kv.1 <> None) inner.
Proof.
  intros Hh H. unfold DataValue.UnmarshalJSON in H. rewrite Hh in H.
  cbn [mbind result_bind String.eqb negb] in H. unfold value_fields.
  destruct (String.eqb type "string").
  { destruct (DataValue.payload json.string_ _ _) as [x|] eqn:E;
      [|discriminate H].
    split; [now apply payload_members in E|]. intros k inner Hin Hk.
    destruct (payload_value _ _ _ _ _ _ E Hin Hk) as (c & r & Hr).
    discriminate Hr. }
  destruct (String.eqb type "wikibase-entityid").
  { destruct (DataValue.payload DataValue.entityid _ _) as [x|] eqn:E;
      [|discriminate H].
    split; [now apply payload_members in E|]. intros k inner Hin Hk.
    destruct (payload_value _ _ _ _ _ _ E Hin Hk) as (c & r & Hr).
    now apply strict_members in Hr. }
  destruct (String.eqb type "globecoordinate").
  { destruct (DataValue.payload DataValue.globe _ _) as [x|] eqn:E;
      [|discriminate H].
    split; [now apply payload_members in E|]. intros k inner Hin Hk.
    destruct (payload_value _ _ _ _ _ _ E Hin Hk) as (c & r & Hr).
    now apply strict_members in Hr. }
  destruct (String.eqb type "monolingualtext").
  { destruct (DataValue.payload (MonolingualTextValue.decode true) _ _)
      as [x|] eqn:E; [|discriminate H].
    split; [now apply payload_members in E|]. intros k inner Hin Hk.
    destruct (payload_value _ _ _ _ _ _ E Hin Hk) as (c & r & Hr).
    now apply strict_members in Hr. }
  destruct (String.eqb type "quantity").
  { destruct (DataValue.payload (QuantityValue.decode true) _ _)
      as [x|] eqn:E; [|discriminate H].
    split; [now apply payload_members in E|]. intros k inner Hin Hk.
    destruct (payload_value _ _ _ _ _ _ E Hin Hk) as (c & r & Hr).
    now apply strict_members in Hr. }
  destruct (String.eqb type "time"); [|discriminate H].
  destruct (DataValue.payload DataValue.timewire _ _) as [x|] eqn:E;
    [|discriminate H].
  split; [now apply payload_members in E|]. intros k inner Hin Hk.
  destruct (payload_value _ _ _ _ _ _ E Hin Hk) as (c & r & Hr).
  now apply strict_members in Hr.
Qed.

(** Witness for X13: a monolingual text as the dumps have it. *)
Lemma data_value_refuses_unknown_members_witness :
  Forall (fun kv => json.field ["type"; "value"] kv.1 <> None)
    [("value", json.Obj [("text", json.Str "Universum");
                         ("language", json.Str "de")]);
     ("type", json.Str "monolingualtext")] /\
  is_ok (DataValue.UnmarshalJSON
           (json.Obj
              [("value", json.Obj [("text", json.Str "Universum");
                                   ("language", json.Str "de");
                                   ("script", json.Str "Latn")]);
               ("type", json.Str "monolingualtext")])) = false.
Proof.
  split; [|reflexivity].
  apply (data_value_refuses_unknown_members
           [("value", json.Obj [("text", json.Str "Universum");
                                ("language", json.Str "de")]);
            ("type", json.Str "monolingualtext")]
           "monolingualtext"
           (DataValue.mk
              (Some (DataValue.MonolingualTextValue
                       (MonolingualTextValue.mk "de" "Universum")))));
    reflexivity.
Defined.

(** X14.  The members the decoder of a data value is written to ignore are
    dropped: [numeric-id] of an entity id, [altitude] of a coordinate, and
    [timezone], [before] and [after] of a time leave no trace in the
    decoded value, whatever they hold. *)
Theorem data_value_drops_ignored_members :
  (forall (ty : WikiBaseEntityType.t) (id : string) (numeric : Z),
     Int.min_int <= numeric <= Int.max_int ->
     DataValue.UnmarshalJSON
       (DataValue.tagged "wikibase-entityid"
          (json.Obj [("entity-type", WikiBaseEntityType.MarshalJSON ty);
                     ("numeric-id", json.Num numeric);
                     ("id", json.Str id)]))
     = Ok (DataValue.mk
             (Some (DataValue.WikiBaseEntityIDValue
                      (WikiBaseEntityIDValue.mk ty id))))) /\
  (forall (lat lon prec : float) (altitude : json.value) (globe : string),
     is_ok (json.float64 altitude 0%float) = true ->
     DataValue.UnmarshalJSON
       (DataValue.tagged "globecoordinate"
          (json.Obj [("latitude", json.Flt lat); ("longitude", json.Flt lon);
                     ("altitude", altitude); ("precision", json.Flt prec);
                     ("globe", json.Str globe)]))
     = Ok (DataValue.mk
             (Some (DataValue.GlobeCoordinateValue
                      (GlobeCoordinateValue.mk lat lon prec globe))))) /\
  (forall (t : string) (p : TimePrecision) (c : CalendarModel.t)
          (timezone before after : Z),
     Int.min_int <= p <= Int.max_int ->
     Int.min_int <= timezone <= Int.max_int ->
     Int.min_int <= before <= Int.max_int ->
     Int.min_int <= after <= Int.max_int ->
     DataValue.UnmarshalJSON
       (DataValue.tagged "time"
          (json.Obj [("time", json.Str t); ("timezone", json.Num timezone);
                     ("before", json.Num before); ("after", json.Num after);
                     ("precision", json.Num p);
                     ("calendarmodel", CalendarModel.MarshalJSON c)]))
     = DataValue.UnmarshalJSON (time_object t p c)).
Proof.
  split; [|split].
  - intros ty id numeric Hn. unfold DataValue.UnmarshalJSON.
    rewrite header_tagged.
    cbn [mbind result_bind String.eqb Ascii.eqb Bool.eqb negb].
    rewrite (payload_tagged _ _ (Const ty, id, numeric)); [reflexivity|].
    unfold DataValue.entityid, json.object. destruct ty; cbn;
      destruct (Z.leb_spec Int.min_int numeric); try lia;
      destruct (Z.leb_spec numeric Int.max_int); try lia; reflexivity.
  - intros lat lon prec altitude globe Halt. unfold DataValue.UnmarshalJSON.
    rewrite header_tagged.
    cbn [mbind result_bind String.eqb Ascii.eqb Bool.eqb negb].
    destruct (json.float64 altitude 0%float) as [alt|] eqn:Ha;
      [|discriminate Halt].
    rewrite (payload_tagged _ _ (lat, lon, alt, prec, globe)); [reflexivity|].
    unfold DataValue.globe, json.object.
    destruct altitude; try discriminate Ha; cbn -[json.float_of_Z json.finite];
      cbn -[json.float_of_Z json.finite] in Ha.
    + injection Ha as <-. reflexivity.
    + destruct (json.finite (json.float_of_Z z)); [|discriminate Ha].
      injection Ha as <-. reflexivity.
    + injection Ha as <-. reflexivity.
  - intros t p c tz bf af Hp Htz Hbf Haf.
    rewrite (UnmarshalJSON_time _ (TimeValue.mkWire t p c tz bf af)
               (header_tagged "time" _)).
    + rewrite (UnmarshalJSON_time _ _ (header_time_object t p c)
                 (payload_time_object t p c Hp)).
      reflexivity.
    + apply payload_tagged. unfold DataValue.timewire, json.object. cbn.
      repeat match goal with
        | |- context [Z.leb ?a ?b] => destruct (Z.leb_spec a b); try lia
        end.
      cbn. destruct c; reflexivity.
Qed.

(** Witness for X14: a coordinate of the dumps, its altitude [null]. *)
Lemma data_value_drops_ignored_members_witness :
  DataValue.UnmarshalJSON
    (DataValue.tagged "globecoordinate"
       (json.Obj [("latitude", json.Flt 52.5%float);
                  ("longitude", json.Flt 13.25%float);
                  ("altitude", json.Null);
                  ("precision", json.Flt 0.5%float);
                  ("globe", json.Str "http://www.wikidata.org/entity/Q2")]))
  = Ok (DataValue.mk
          (Some (DataValue.GlobeCoordinateValue
                   (GlobeCoordinateValue.mk 52.5%float 13.25%float 0.5%float
                      "http://www.wikidata.org/entity/Q2")))).
Proof.
  apply (proj1 (proj2 data_value_drops_ignored_members)). reflexivity.
Defined.

(** ** Snaks, references and statements *)

Section StructGeneral.

(** A decoder that is not strict passes over a member naming no field. *)
Lemma object_skip {T : Type} (goType : string) (fields : list string)
    (set : string -> json.value -> T -> result T)
    (pre post : list (string * json.value)) (k : string) (x : json.value)
    (s : T) :
  json.field fields k = None ->
  json.object false goType fields set (json.Obj (pre ++ (k, x) :: post)) s
  = json.object false goType fields set (json.Obj (pre ++ post)) s.
Proof.
  intros Hk. rewrite !object_app.
  destruct (json.object false goType fields set (json.Obj pre) s) as [s'|e];
    [|reflexivity].
  cbn [mbind result_bind]. unfold json.object. cbn [json.foldM].
  rewrite Hk. reflexivity.
Qed.
End StructGeneral.

(** X15.  A data value in the form the decoder produces is encoded, and
    decoding the document gives it back: this holds for each of the seven
    kinds of value, its strings being valid UTF-8, the type of an entity
    id and the calendar of a time being declared constants, an error value
    being non-empty, the numbers of a coordinate finite, an amount and its
    bounds with a finite decimal expansion, and a time value truncated to
    its precision. *)
Theorem data_value_roundtrip (d : DataValue.t) :
  valid_datavalue d ->
  exists doc,
    DataValue.MarshalJSON d = Ok doc /\ DataValue.UnmarshalJSON doc = Ok d.
Proof. exact (DataValue_roundtrip d). Qed.

(** Witness for X15: the quantity 1.5 between 1.25 and 1.75. *)
Lemma data_value_roundtrip_witness :
  exists doc,
    DataValue.MarshalJSON
      (DataValue.mk
         (Some (DataValue.QuantityValue
                  (QuantityValue.mk (Q2Qc (3 # 2)) (Some (Q2Qc (7 # 4)))
                     (Some (Q2Qc (5 # 4))) "1")))) = Ok doc /\
    DataValue.UnmarshalJSON doc
    = Ok (DataValue.mk
            (Some (DataValue.QuantityValue
                     (QuantityValue.mk (Q2Qc (3 # 2)) (Some (Q2Qc (7 # 4)))
                        (Some (Q2Qc (5 # 4))) "1")))).
Proof.
  apply (data_value_roundtrip
           (DataValue.mk
              (Some (DataValue.QuantityValue
                       (QuantityValue.mk (Q2Qc (3 # 2)) (Some (Q2Qc (7 # 4)))
                          (Some (Q2Qc (5 # 4))) "1"))))).
  unfold valid_datavalue, valid_value. cbn.
  split; [|split; [|split]].
  - exists 1%nat. exists 5. reflexivity.
  - exists 2%nat. exists 25. reflexivity.
  - exists 2%nat. exists 25. reflexivity.
  - reflexivity.
Defined.

(** X16.  The structs of an entity are decoded back from their encoding
    when their strings and the keys of their maps are valid UTF-8, their
    enumeration values are declared constants and the data values they
    hold are in the form the decoder produces: a language value, a site
    link, a snak, a reference and a statement.  The members under
    [omitempty] that are left out (an empty hash, no data value, no
    qualifiers, no references, no badges, no address) are read back as
    they were. *)
Theorem entity_structs_roundtrip :
  (forall v : LanguageValue.t,
     valid_language v ->
     exists doc,
       LanguageValue.encode v = Ok doc /\
       LanguageValue.decode doc LanguageValue.zero = Ok v) /\
  (forall v : SiteLink.t,
     valid_sitelink v ->
     exists doc,
       SiteLink.encode v = Ok doc /\ SiteLink.decode doc SiteLink.zero = Ok v)
  /\
  (forall s : Snak.t,
     valid_snak s ->
     exists doc, Snak.encode s = Ok doc /\ Snak.decode doc Snak.zero = Ok s)
  /\
  (forall r : Reference.t,
     valid_reference r ->
     exists doc,
       Reference.encode r = Ok doc /\
       Reference.decode doc Reference.zero = Ok r) /\
  (forall s : Statement.t,
     valid_statement s ->
     exists doc,
       Statement.encode s = Ok doc /\
       Statement.decode doc Statement.zero = Ok s).
Proof.
  split; [exact LanguageValue_roundtrip|].
  split; [exact SiteLink_roundtrip|].
  split; [exact Snak_roundtrip|].
  split; [exact Reference_roundtrip | exact Statement_roundtrip].
Qed.

(** Witness for X16: a snak without a data value. *)
Lemma entity_structs_roundtrip_witness :
  exists doc,
    Snak.encode (Snak.mk "" SnakType.NoValue "P40" DataType.WikiBaseItem None)
    = Ok doc /\
    Snak.decode doc Snak.zero
    = Ok (Snak.mk "" SnakType.NoValue "P40" DataType.WikiBaseItem None).
Proof.
  apply (proj1 (proj2 (proj2 entity_structs_roundtrip))
           (Snak.mk "" SnakType.NoValue "P40" DataType.WikiBaseItem None)).
  repeat split.
Defined.

(** X17.  Outside data values the decoding is not strict: a member that
    names no field of an entity, a statement or a snak is passed over, and
    the result is that of the object without it. *)
Theorem entity_ignores_unknown_members
    (pre post : list (string * json.value)) (k : string) (x : json.value) :
  (json.field
     ["id"; "type"; "datatype"; "labels"; "descriptions"; "aliases";
      "claims"; "sitelinks"; "lastrevid"] k = None ->
   Entity.UnmarshalJSON (json.Obj (pre ++ (k, x) :: post))
   = Entity.UnmarshalJSON (json.Obj (pre ++ post))) /\
  (json.field
     ["id"; "type"; "mainsnak"; "rank"; "qualifiers"; "qualifiers-order";
      "references"] k = None ->
   forall s,
     Statement.decode (json.Obj (pre ++ (k, x) :: post)) s
     = Statement.decode (json.Obj (pre ++ post)) s) /\
  (json.field ["hash"; "snaktype"; "property"; "datatype"; "datavalue"] k
   = None ->
   forall s,
     Snak.decode (json.Obj (pre ++ (k, x) :: post)) s
     = Snak.decode (json.Obj (pre ++ post)) s).
Proof.
  split; [|split].
  - intros Hk. now apply object_skip.
  - intros Hk s. now apply object_skip.
  - intros Hk s. now apply object_skip.
Qed.

(** Witness for X17: the page members of the dumps. *)
Lemma entity_ignores_unknown_members_witness :
  Entity.UnmarshalJSON
    (json.Obj [("pageid", json.Num 129); ("ns", json.Num 0);
               ("id", json.Str "Q1"); ("type", json.Str "item")])
  = Entity.UnmarshalJSON
      (json.Obj [("pageid", json.Num 129); ("id", json.Str "Q1");
                 ("type", json.Str "item")]).
Proof.
  apply (proj1 (entity_ignores_unknown_members [("pageid", json.Num 129)]
                  [("id", json.Str "Q1"); ("type", json.Str "item")]
                  "ns" (json.Num 0))).
  reflexivity.
Defined.

(** ** Whole amounts *)

Section AmountGeneral.
Import strconv Amount.

Lemma integer_num_den (n : Z) :
  num (Q2Qc (inject_Z n)) = n /\ den (Q2Qc (inject_Z n)) = 1.
Proof.
  unfold num, den, Q2Qc. cbn [this].
  rewrite Qred_identity by (cbn; apply Z.gcd_1_r). split; reflexivity.
Qed.

Lemma integer_text (a : Qc) :
  den a = 1 ->
  MarshalJSON a
  = json.Str ((if num a <? 0 then "-" else "+") +:+ utoa (Z.abs (num a))).
Proof.
  intros Hden. unfold MarshalJSON, String_.
  assert (Hprec : RatPrecision a = (0, 0)).
  { unfold RatPrecision. rewrite Hden. reflexivity. }
  rewrite Hprec. unfold FloatString. rewrite Hden.
  cbn [Z.eqb Pos.eqb Z.add Z.ltb Z.compare]. rewrite str_app_nil_r.
  unfold Sign, Itoa. destruct (Z.ltb_spec (num a) 0) as [Hneg|Hpos].
  - replace (0 <=? Z.sgn (num a)) with false
      by (symmetry; apply Z.leb_gt; rewrite Z.sgn_neg; lia).
    rewrite Z.abs_neq by lia. reflexivity.
  - replace (0 <=? Z.sgn (num a)) with true
      by (symmetry; apply Z.leb_le; apply Z.sgn_nonneg; lia).
    rewrite Z.abs_eq by lia. reflexivity.
Qed.
End AmountGeneral.

(** X18.  A whole amount is written as its sign followed by the decimal
    digits of its absolute value, with no decimal point: [n] is written
    "+n" when it is zero or positive and "-|n|" when it is negative, and
    this text is read back as [n]. *)
Theorem amount_whole_number_text (n : Z) :
  Amount.MarshalJSON (Q2Qc (inject_Z n))
  = json.Str ((if n <? 0 then "-" else "+") +:+ strconv.utoa (Z.abs n)) /\
  Amount.UnmarshalJSON (Amount.MarshalJSON (Q2Qc (inject_Z n)))
  = Ok (Q2Qc (inject_Z n)).
Proof.
  destruct (integer_num_den n) as [Hn Hd]. split.
  - rewrite (integer_text _ Hd), Hn. reflexivity.
  - now apply amount_integer.
Qed.

(** ** The checkpoint file *)

Section CheckpointFile.
Import strconv.

Lemma str_app_empty_l (s : string) : "" +:+ s = s.
Proof. reflexivity. Qed.

(** [%0wd] of a number below [10^w] is [w] digits denoting it. *)
Lemma d0_width (w : nat) (v : Z) :
  (1 <= w)%nat -> 0 <= v < 10 ^ Z.of_nat w ->
  all_digits (fmt.d0 false w v) = true /\
  String.length (fmt.d0 false w v) = w /\
  digits_value 0 (fmt.d0 false w v) = v.
Proof.
  intros Hw Hv. unfold fmt.d0. destruct (Z.ltb_spec v 0); [lia|].
  rewrite Z.abs_eq by lia. rewrite str_app_empty_l.
  cbn [String.length]. rewrite Nat.sub_0_r.
  pose proof (utoa_length v w Hv Hw) as Hlen.
  split; [|split].
  - rewrite all_digits_app, zeros_digits, all_digits_utoa by lia.
    reflexivity.
  - rewrite str_length_app, zeros_length. lia.
  - rewrite zeros_value. cbn [Z.mul]. apply digits_value_utoa. lia.
Qed.

Lemma length_four (s : string) :
  String.length s = 4%nat ->
  exists a b c d, s = String a (String b (String c (String d ""))).
Proof.
  destruct s as [|a [|b [|c [|d [|e s]]]]]; cbn; intros H; try lia.
  now exists a, b, c, d.
Qed.

Lemma substring_all (s : string) (n : nat) :
  (String.length s <= n)%nat -> substring 0 n s = s.
Proof.
  revert n. induction s as [|c s IH]; intros n Hn.
  - destruct n; reflexivity.
  - destruct n; cbn in Hn; [lia|]. cbn. f_equal. apply IH. lia.
Qed.

(** The fraction of a second, without its trailing zeros. *)
Lemma trim_spec (fuel width : nat) (ns : Z) :
  (1 <= width <= fuel)%nat -> 0 < ns < 10 ^ Z.of_nat width ->
  let ds := timejson.trim fuel width ns in
  all_digits ds = true /\ (1 <= String.length ds <= width)%nat /\
  digits_value 0 ds * 10 ^ Z.of_nat (width - String.length ds) = ns.
Proof.
  revert width ns. induction fuel as [|fuel IH]; intros width ns Hw Hns;
    [lia|].
  cbn [timejson.trim]. destruct (Z.eqb_spec ns 0); [lia|].
  destruct (Z.eqb_spec (ns mod 10) 0) as [Hz|Hnz].
  - assert (Hdiv : ns = 10 * (ns / 10)).
    { pose proof (Z.div_mod ns 10 ltac:(lia)). lia. }
    assert (Hw2 : (2 <= width)%nat).
    { destruct width as [|[|width]]; [lia| |lia].
      change (10 ^ Z.of_nat 1) with 10 in Hns. lia. }
    assert (Hpow : 10 ^ Z.of_nat width = 10 * 10 ^ Z.of_nat (width - 1)).
    { replace (Z.of_nat width) with (Z.succ (Z.of_nat (width - 1))) by lia.
      rewrite Z.pow_succ_r by lia. reflexivity. }
    destruct (IH (width - 1)%nat (ns / 10) ltac:(lia) ltac:(lia))
      as (Hd & Hl & Hv).
    cbv zeta. split; [exact Hd|]. split; [lia|].
    replace (Z.of_nat (width - String.length
                                 (timejson.trim fuel (width - 1) (ns / 10))))
      with (Z.succ (Z.of_nat (width - 1 - String.length
                                 (timejson.trim fuel (width - 1) (ns / 10)))))
      by lia.
    rewrite Z.pow_succ_r by lia. lia.
  - destruct (d0_width width ns ltac:(lia) ltac:(lia)) as (Hd & Hl & Hv).
    cbv zeta. split; [exact Hd|]. split; [lia|].
    rewrite Hl, Nat.sub_diag. cbn [Z.of_nat Z.pow]. lia.
Qed.

Lemma nanos_trim (ns : Z) :
  0 < ns < 1000000000 -> timejson.nanos (timejson.trim 9 9 ns) = ns.
Proof.
  intros Hns.
  destruct (trim_spec 9 9 ns ltac:(lia) ltac:(cbn; lia)) as (Hd & Hl & Hv).
  unfold timejson.nanos. rewrite substring_all by lia. exact Hv.
Qed.

Lemma is_digit_two (a b : ascii) :
  all_digits (two a b) = true -> is_digit a = true /\ is_digit b = true.
Proof.
  cbn. intros H. apply andb_prop in H as [Ha H].
  apply andb_prop in H as [Hb _]. now split.
Qed.

Lemma zone_Z : timejson.zone "Z" = Some 0.
Proof. reflexivity. Qed.

(** A reading of the wall clock is read back from its RFC 3339 text. *)
Lemma timejson_roundtrip (t : time.Time) :
  wall_clock t -> timejson.parse (timejson.format t) = Some t.
Proof.
  destruct t as [Y M D h mi sc ns]. unfold wall_clock.
  cbn [time.Year time.Month time.Day time.Hour time.Minute time.Second
       time.Nanosecond].
  intros (HY & HM & HD & Hh & Hmi & Hs & Hns).
  assert (Hdays : time.daysIn Y M <= 31).
  { unfold time.daysIn. destruct (M =? 2); [destruct (time.isLeap Y); lia|].
    destruct ((M =? 4) || (M =? 6) || (M =? 9) || (M =? 11)); lia. }
  destruct (d0_width 4 Y ltac:(lia) ltac:(cbn; lia)) as (HYd & HYl & HYv).
  destruct (length_four _ HYl) as (y1 & y2 & y3 & y4 & HYs).
  rewrite HYs in HYd, HYv.
  destruct (d0_two_shape M ltac:(lia)) as (m1 & m2 & HMs & HMd & HMv).
  destruct (d0_two_shape D ltac:(lia)) as (d1 & d2 & HDs & HDd & HDv).
  destruct (d0_two_shape h ltac:(lia)) as (h1 & h2 & Hhs & Hhd & Hhv).
  destruct (d0_two_shape mi ltac:(lia)) as (n1 & n2 & Hms & Hmd & Hmv).
  destruct (d0_two_shape sc ltac:(lia)) as (s1 & s2 & Hss & Hsd & Hsv).
  unfold timejson.format.
  cbn [time.Year time.Month time.Day time.Hour time.Minute time.Second
       time.Nanosecond].
  rewrite HYs, HMs, HDs, Hhs, Hms, Hss. unfold two.
  cbn [String.append]. unfold timejson.parse.
  assert (Hall :
    all_digits
      (String y1 (String y2 (String y3 (String y4 (String m1 (String m2
        (String d1 (String d2 (String h1 (String h2 (String n1 (String n2
          (two s1 s2))))))))))))) = true).
  { cbn [all_digits] in HYd. cbn [all_digits two].
    apply andb_prop in HYd as [Hy1 HYd]. apply andb_prop in HYd as [Hy2 HYd].
    apply andb_prop in HYd as [Hy3 HYd]. apply andb_prop in HYd as [Hy4 _].
    destruct (is_digit_two _ _ HMd) as [-> ->].
    destruct (is_digit_two _ _ HDd) as [-> ->].
    destruct (is_digit_two _ _ Hhd) as [-> ->].
    destruct (is_digit_two _ _ Hmd) as [-> ->].
    destruct (is_digit_two _ _ Hsd) as [-> ->].
    rewrite Hy1, Hy2, Hy3, Hy4. reflexivity. }
  rewrite Hall. unfold field_value in *. fold (two m1 m2) (two d1 d2)
    (two h1 h2) (two n1 n2) (two s1 s2).
  rewrite HYv, HMv, HDv, Hhv, Hmv, Hsv.
  assert (Hcheck :
    (1 <=? M) && (M <=? 12) && (1 <=? D) && (D <=? time.daysIn Y M)
    && (h <? 24) && (mi <? 60) && (sc <? 60) = true).
  { repeat (apply andb_true_intro; split);
      first [apply Z.leb_le | apply Z.ltb_lt]; lia. }
  unfold timejson.fraction. destruct (Z.eqb_spec ns 0) as [->|Hnz].
  - cbn [String.append]. rewrite zone_Z, Hcheck.
    rewrite Z.sub_0_r. now rewrite Date_valid by lia.
  - destruct (trim_spec 9 9 ns ltac:(lia) ltac:(cbn; lia))
      as (Hd & Hl & _).
    cbn [String.append].
    rewrite (span_digits_stop (timejson.trim 9 9 ns) "Z" Hd eq_refl).
    destruct (timejson.trim 9 9 ns) as [|c ds] eqn:Htrim;
      [cbn in Hl; lia|].
    rewrite <- Htrim, nanos_trim by lia. rewrite zone_Z, Hcheck.
    rewrite Z.sub_0_r. now rewrite Date_valid by lia.
Qed.

(** A checkpoint is read back from the document written for it. *)
Lemma Checkpoint_roundtrip (c : Checkpoint.t) :
  valid_checkpoint c ->
  Checkpoint.Marshal c
  = Ok (json.Obj
          [("total_items", json.Num (Checkpoint.TotalItems c));
           ("timestamp",
            json.Str (timejson.format (Checkpoint.SaveTimestamp c)));
           ("last_item_id", json.Str (Checkpoint.LastItemID c));
           ("position", json.Num (Checkpoint.ProcessedPosition c))]) /\
  forall doc, Checkpoint.Marshal c = Ok doc ->
              Checkpoint.Unmarshal (os.Text doc) = Ok c.
Proof.
  destruct c as [n ts id pos]. unfold valid_checkpoint, Int.in_int.
  cbn [Checkpoint.TotalItems Checkpoint.ProcessedPosition
       Checkpoint.SaveTimestamp Checkpoint.LastItemID].
  intros (Hn & Hpos & Hts & Hid).
  assert (Hm : Checkpoint.Marshal (Checkpoint.mk n ts id pos)
               = Ok (json.Obj
                       [("total_items", json.Num n);
                        ("timestamp", json.Str (timejson.format ts));
                        ("last_item_id", json.Str id);
                        ("position", json.Num pos)])).
  { unfold Checkpoint.Marshal, timejson.MarshalJSON.
    cbn [Checkpoint.TotalItems Checkpoint.ProcessedPosition
         Checkpoint.SaveTimestamp Checkpoint.LastItemID].
    rewrite (of_string_valid id Hid).
    destruct Hts as (HY & _).
    destruct (Z.leb_spec 0 (time.Year ts)); [|lia].
    destruct (Z.leb_spec (time.Year ts) 9999); [|lia]. reflexivity. }
  split; [exact Hm|]. intros doc Hdoc. rewrite Hm in Hdoc.
  injection Hdoc as <-. unfold Checkpoint.Unmarshal, json.object.
  cbn -[timejson.format timejson.parse].
  destruct (Z.leb_spec Int.min_int n); [|lia].
  destruct (Z.leb_spec n Int.max_int); [|lia].
  cbn -[timejson.format timejson.parse].
  rewrite (timejson_roundtrip ts Hts).
  cbn -[timejson.format timejson.parse].
  destruct (Z.leb_spec Int.min_int pos); [|lia].
  destruct (Z.leb_spec pos Int.max_int); [|lia]. reflexivity.
Qed.
End CheckpointFile.

(** ** The checkpoint manager, in general *)

Section ManagerFacts.
Import CheckpointManager.

(** Every way [save] can end. *)
Lemma save_spec (cm cm' : t) (w w' : os.World) (e : option error) :
  save cm w = (cm', w', e) ->
  config cm' = config cm /\
  Checkpoint.TotalItems (currentCheckpoint cm')
  = Checkpoint.TotalItems (currentCheckpoint cm) /\
  Checkpoint.LastItemID (currentCheckpoint cm')
  = Checkpoint.LastItemID (currentCheckpoint cm) /\
  Checkpoint.ProcessedPosition (currentCheckpoint cm')
  = Checkpoint.ProcessedPosition (currentCheckpoint cm) /\
  os.now w' = os.now w /\ os.denied w' = os.denied w /\
  (dirty cm = false -> cm' = cm /\ w' = w /\ e = None) /\
  (dirty cm = true ->
   Checkpoint.SaveTimestamp (currentCheckpoint cm') = os.now w /\
   match e with
   | None =>
       dirty cm' = false /\ itemsSinceLastCheckpoint cm' = 0 /\
       (exists doc,
          Checkpoint.Marshal (currentCheckpoint cm') = Ok doc /\
          os.files w' !! CheckpointFile (config cm) = Some (os.Text doc)) /\
       os.files w' !! (CheckpointFile (config cm) +:+ ".tmp") = None
   | Some err =>
       dirty cm' = true /\
       itemsSinceLastCheckpoint cm' = itemsSinceLastCheckpoint cm /\
       os.files w' !! CheckpointFile (config cm)
       = os.files w !! CheckpointFile (config cm) /\
       ~ writable (config cm) w /\
       exists cause,
         err = WithMessage "marshal checkpoint" cause \/
         err = WithMessage "write checkpoint" cause \/
         err = WithMessage "rename checkpoint file" cause
   end).
Proof.
  unfold save. destruct (dirty cm) eqn:Hd; cbn [negb].
  2:{ intros [= <- <- <-]. repeat split; try reflexivity; discriminate. }
  set (c := Checkpoint.mk _ _ _ _).
  cbn [config currentCheckpoint itemsSinceLastCheckpoint dirty].
  assert (Hne : CheckpointFile (config cm) +:+ ".tmp"
                <> CheckpointFile (config cm)) by apply tmp_neq.
  destruct (Checkpoint.Marshal c) as [data|err] eqn:Hm.
  2:{ intros [= <- <- <-].
      cbn [config currentCheckpoint itemsSinceLastCheckpoint dirty].
      repeat split; try reflexivity; try discriminate.
      - intros (_ & _ & Hy). unfold Checkpoint.Marshal, timejson.MarshalJSON in Hm.
        cbn [Checkpoint.SaveTimestamp c] in Hm.
        destruct (Z.leb_spec 0 (time.Year (os.now w))); [|lia].
        destruct (Z.leb_spec (time.Year (os.now w)) 9999); [|lia].
        discriminate Hm.
      - exists err. now left. }
  unfold os.WriteFile.
  destruct (bool_decide (CheckpointFile (config cm) +:+ ".tmp" ∈ os.denied w))
    eqn:Ht.
  { intros [= <- <- <-].
    cbn [config currentCheckpoint itemsSinceLastCheckpoint dirty].
    repeat split; try reflexivity; try discriminate.
    - intros (_ & Hno & _). apply bool_decide_eq_true_1 in Ht. contradiction.
    - eexists. right. left. reflexivity. }
  unfold os.Rename. cbn [os.files os.denied os.now].
  rewrite lookup_insert_eq.
  destruct (bool_decide (CheckpointFile (config cm) ∈ os.denied w)) eqn:Hp.
  { intros [= <- <- <-].
    cbn [config currentCheckpoint itemsSinceLastCheckpoint dirty os.files
         os.now os.denied].
    repeat split; try reflexivity; try discriminate.
    - now rewrite lookup_insert_ne.
    - intros (Hno & _). apply bool_decide_eq_true_1 in Hp. contradiction.
    - eexists. right. right. reflexivity. }
  intros [= <- <- <-].
  cbn [config currentCheckpoint itemsSinceLastCheckpoint dirty os.files
       os.now os.denied].
  repeat split; try reflexivity; try discriminate.
  - exists data. split; [exact Hm | apply lookup_insert_eq].
  - rewrite lookup_insert_ne by congruence. apply lookup_delete_eq.
Qed.

(** With writable files, a dirty manager is flushed. *)
Lemma save_writable (cm : t) (w : os.World) :
  dirty cm = true -> writable (config cm) w ->
  exists cm' w', save cm w = (cm', w', None).
Proof.
  intros Hd (Hp & Ht & Hy).
  destruct (save_dirty cm w Hd Hp Ht Hy) as (w' & Hs & _).
  eexists _, w'. exact Hs.
Qed.

Lemma writable_after (cfg : CheckpointConfig) (w w' : os.World) :
  os.now w' = os.now w -> os.denied w' = os.denied w ->
  writable cfg w -> writable cfg w'.
Proof. unfold writable. intros -> ->. tauto. Qed.

(** What an update does before it may flush. *)
Lemma Update_unfold (position : Z) (itemID : string) (cm : t)
    (w : os.World) :
  UpdateProgressAndMaybeSave position itemID cm w
  = let updated :=
      mk (config cm)
        (Checkpoint.mk (Int.incr (Checkpoint.TotalItems (currentCheckpoint cm)))
           (Checkpoint.SaveTimestamp (currentCheckpoint cm)) itemID position)
        (Int.incr (itemsSinceLastCheckpoint cm)) true in
    if ItemsThreshold (config cm) <=? Int.incr (itemsSinceLastCheckpoint cm)
    then save updated w else (updated, w, None).
Proof. reflexivity. Qed.

Lemma report_nil (errs : list error) (e : option error) :
  Run.report errs e = errs <-> e = None.
Proof.
  destruct e as [e|]; cbn; split; intros H; try reflexivity; try discriminate.
  apply (f_equal List.length) in H. rewrite length_app in H. cbn in H. lia.
Qed.

(** One step of a run: the configuration stays, a clean manager has no
    pending item, and the total grows by one exactly in an update. *)
Lemma step_invariants (c : Run.call) (cm cm' : t) (w w' : os.World)
    (errs errs' : list error) :
  Run.step (cm, w, errs) c = (cm', w', errs') ->
  config cm' = config cm /\
  ((dirty cm = false -> itemsSinceLastCheckpoint cm = 0) ->
   dirty cm' = false -> itemsSinceLastCheckpoint cm' = 0) /\
  Checkpoint.TotalItems (currentCheckpoint cm')
  = match c with
    | Run.CallUpdate _ _ =>
        Int.incr (Checkpoint.TotalItems (currentCheckpoint cm))
    | _ => Checkpoint.TotalItems (currentCheckpoint cm)
    end /\
  match c with
  | Run.CallUpdate position itemID =>
      Checkpoint.ProcessedPosition (currentCheckpoint cm') = position /\
      Checkpoint.LastItemID (currentCheckpoint cm') = itemID
  | _ =>
      Checkpoint.ProcessedPosition (currentCheckpoint cm')
      = Checkpoint.ProcessedPosition (currentCheckpoint cm) /\
      Checkpoint.LastItemID (currentCheckpoint cm')
      = Checkpoint.LastItemID (currentCheckpoint cm)
  end.
Proof.
  assert (Hsave : forall cm0 cm1 w0 w1 e,
    save cm0 w0 = (cm1, w1, e) ->
    config cm1 = config cm0 /\
    ((dirty cm0 = false -> itemsSinceLastCheckpoint cm0 = 0) ->
     dirty cm1 = false -> itemsSinceLastCheckpoint cm1 = 0) /\
    Checkpoint.TotalItems (currentCheckpoint cm1)
    = Checkpoint.TotalItems (currentCheckpoint cm0) /\
    Checkpoint.ProcessedPosition (currentCheckpoint cm1)
    = Checkpoint.ProcessedPosition (currentCheckpoint cm0) /\
    Checkpoint.LastItemID (currentCheckpoint cm1)
    = Checkpoint.LastItemID (currentCheckpoint cm0)).
  { intros cm0 cm1 w0 w1 e Hs.
    destruct (save_spec _ _ _ _ _ Hs)
      as (Hc & Ht & Hi & Hp & _ & _ & Hclean & Hdirty).
    repeat split; try assumption.
    intros Hinv Hd1. destruct (dirty cm0) eqn:Hd0.
    - destruct (Hdirty eq_refl) as [_ He]. destruct e as [err|].
      + destruct He as [Hd _]. congruence.
      + apply He.
    - destruct (Hclean eq_refl) as (-> & _). now apply Hinv. }
  destruct c as [position itemID| | | |w0]; cbn [Run.step].
  - rewrite Update_unfold. cbv zeta.
    destruct (ItemsThreshold (config cm) <=? _).
    + destruct (save _ w) as [[cm1 w1] e] eqn:Hs. intros [= <- <- <-].
      destruct (Hsave _ _ _ _ _ Hs) as (Hc & Hinv & Ht & Hp & Hi).
      cbn [config currentCheckpoint itemsSinceLastCheckpoint dirty
           Checkpoint.TotalItems Checkpoint.ProcessedPosition
           Checkpoint.LastItemID] in *.
      repeat split; try assumption.
      intros _ Hd. apply Hinv; [discriminate | exact Hd].
    + intros [= <- <- <-].
      cbn [config currentCheckpoint itemsSinceLastCheckpoint dirty
           Checkpoint.TotalItems Checkpoint.ProcessedPosition
           Checkpoint.LastItemID].
      repeat split; try reflexivity. discriminate.
  - unfold Save. destruct (save cm w) as [[cm1 w1] e] eqn:Hs.
    intros [= <- <- <-]. destruct (Hsave _ _ _ _ _ Hs) as (? & ? & ? & ? & ?).
    repeat split; assumption.
  - unfold Close, Save. destruct (save cm w) as [[cm1 w1] e] eqn:Hs.
    intros [= <- <- <-]. destruct (Hsave _ _ _ _ _ Hs) as (? & ? & ? & ? & ?).
    repeat split; assumption.
  - unfold tick, Save. destruct (dirty cm) eqn:Hd.
    + destruct (save cm w) as [[cm1 w1] e] eqn:Hs. cbn [fst].
      intros [= <- <- <-].
      destruct (Hsave _ _ _ _ _ Hs) as (Hc & Hinv & Ht & Hp & Hi).
      repeat split; try assumption.
      intros _ Hd1. apply Hinv; [rewrite Hd; discriminate | exact Hd1].
    + intros [= <- <- <-]. repeat split; try reflexivity. tauto.
  - intros [= <- <- <-]. repeat split; try reflexivity. tauto.
Qed.

(** One step of a run with writable files: nothing fails, and fewer items
    than the threshold are pending. *)
Lemma step_writable (c : Run.call) (cm cm' : t) (w w' : os.World)
    (errs errs' : list error) :
  1 <= ItemsThreshold (config cm) <= Int.max_int ->
  writable (config cm) w ->
  match c with Run.Outside w0 => writable (config cm) w0 | _ => True end ->
  0 <= itemsSinceLastCheckpoint cm < ItemsThreshold (config cm) ->
  Run.step (cm, w, errs) c = (cm', w', errs') ->
  errs' = errs /\ writable (config cm) w' /\
  0 <= itemsSinceLastCheckpoint cm' < ItemsThreshold (config cm).
Proof.
  intros Hth Hw Hout Hsince.
  assert (Hsave : forall cm0 cm1 w1 e,
    save cm0 w = (cm1, w1, e) ->
    config cm0 = config cm ->
    e = None /\ writable (config cm) w1 /\
    (dirty cm0 = true -> itemsSinceLastCheckpoint cm1 = 0) /\
    (dirty cm0 = false -> cm1 = cm0)).
  { intros cm0 cm1 w1 e Hs Hc.
    destruct (save_spec _ _ _ _ _ Hs)
      as (_ & _ & _ & _ & Hnow & Hden & Hclean & Hdirty).
    split; [|split; [|split]].
    - destruct (dirty cm0) eqn:Hd0.
      + destruct (Hdirty eq_refl) as [_ He]. destruct e as [err|];
          [|reflexivity].
        destruct He as (_ & _ & _ & Hno & _). rewrite Hc in Hno.
        contradiction.
      + now destruct (Hclean eq_refl) as (_ & _ & ->).
    - now apply (writable_after _ w).
    - intros Hd0. destruct (Hdirty Hd0) as [_ He]. destruct e as [err|].
      + destruct He as (_ & _ & _ & Hno & _). rewrite Hc in Hno.
        contradiction.
      + apply He.
    - intros Hd0. now destruct (Hclean Hd0) as (-> & _). }
  destruct c as [position itemID| | | |w0]; cbn [Run.step].
  - rewrite Update_unfold. cbv zeta.
    rewrite (incr_small (itemsSinceLastCheckpoint cm))
      by (unfold Int.min_int, Int.max_int in *; lia).
    destruct (Z.leb_spec (ItemsThreshold (config cm))
                (itemsSinceLastCheckpoint cm + 1)).
    + destruct (save _ w) as [[cm1 w1] e] eqn:Hs. intros [= <- <- <-].
      destruct (Hsave _ _ _ _ Hs eq_refl) as (-> & Hw1 & Hz & _).
      split; [reflexivity|]. split; [exact Hw1|].
      rewrite (Hz eq_refl). lia.
    + intros [= <- <- <-]. cbn [itemsSinceLastCheckpoint].
      split; [reflexivity|]. split; [exact Hw | lia].
  - unfold Save. destruct (save cm w) as [[cm1 w1] e] eqn:Hs.
    intros [= <- <- <-].
    destruct (Hsave _ _ _ _ Hs eq_refl) as (-> & Hw1 & Hz & Hsame).
    split; [reflexivity|]. split; [exact Hw1|].
    destruct (dirty cm); [rewrite (Hz eq_refl); lia|].
    now rewrite (Hsame eq_refl).
  - unfold Close, Save. destruct (save cm w) as [[cm1 w1] e] eqn:Hs.
    intros [= <- <- <-].
    destruct (Hsave _ _ _ _ Hs eq_refl) as (-> & Hw1 & Hz & Hsame).
    split; [reflexivity|]. split; [exact Hw1|].
    destruct (dirty cm); [rewrite (Hz eq_refl); lia|].
    now rewrite (Hsame eq_refl).
  - unfold tick, Save. destruct (dirty cm) eqn:Hd.
    + destruct (save cm w) as [[cm1 w1] e] eqn:Hs. cbn [fst].
      intros [= <- <- <-].
      destruct (Hsave _ _ _ _ Hs eq_refl) as (_ & Hw1 & Hz & _).
      split; [reflexivity|]. split; [exact Hw1|].
      rewrite (Hz Hd). lia.
    + intros [= <- <- <-]. split; [reflexivity|]. split; assumption.
  - intros [= <- <- <-]. split; [reflexivity|]. split; assumption.
Qed.
End ManagerFacts.

(** X19.  A checkpoint whose counters are Go [int]s, whose timestamp is a
    reading of the wall clock in the years 0 to 9999 and whose item id is
    valid UTF-8 is written as a JSON document with the members
    [total_items], [timestamp], [last_item_id] and [position], and reading
    that document gives the checkpoint back, timestamp included, down to
    the nanosecond. *)
Theorem checkpoint_file_roundtrip (c : Checkpoint.t) :
  valid_checkpoint c ->
  exists doc,
    Checkpoint.Marshal c = Ok doc /\
    doc = json.Obj
            [("total_items", json.Num (Checkpoint.TotalItems c));
             ("timestamp",
              json.Str (timejson.format (Checkpoint.SaveTimestamp c)));
             ("last_item_id", json.Str (Checkpoint.LastItemID c));
             ("position", json.Num (Checkpoint.ProcessedPosition c))] /\
    Checkpoint.Unmarshal (os.Text doc) = Ok c.
Proof.
  intros Hc. destruct (Checkpoint_roundtrip c Hc) as [Hm Hu].
  eexists. split; [exact Hm|]. split; [reflexivity|]. now apply Hu.
Qed.

(** Witness for X19: the checkpoint of the repository's loading test, half
    a second after 10:30. *)
Lemma checkpoint_file_roundtrip_witness :
  Checkpoint.Marshal
    (Checkpoint.mk 200 (time.mkTime 2024 5 17 10 30 0 500000000) "last_item"
       150)
  = Ok (json.Obj [("total_items", json.Num 200);
                  ("timestamp", json.Str "2024-05-17T10:30:00.5Z");
                  ("last_item_id", json.Str "last_item");
                  ("position", json.Num 150)]) /\
  exists doc,
    Checkpoint.Marshal
      (Checkpoint.mk 200 (time.mkTime 2024 5 17 10 30 0 500000000)
         "last_item" 150) = Ok doc /\
    Checkpoint.Unmarshal (os.Text doc)
    = Ok (Checkpoint.mk 200 (time.mkTime 2024 5 17 10 30 0 500000000)
            "last_item" 150).
Proof.
  split; [reflexivity|].
  destruct (checkpoint_file_roundtrip
              (Checkpoint.mk 200 (time.mkTime 2024 5 17 10 30 0 500000000)
                 "last_item" 150)) as (doc & Hm & _ & Hu).
  - unfold valid_checkpoint, Int.in_int, Int.min_int, Int.max_int,
      wall_clock. cbn. repeat split; try lia; try reflexivity.
  - exists doc. split; assumption.
Defined.

(** X20.  What [Close] writes, a restart reads: after closing a dirty
    manager whose files can be written and whose item id is valid UTF-8, a
    manager constructed with the same configuration (its save interval
    positive, its checkpoint file readable) holds the very checkpoint that
    was saved (the counters, the item id, and the time of the save as its
    timestamp), is clean and has no pending item. *)
Theorem close_then_restart (cm : CheckpointManager.t) (w : os.World) :
  CheckpointManager.dirty cm = true ->
  0 < CheckpointManager.SaveInterval (CheckpointManager.config cm) ->
  writable (CheckpointManager.config cm) w ->
  CheckpointManager.CheckpointFile (CheckpointManager.config cm)
    ∉ os.unreadable w ->
  wall_clock (os.now w) ->
  Int.in_int (Checkpoint.TotalItems (CheckpointManager.currentCheckpoint cm))
  ->
  Int.in_int
    (Checkpoint.ProcessedPosition (CheckpointManager.currentCheckpoint cm)) ->
  utf8.ValidString
    (Checkpoint.LastItemID (CheckpointManager.currentCheckpoint cm)) ->
  let saved :=
    Checkpoint.mk
      (Checkpoint.TotalItems (CheckpointManager.currentCheckpoint cm))
      (os.now w)
      (Checkpoint.LastItemID (CheckpointManager.currentCheckpoint cm))
      (Checkpoint.ProcessedPosition (CheckpointManager.currentCheckpoint cm))
  in
  exists w',
    CheckpointManager.Close cm w
    = (CheckpointManager.mk (CheckpointManager.config cm) saved 0 false, w',
       None) /\
    CheckpointManager.NewCheckpointManagerWithConfig
      (CheckpointManager.config cm) w'
    = CheckpointManager.Returned
        (CheckpointManager.mk (CheckpointManager.config cm) saved 0 false).
Proof.
  intros Hd Hint (Hp & Ht & Hy) Hread Hclock Htot Hpos Hid saved.
  destruct (save_dirty cm w Hd Hp Ht Hy) as (w' & Hs & Hf & _ & Hun).
  exists w'. split; [exact Hs|].
  assert (Hv : valid_checkpoint saved)
    by (split; [exact Htot | split; [exact Hpos | split;
          [exact Hclock | exact Hid]]]).
  destruct (Checkpoint_roundtrip saved Hv) as [Hm Hu].
  unfold CheckpointManager.NewCheckpointManagerWithConfig,
    CheckpointManager.loadCheckpoint, os.ReadFile.
  rewrite Hf, Hun, bool_decide_eq_false_2 by exact Hread.
  unfold utf8.ValidString in Hid. rewrite Hid. fold saved.
  change (json.Obj _) with
    (json.Obj
       [("total_items", json.Num (Checkpoint.TotalItems saved));
        ("timestamp",
         json.Str (timejson.format (Checkpoint.SaveTimestamp saved)));
        ("last_item_id", json.Str (Checkpoint.LastItemID saved));
        ("position", json.Num (Checkpoint.ProcessedPosition saved))]).
  rewrite (Hu _ Hm). now apply autoSave_positive.
Qed.

(** Witness for X20: the manager of the repository's closing test. *)
Lemma close_then_restart_witness :
  exists w',
    CheckpointManager.Close
      (CheckpointManager.mk
         (CheckpointManager.mkConfig 1000000000 0
            "TestCheckpointManager_Close.json")
         (Checkpoint.mk 300 time.zero "final_item" 250) 0 true)
      (os.mkWorld ∅ (time.mkTime 2024 5 17 10 30 0 250) [] [])
    = (CheckpointManager.mk
         (CheckpointManager.mkConfig 1000000000 0
            "TestCheckpointManager_Close.json")
         (Checkpoint.mk 300 (time.mkTime 2024 5 17 10 30 0 250) "final_item"
            250) 0 false, w', None) /\
    CheckpointManager.NewCheckpointManagerWithConfig
      (CheckpointManager.mkConfig 1000000000 0
         "TestCheckpointManager_Close.json") w'
    = CheckpointManager.Returned
        (CheckpointManager.mk
           (CheckpointManager.mkConfig 1000000000 0
              "TestCheckpointManager_Close.json")
           (Checkpoint.mk 300 (time.mkTime 2024 5 17 10 30 0 250)
              "final_item" 250) 0 false).
Proof.
  apply (close_then_restart
           (CheckpointManager.mk
              (CheckpointManager.mkConfig 1000000000 0
                 "TestCheckpointManager_Close.json")
              (Checkpoint.mk 300 time.zero "final_item" 250) 0 true)
           (os.mkWorld ∅ (time.mkTime 2024 5 17 10 30 0 250) [] [])).
  - reflexivity.
  - reflexivity.
  - unfold writable. cbn. repeat split; try apply not_elem_of_nil; lia.
  - cbn. apply not_elem_of_nil.
  - unfold wall_clock. cbn. lia.
  - unfold Int.in_int, Int.min_int, Int.max_int. cbn. lia.
  - unfold Int.in_int, Int.min_int, Int.max_int. cbn. lia.
  - reflexivity.
Defined.

(** X21.  When [Save] returns an error, nothing is lost and the checkpoint
    file is as it was: the manager stays dirty with the same number of
    pending items and the same counters, so a later call tries again; the
    file under the configured name keeps its content (only the temporary
    file may have been written); the cause is one of the three steps,
    encoding, writing the temporary file or renaming it, and the files were
    not writable. *)
Theorem save_failure_keeps_checkpoint_file
    (cm cm' : CheckpointManager.t) (w w' : os.World) (err : error) :
  CheckpointManager.Save cm w = (cm', w', Some err) ->
  CheckpointManager.dirty cm' = true /\
  CheckpointManager.config cm' = CheckpointManager.config cm /\
  CheckpointManager.itemsSinceLastCheckpoint cm'
  = CheckpointManager.itemsSinceLastCheckpoint cm /\
  Checkpoint.TotalItems (CheckpointManager.currentCheckpoint cm')
  = Checkpoint.TotalItems (CheckpointManager.currentCheckpoint cm) /\
  Checkpoint.LastItemID (CheckpointManager.currentCheckpoint cm')
  = Checkpoint.LastItemID (CheckpointManager.currentCheckpoint cm) /\
  Checkpoint.ProcessedPosition (CheckpointManager.currentCheckpoint cm')
  = Checkpoint.ProcessedPosition (CheckpointManager.currentCheckpoint cm) /\
  os.files w'
    !! CheckpointManager.CheckpointFile (CheckpointManager.config cm)
  = os.files w
      !! CheckpointManager.CheckpointFile (CheckpointManager.config cm) /\
  ~ writable (CheckpointManager.config cm) w /\
  exists cause,
    err = WithMessage "marshal checkpoint" cause \/
    err = WithMessage "write checkpoint" cause \/
    err = WithMessage "rename checkpoint file" cause.
Proof.
  unfold CheckpointManager.Save. intros Hs.
  destruct (save_spec _ _ _ _ _ Hs)
    as (Hc & Ht & Hi & Hp & _ & _ & Hclean & Hdirty).
  destruct (CheckpointManager.dirty cm) eqn:Hd.
  - destruct (Hdirty eq_refl) as (_ & Hd' & Hn & Hf & Hno & Hcause).
    repeat split; try assumption.
  - destruct (Hclean eq_refl) as (_ & _ & [=]).
Qed.

(** Witness for X21: the checkpoint file may not be replaced. *)
Lemma save_failure_keeps_checkpoint_file_witness :
  exists cm' w' err,
    CheckpointManager.Save
      (CheckpointManager.mk (CheckpointManager.mkConfig 1000000000 5 "c.json")
         (Checkpoint.mk 7 time.zero "item7" 7) 2 true)
      (os.mkWorld ∅ (time.mkTime 2024 5 17 10 30 0 0) ["c.json"] [])
    = (cm', w', Some err) /\
    CheckpointManager.dirty cm' = true /\
    CheckpointManager.itemsSinceLastCheckpoint cm' = 2 /\
    os.files w' !! "c.json" = None.
Proof.
  destruct (CheckpointManager.Save
              (CheckpointManager.mk (CheckpointManager.mkConfig 1000000000 5 "c.json")
                 (Checkpoint.mk 7 time.zero "item7" 7) 2 true)
              (os.mkWorld ∅ (time.mkTime 2024 5 17 10 30 0 0) ["c.json"] []))
    as [[cm' w'] [err|]] eqn:Hs; [|vm_compute in Hs; discriminate Hs].
  exists cm', w', err. split; [reflexivity|].
  destruct (save_failure_keeps_checkpoint_file _ _ _ _ _ Hs)
    as (Hd & _ & Hn & _ & _ & _ & Hf & _).
  split; [exact Hd|]. split; [exact Hn|].
  cbn [CheckpointManager.config CheckpointManager.CheckpointFile os.files]
    in Hf.
  rewrite Hf. apply lookup_empty.
Defined.

(** X22.  When [Save] returns no error the manager is clean, and from then
    on [Save], [Close] and a tick of [autoSave] do nothing, whatever the
    file system has become; if the manager was dirty, no item is pending,
    the checkpoint file holds the encoding of the manager's checkpoint, and
    the temporary file is gone. *)
Theorem successful_save_is_final
    (cm cm' : CheckpointManager.t) (w w' : os.World) :
  CheckpointManager.Save cm w = (cm', w', None) ->
  CheckpointManager.dirty cm' = false /\
  (CheckpointManager.dirty cm = true ->
   CheckpointManager.itemsSinceLastCheckpoint cm' = 0 /\
   Checkpoint.SaveTimestamp (CheckpointManager.currentCheckpoint cm')
   = os.now w /\
   (exists doc,
      Checkpoint.Marshal (CheckpointManager.currentCheckpoint cm') = Ok doc
      /\
      os.files w'
        !! CheckpointManager.CheckpointFile (CheckpointManager.config cm)
      = Some (os.Text doc)) /\
   os.files w'
     !! (CheckpointManager.CheckpointFile (CheckpointManager.config cm)
           +:+ ".tmp") = None) /\
  forall w'' : os.World,
    CheckpointManager.Save cm' w'' = (cm', w'', None) /\
    CheckpointManager.Close cm' w'' = (cm', w'', None) /\
    CheckpointManager.tick cm' w'' = (cm', w'').
Proof.
  unfold CheckpointManager.Save. intros Hs.
  destruct (save_spec _ _ _ _ _ Hs)
    as (_ & _ & _ & _ & _ & _ & Hclean & Hdirty).
  assert (Hd' : CheckpointManager.dirty cm' = false).
  { destruct (CheckpointManager.dirty cm) eqn:Hd.
    - now destruct (Hdirty eq_refl) as (_ & ? & _).
    - now destruct (Hclean eq_refl) as (-> & _). }
  split; [exact Hd'|]. split.
  - intros Hd. destruct (Hdirty Hd) as (Hts & _ & Hn & Hdoc & Htmp).
    repeat split; assumption.
  - intros w''.
    unfold CheckpointManager.Close, CheckpointManager.Save,
      CheckpointManager.tick, CheckpointManager.save.
    rewrite Hd'. repeat split; reflexivity.
Qed.

(** Witness for X22: the manager of the repository's saving test. *)
Lemma successful_save_is_final_witness :
  exists cm' w',
    CheckpointManager.Save
      (CheckpointManager.mk
         (CheckpointManager.mkConfig 1000000000 0 "TestCheckpointManager_Save.json")
         (Checkpoint.mk 100 time.zero "test_item" 50) 0 true)
      (os.mkWorld ∅ (time.mkTime 2024 5 17 10 30 0 0) [] [])
    = (cm', w', None) /\
    CheckpointManager.dirty cm' = false /\
    CheckpointManager.itemsSinceLastCheckpoint cm' = 0.
Proof.
  destruct (CheckpointManager.Save
              (CheckpointManager.mk
                 (CheckpointManager.mkConfig 1000000000 0
                    "TestCheckpointManager_Save.json")
                 (Checkpoint.mk 100 time.zero "test_item" 50) 0 true)
              (os.mkWorld ∅ (time.mkTime 2024 5 17 10 30 0 0) [] []))
    as [[cm' w'] [err|]] eqn:Hs; [vm_compute in Hs; discriminate Hs|].
  exists cm', w'. split; [reflexivity|].
  destruct (successful_save_is_final _ _ _ _ Hs) as (Hd & Hdirty & _).
  split; [exact Hd|]. now destruct (Hdirty eq_refl) as (Hn & _).
Defined.

Section RunFacts.

Lemma updates_nonneg (calls : list Run.call) : 0 <= Run.updates calls.
Proof.
  induction calls as [|c calls IH]; [reflexivity|].
  destruct c; cbn [Run.updates]; lia.
Qed.

Lemma run_cons (c : Run.call) (calls : list Run.call) (s : Run.state) :
  Run.run (c :: calls) s = Run.run calls (Run.step s c).
Proof. reflexivity. Qed.

Lemma run_invariants (calls : list Run.call) :
  forall (cm cm' : CheckpointManager.t) (w w' : os.World)
         (errs errs' : list error),
    Run.run calls (cm, w, errs) = (cm', w', errs') ->
    CheckpointManager.config cm' = CheckpointManager.config cm /\
    ((CheckpointManager.dirty cm = false ->
      CheckpointManager.itemsSinceLastCheckpoint cm = 0) ->
     CheckpointManager.dirty cm' = false ->
     CheckpointManager.itemsSinceLastCheckpoint cm' = 0) /\
    (Int.min_int
     <= Checkpoint.TotalItems (CheckpointManager.currentCheckpoint cm) ->
     Checkpoint.TotalItems (CheckpointManager.currentCheckpoint cm)
     + Run.updates calls <= Int.max_int ->
     Checkpoint.TotalItems (CheckpointManager.currentCheckpoint cm')
     = Checkpoint.TotalItems (CheckpointManager.currentCheckpoint cm)
       + Run.updates calls) /\
    (Run.updates calls = 0 ->
     Checkpoint.TotalItems (CheckpointManager.currentCheckpoint cm')
     = Checkpoint.TotalItems (CheckpointManager.currentCheckpoint cm) /\
     Checkpoint.ProcessedPosition (CheckpointManager.currentCheckpoint cm')
     = Checkpoint.ProcessedPosition (CheckpointManager.currentCheckpoint cm)
     /\
     Checkpoint.LastItemID (CheckpointManager.currentCheckpoint cm')
     = Checkpoint.LastItemID (CheckpointManager.currentCheckpoint cm)).
Proof.
  induction calls as [|c calls IH]; intros cm cm' w w' errs errs' Hrun.
  - cbn in Hrun. injection Hrun as <- <- <-.
    repeat split; try reflexivity; try tauto. cbn. lia.
  - rewrite run_cons in Hrun.
    destruct (Run.step (cm, w, errs) c) as [[cm1 w1] errs1] eqn:Hstep.
    destruct (step_invariants _ _ _ _ _ _ _ Hstep) as (Hc & Hinv & Ht & Hpi).
    destruct (IH _ _ _ _ _ _ Hrun) as (Hc' & Hinv' & Ht' & Hz').
    pose proof (updates_nonneg calls) as Hnn.
    split; [congruence|]. split; [tauto|]. split.
    + intros Hlo Hhi. destruct c; cbn [Run.updates] in *;
        try (rewrite Ht', Ht; [reflexivity | lia | lia]).
      rewrite Ht in Ht'.
      rewrite incr_small in Ht' by lia. rewrite Ht' by lia. lia.
    + intros Hz. destruct c; cbn [Run.updates] in Hz; try lia;
        destruct (Hz' Hz) as (H1 & H2 & H3); destruct Hpi as [Hp Hi];
        repeat split; congruence.
Qed.

Lemma run_writable (calls : list Run.call) :
  forall (cm cm' : CheckpointManager.t) (w w' : os.World)
         (errs errs' : list error),
    1 <= CheckpointManager.ItemsThreshold (CheckpointManager.config cm)
    <= Int.max_int ->
    writable (CheckpointManager.config cm) w ->
    Run.outside (writable (CheckpointManager.config cm)) calls ->
    0 <= CheckpointManager.itemsSinceLastCheckpoint cm
    < CheckpointManager.ItemsThreshold (CheckpointManager.config cm) ->
    Run.run calls (cm, w, errs) = (cm', w', errs') ->
    errs' = errs /\ writable (CheckpointManager.config cm) w' /\
    0 <= CheckpointManager.itemsSinceLastCheckpoint cm'
    < CheckpointManager.ItemsThreshold (CheckpointManager.config cm).
Proof.
  induction calls as [|c calls IH];
    intros cm cm' w w' errs errs' Hth Hw Hout Hsince Hrun.
  - cbn in Hrun. injection Hrun as <- <- <-.
    split; [reflexivity | split; assumption].
  - rewrite run_cons in Hrun.
    destruct (Run.step (cm, w, errs) c) as [[cm1 w1] errs1] eqn:Hstep.
    destruct (step_invariants _ _ _ _ _ _ _ Hstep) as (Hc & _).
    assert (Hhere : match c with
                    | Run.Outside w0 =>
                        writable (CheckpointManager.config cm) w0
                    | _ => True
                    end).
    { destruct c; try exact I. apply Hout. }
    assert (Hrest : Run.outside (writable (CheckpointManager.config cm))
                      calls).
    { destruct c; try exact Hout. apply Hout. }
    destruct (step_writable _ _ _ _ _ _ _ Hth Hw Hhere Hsince Hstep)
      as (-> & Hw1 & Hs1).
    rewrite <- Hc in *.
    now apply (IH cm1 cm' w1 w' errs errs').
Qed.
End RunFacts.

(** X24.  Through any sequence of updates, saves, closes, ticks of
    [autoSave] and changes of the file system, failed flushes included:
    the configuration stays the same; a clean manager has no pending item;
    the total counts every update, flushed or not (as long as it fits a Go
    [int]); and a sequence without updates changes neither the total, nor
    the position, nor the item id. *)
Theorem run_keeps_invariants (calls : list Run.call)
    (cm cm' : CheckpointManager.t) (w w' : os.World)
    (errs errs' : list error) :
  Run.run calls (cm, w, errs) = (cm', w', errs') ->
  CheckpointManager.config cm' = CheckpointManager.config cm /\
  ((CheckpointManager.dirty cm = false ->
    CheckpointManager.itemsSinceLastCheckpoint cm = 0) ->
   CheckpointManager.dirty cm' = false ->
   CheckpointManager.itemsSinceLastCheckpoint cm' = 0) /\
  (Int.min_int
   <= Checkpoint.TotalItems (CheckpointManager.currentCheckpoint cm) ->
   Checkpoint.TotalItems (CheckpointManager.currentCheckpoint cm)
   + Run.updates calls <= Int.max_int ->
   Checkpoint.TotalItems (CheckpointManager.currentCheckpoint cm')
   = Checkpoint.TotalItems (CheckpointManager.currentCheckpoint cm)
     + Run.updates calls) /\
  (Run.updates calls = 0 ->
   Checkpoint.TotalItems (CheckpointManager.currentCheckpoint cm')
   = Checkpoint.TotalItems (CheckpointManager.currentCheckpoint cm) /\
   Checkpoint.ProcessedPosition (CheckpointManager.currentCheckpoint cm')
   = Checkpoint.ProcessedPosition (CheckpointManager.currentCheckpoint cm)
   /\
   Checkpoint.LastItemID (CheckpointManager.currentCheckpoint cm')
   = Checkpoint.LastItemID (CheckpointManager.currentCheckpoint cm)).
Proof. apply run_invariants. Qed.

(** Witness for X24: three updates with threshold 2 while the checkpoint
    file cannot be replaced: both flushes fail, and the total is 3. *)
Lemma run_keeps_invariants_witness :
  exists cm' w' errs',
    Run.run
      [Run.CallUpdate 1 "item1"; Run.CallUpdate 2 "item2"; Run.Tick;
       Run.CallUpdate 3 "item3"]
      (CheckpointManager.mk (CheckpointManager.mkConfig 1000000000 2 "c.json")
         Checkpoint.zero 0 false,
       os.mkWorld ∅ (time.mkTime 2024 5 17 10 30 0 0) ["c.json"] [], [])
    = (cm', w', errs') /\
    List.length errs' = 2%nat /\
    Checkpoint.TotalItems (CheckpointManager.currentCheckpoint cm') = 3.
Proof.
  destruct (Run.run
              [Run.CallUpdate 1 "item1"; Run.CallUpdate 2 "item2"; Run.Tick;
               Run.CallUpdate 3 "item3"]
              (CheckpointManager.mk (CheckpointManager.mkConfig 1000000000 2 "c.json")
                 Checkpoint.zero 0 false,
               os.mkWorld ∅ (time.mkTime 2024 5 17 10 30 0 0) ["c.json"] [],
               [])) as [[cm' w'] errs'] eqn:Hrun.
  exists cm', w', errs'. split; [reflexivity|]. split.
  - vm_compute in Hrun. injection Hrun as _ _ <-. reflexivity.
  - destruct (run_keeps_invariants _ _ _ _ _ _ _ Hrun) as (_ & _ & Ht & _).
    rewrite Ht; cbn; unfold Int.min_int, Int.max_int; lia.
Defined.

(** X25.  While the two files of the manager can be written and the clock
    shows a year from 0 to 9999, nothing fails and the threshold is kept:
    through any sequence of updates, saves, closes and ticks, no call
    returns an error, and fewer items than the threshold are pending after
    each sequence (the threshold being at least 1). *)
Theorem writable_run_never_fails (calls : list Run.call)
    (cm cm' : CheckpointManager.t) (w w' : os.World) (errs' : list error) :
  1 <= CheckpointManager.ItemsThreshold (CheckpointManager.config cm)
  <= Int.max_int ->
  writable (CheckpointManager.config cm) w ->
  Run.outside (writable (CheckpointManager.config cm)) calls ->
  0 <= CheckpointManager.itemsSinceLastCheckpoint cm
  < CheckpointManager.ItemsThreshold (CheckpointManager.config cm) ->
  Run.run calls (cm, w, []) = (cm', w', errs') ->
  errs' = [] /\
  writable (CheckpointManager.config cm) w' /\
  0 <= CheckpointManager.itemsSinceLastCheckpoint cm'
  < CheckpointManager.ItemsThreshold (CheckpointManager.config cm).
Proof. apply run_writable. Qed.

(** Witness for X25: three updates with threshold 2 and a tick, as the
    clock moves on. *)
Lemma writable_run_never_fails_witness :
  exists cm' w' errs',
    Run.run
      [Run.CallUpdate 1 "item1"; Run.CallUpdate 2 "item2";
       Run.Outside (os.mkWorld ∅ (time.mkTime 2024 5 17 10 35 0 0) [] []);
       Run.CallUpdate 3 "item3"; Run.Tick]
      (CheckpointManager.mk (CheckpointManager.mkConfig 1000000000 2 "c.json")
         Checkpoint.zero 0 false,
       os.mkWorld ∅ (time.mkTime 2024 5 17 10 30 0 0) [] [], [])
    = (cm', w', errs') /\
    errs' = [] /\
    0 <= CheckpointManager.itemsSinceLastCheckpoint cm' < 2.
Proof.
  destruct (Run.run
              [Run.CallUpdate 1 "item1"; Run.CallUpdate 2 "item2";
               Run.Outside (os.mkWorld ∅ (time.mkTime 2024 5 17 10 35 0 0) [] []);
               Run.CallUpdate 3 "item3"; Run.Tick]
              (CheckpointManager.mk (CheckpointManager.mkConfig 1000000000 2 "c.json")
                 Checkpoint.zero 0 false,
               os.mkWorld ∅ (time.mkTime 2024 5 17 10 30 0 0) [] [], []))
    as [[cm' w'] errs'] eqn:Hrun.
  exists cm', w', errs'. split; [reflexivity|].
  pose proof (fun H1 H2 H3 H4 =>
                writable_run_never_fails _ _ _ _ _ _ H1 H2 H3 H4 Hrun) as H.
  destruct H as (He & _ & Hs).
  - cbn. unfold Int.max_int. lia.
  - unfold writable. cbn. repeat split; try apply not_elem_of_nil; lia.
  - cbn. unfold writable. cbn.
    repeat split; try apply not_elem_of_nil; lia.
  - cbn. lia.
  - split; [exact He | exact Hs].
Defined.

(** X26.  A tick of [autoSave] on a dirty manager with writable files
    writes the checkpoint whatever the threshold: the file then holds the
    counters and the item id of the manager (as the encoder writes a
    string) with the time of the tick, no item is pending and the manager
    is clean.  So after the first update of a fresh manager with a
    positive save interval and a threshold above 1, which writes nothing,
    a tick leaves the file holding that update. *)
Theorem tick_flushes_pending (cm : CheckpointManager.t) (w : os.World) :
  (CheckpointManager.dirty cm = true ->
   writable (CheckpointManager.config cm) w ->
   let c := CheckpointManager.currentCheckpoint cm in
   exists w',
     CheckpointManager.tick cm w
     = (CheckpointManager.mk (CheckpointManager.config cm)
          (Checkpoint.mk (Checkpoint.TotalItems c) (os.now w)
             (Checkpoint.LastItemID c) (Checkpoint.ProcessedPosition c))
          0 false, w') /\
     os.files w'
       !! CheckpointManager.CheckpointFile (CheckpointManager.config cm)
     = Some (os.Text
               (json.Obj
                  [("total_items", json.Num (Checkpoint.TotalItems c));
                   ("timestamp", json.Str (timejson.format (os.now w)));
                   ("last_item_id",
                    json.Str (utf8.coerce (Checkpoint.LastItemID c)));
                   ("position",
                    json.Num (Checkpoint.ProcessedPosition c))]))) /\
  (forall (interval threshold : Z) (path : string),
     0 < interval ->
     1 < threshold <= Int.max_int ->
     os.files w !! path = None ->
     writable (CheckpointManager.mkConfig interval threshold path) w ->
     exists cm0 cm1 cm2 w2,
       CheckpointManager.NewCheckpointManagerWithConfig
         (CheckpointManager.mkConfig interval threshold path) w
       = CheckpointManager.Returned cm0 /\
       CheckpointManager.UpdateProgressAndMaybeSave 1 "item1" cm0 w
       = (cm1, w, None) /\
       CheckpointManager.tick cm1 w = (cm2, w2) /\
       CheckpointManager.dirty cm2 = false /\
       os.files w2 !! path
       = Some (os.Text
                 (json.Obj
                    [("total_items", json.Num 1);
                     ("timestamp", json.Str (timejson.format (os.now w)));
                     ("last_item_id", json.Str "item1");
                     ("position", json.Num 1)]))).
Proof.
  split.
  - intros Hd (Hp & Ht & Hy) c.
    destruct (save_dirty cm w Hd Hp Ht Hy) as (w' & Hs & Hf & _).
    exists w'. unfold CheckpointManager.tick, CheckpointManager.Save.
    rewrite Hd, Hs. split; [reflexivity | exact Hf].
  - intros interval threshold path Hint Hth Hnone (Hp & Ht & Hy).
    set (cfg := CheckpointManager.mkConfig interval threshold path).
    set (cm1 := CheckpointManager.mk cfg
                  (Checkpoint.mk 1 time.zero "item1" 1) 1 true).
    destruct (save_dirty cm1 w eq_refl Hp Ht Hy) as (w2 & Hs & Hf & _).
    exists (CheckpointManager.mk cfg Checkpoint.zero 0 false), cm1,
      (CheckpointManager.mk cfg (Checkpoint.mk 1 (os.now w) "item1" 1) 0
         false), w2.
    split; [|split; [|split; [|split]]].
    + rewrite (New_without_file cfg w Hnone). now apply autoSave_positive.
    + rewrite Update_unfold. cbv zeta.
      cbn [CheckpointManager.config CheckpointManager.currentCheckpoint
           CheckpointManager.itemsSinceLastCheckpoint
           CheckpointManager.ItemsThreshold cfg Checkpoint.TotalItems
           Checkpoint.SaveTimestamp Checkpoint.zero].
      change (Int.incr 0) with 1.
      destruct (Z.leb_spec threshold 1); [lia | reflexivity].
    + unfold CheckpointManager.tick, CheckpointManager.Save.
      cbn [CheckpointManager.dirty cm1]. rewrite Hs. reflexivity.
    + reflexivity.
    + exact Hf.
Qed.

(** Witness for X26: the repository's test of the ticker, threshold 10. *)
Lemma tick_flushes_pending_witness :
  exists cm0 cm1 cm2 w2,
    CheckpointManager.NewCheckpointManagerWithConfig
      (CheckpointManager.mkConfig 100000000 10
         "TestCheckpointManager_AutoSaveTicker.json")
      (os.mkWorld ∅ (time.mkTime 2024 5 17 10 30 0 0) [] [])
    = CheckpointManager.Returned cm0 /\
    CheckpointManager.UpdateProgressAndMaybeSave 1 "item1" cm0
      (os.mkWorld ∅ (time.mkTime 2024 5 17 10 30 0 0) [] [])
    = (cm1, os.mkWorld ∅ (time.mkTime 2024 5 17 10 30 0 0) [] [], None) /\
    CheckpointManager.tick cm1
      (os.mkWorld ∅ (time.mkTime 2024 5 17 10 30 0 0) [] [])
    = (cm2, w2) /\
    os.files w2 !! "TestCheckpointManager_AutoSaveTicker.json"
    = Some (os.Text
              (json.Obj
                 [("total_items", json.Num 1);
                  ("timestamp", json.Str "2024-05-17T10:30:00Z");
                  ("last_item_id", json.Str "item1");
                  ("position", json.Num 1)])).
Proof.
  destruct (proj2
              (tick_flushes_pending
                 (CheckpointManager.mk
                    (CheckpointManager.mkConfig 100000000 10
                       "TestCheckpointManager_AutoSaveTicker.json")
                    Checkpoint.zero 0 false)
                 (os.mkWorld ∅ (time.mkTime 2024 5 17 10 30 0 0) [] []))
              100000000 10 "TestCheckpointManager_AutoSaveTicker.json")
    as (cm0 & cm1 & cm2 & w2 & H0 & H1 & H2 & _ & Hf).
  - reflexivity.
  - unfold Int.max_int. lia.
  - apply lookup_empty.
  - unfold writable. cbn. repeat split; try apply not_elem_of_nil; lia.
  - exists cm0, cm1, cm2, w2. repeat split; assumption.
Defined.

(** ** Timestamp texts *)

(** X27.  The text of a timestamp is restored by decoding and encoding,
    for years of either sign: when its fields denote a calendar date and a
    time of day, its year fits a Go [int], is not 0, is stored as a year
    [time.Time] represents and is written as [formatTime] writes years (a
    sign and four digits, or more digits without a leading zero), and its
    month and day are [00] exactly below their precision, then [parseTime]
    accepts the text and [formatTime] writes it back unchanged. *)
Theorem timestamp_text_roundtrip (t : string) (m : timeMatch) (y : Z)
    (p : TimePrecision) :
  timeRegex t = Some m -> strconv.ParseInt (m_year m) = Ok y -> y <> 0 ->
  time.representable (stored_year y) ->
  civil (stored_year y) m -> canonical_year (m_year m) ->
  (p < Precision.Month <-> m_month m = "00") ->
  (p < Precision.Day <-> m_day m = "00") ->
  parseTime t = Ok (stored_time y m) /\
  formatTime (stored_time y m) p = t.
Proof.
  intros Hre Hy Hnz _ Hciv Hcan Hm Hd. split.
  - now apply parseTime_civil.
  - now apply format_parse.
Qed.

(** Witness for X27: June 2023, to the month. *)
Lemma timestamp_text_roundtrip_witness :
  parseTime "+2023-06-00T00:00:00Z" = Ok (time.mkTime 2023 6 1 0 0 0 0) /\
  formatTime (time.mkTime 2023 6 1 0 0 0 0) Precision.Month
  = "+2023-06-00T00:00:00Z".
Proof.
  apply (timestamp_text_roundtrip "+2023-06-00T00:00:00Z"
           (mkMatch "+2023" "06" "00" "00" "00" "00") 2023 Precision.Month).
  - reflexivity.
  - reflexivity.
  - lia.
  - unfold time.representable. cbn. lia.
  - unfold civil. split; [|split; [|split; [|split]]]; vm_compute; easy.
  - cbn. left. reflexivity.
  - cbn. unfold Precision.Month. split; [lia | discriminate].
  - cbn. unfold Precision.Month, Precision.Day. split; [reflexivity | lia].
Defined.
